(** * readai backend: page artifact cache, chat session and history curator

    A shallow embedding of the JavaScript sources

    - [backend/src/services/conversationService.js]  (history curator),
    - [backend/index.js]                             (WAV container helpers),
    - [backend/src/services/pageCacheService.js]     (page artifact cache),
    - [geminiService], the file unnamed/part_004      (generation backend client),
    - [backend/src/services/supabaseService.js]      (artifact store client),
    - [backend/src/controllers/chatController.js]    (chat session controller),
    - [geminiDocumentService], in the file
      frontend/src/components/BackToLibrary.tsx      (document service),
    - [backend/src/controllers/pageController.js]    (page endpoints),
    - [config], the file unnamed/part_009             (limits and retry settings),

    together with the properties the specification states about them and
    further properties the code has. *)

From Stdlib Require Import ZArith QArith Qround String Ascii List Bool Lia DecimalString
  DecimalPos.
From stdpp Require Import base list strings gmap.

#[local] Set Warnings "-register-all".
#[local] Open Scope string_scope.

(** ** JavaScript values *)

Module JS.

(** A JavaScript number.  Every number that reaches a branch or a byte of
    output in the modelled code is an integer or an integer divided by a
    literal constant, so a rational carries it exactly; [NaN] is kept
    apart because [parseInt] produces it and comparisons treat it
    specially.  Integers too large for a double stay exact here: they only
    ever meet range checks, which reject them either way. *)
Inductive number := NaN | Num (q : Q).

Inductive value :=
| Undefined
| Null
| Bool (b : bool)
| Number (n : number)
| Str (s : string)
| Arr (items : list value)
| Obj (fields : gmap string value).

(** What a [throw] carries.  [Rejection] is an error object handed over by
    a collaborator (the generation SDK, the storage client). *)
Inductive exn :=
| TypeError (message : string)
| RangeError (message : string)
| Error (message : string)
| CacheExpiredError (message : string)
| Rejection (message : option string) (code : option string).

Definition message_of (e : exn) : option string :=
  match e with
  | TypeError m | RangeError m | Error m | CacheExpiredError m => Some m
  | Rejection m _ => m
  end.

(** Completion of a synchronous computation. *)
Inductive result (A : Type) :=
| Return (a : A)
| Throw (e : exn).
Arguments Return {A} a.
Arguments Throw {A} e.

Definition bind {A B} (r : result A) (k : A -> result B) : result B :=
  match r with
  | Return a => k a
  | Throw e => Throw e
  end.

Definition number_truthy (n : number) : bool :=
  match n with
  | NaN => false
  | Num q => negb (Qeq_bool q 0)
  end.

(** ToBoolean *)
Definition truthy (v : value) : bool :=
  match v with
  | Undefined | Null => false
  | Bool b => b
  | Number n => number_truthy n
  | Str s => negb (String.eqb s "")
  | Arr _ | Obj _ => true
  end.

(** Array.isArray *)
Definition isArray (v : value) : bool :=
  match v with Arr _ => true | _ => false end.

(** typeof v === 'string' *)
Definition is_string (v : value) : bool :=
  match v with Str _ => true | _ => false end.

Definition nullish (v : value) : bool :=
  match v with Undefined | Null => true | _ => false end.

(** [v.k] for the property names the sources read ([role], [content],
    [header], [body], [footer]): an own property of an object, absent on
    every primitive wrapper and on arrays, and a TypeError on [null] and
    [undefined]. *)
Definition get (v : value) (k : string) : result value :=
  match v with
  | Undefined =>
      Throw (TypeError ("Cannot read properties of undefined (reading '" ++ k ++ "')"))
  | Null =>
      Throw (TypeError ("Cannot read properties of null (reading '" ++ k ++ "')"))
  | Obj fields => Return (default Undefined (fields !! k))
  | _ => Return Undefined
  end.

(** Array.prototype.slice(start) with one argument: a negative start counts
    from the end, and both ends are clamped. *)
Definition slice {A} (start : Z) (xs : list A) : list A :=
  let len := Z.of_nat (length xs) in
  let k := if (start <? 0)%Z then Z.max (len + start) 0 else Z.min start len in
  drop (Z.to_nat k) xs.

(** String.prototype.includes(needle) *)
Fixpoint includes (needle s : string) : bool :=
  String.prefix needle s ||
  match s with
  | EmptyString => false
  | String _ s' => includes needle s'
  end.

(** String.prototype.split(sep) for a one-character separator. *)
Fixpoint split (sep : ascii) (s : string) : list string :=
  match s with
  | EmptyString => [""]
  | String c s' =>
      if Ascii.eqb c sep then "" :: split sep s'
      else
        match split sep s' with
        | [] => [String c ""]
        | t :: ts => String c t :: ts
        end
  end.

(** White space and line terminators, among the code units a [string]
    of this development can hold (one byte each): TAB, LF, VT, FF, CR,
    SP and NBSP. *)
Definition is_space (c : ascii) : bool :=
  let n := N_of_ascii c in
  ((9 <=? n) && (n <=? 13))%N || (n =? 32)%N || (n =? 160)%N.

Fixpoint trimStart (s : string) : string :=
  match s with
  | EmptyString => ""
  | String c s' => if is_space c then trimStart s' else s
  end.

Fixpoint trimEnd (s : string) : string :=
  match s with
  | EmptyString => ""
  | String c s' =>
      match trimEnd s' with
      | EmptyString => if is_space c then "" else String c ""
      | t => String c t
      end
  end.

(** String.prototype.trim *)
Definition trim (s : string) : string := trimEnd (trimStart s).

(** s.startsWith(p) *)
Definition startsWith (p s : string) : bool := String.prefix p s.

(** s.slice(1) *)
Definition slice1 (s : string) : string :=
  match s with
  | EmptyString => ""
  | String _ s' => s'
  end.

Definition digit (c : ascii) : option Z :=
  let n := Z.of_N (N_of_ascii c) in
  if ((48 <=? n) && (n <=? 57))%Z then Some (n - 48)%Z else None.

(** The value of the longest prefix of decimal digits, [None] if there is
    no digit. *)
Fixpoint digits (acc : option Z) (s : string) : option Z :=
  match s with
  | EmptyString => acc
  | String c s' =>
      match digit c with
      | Some d => digits (Some (10 * default 0 acc + d)%Z) s'
      | None => acc
      end
  end.

(** parseInt(s, 10).  [None] is an [undefined] argument, which ToString
    turns into the text undefined. *)
Definition parseInt (s : option string) : number :=
  let input := trimStart (default "undefined" s) in
  let '(sign, rest) :=
    match input with
    | String "-" r => ((-1)%Z, r)
    | String "+" r => (1%Z, r)
    | _ => (1%Z, input)
    end in
  match digits None rest with
  | None => NaN
  | Some n => Num (inject_Z (sign * n))
  end.

(** String.prototype.toLowerCase on one-byte code units: A-Z and the
    Latin-1 capitals. *)
Definition lower (c : ascii) : ascii :=
  let n := N_of_ascii c in
  if (((65 <=? n) && (n <=? 90)) ||
      ((192 <=? n) && (n <=? 222) && negb (n =? 215)))%N
  then ascii_of_N (n + 32) else c.

Fixpoint toLowerCase (s : string) : string :=
  match s with
  | EmptyString => ""
  | String c s' => String (lower c) (toLowerCase s')
  end.

(** String(z) for an integer *)
Definition of_int (z : Z) : string := NilZero.string_of_int (Z.to_int z).

(** isNaN on a number *)
Definition isNaN (n : number) : bool :=
  match n with NaN => true | Num _ => false end.

Definition mul (a b : number) : number :=
  match a, b with
  | Num x, Num y => Num (x * y)
  | _, _ => NaN
  end.

Definition add (a b : number) : number :=
  match a, b with
  | Num x, Num y => Num (x + y)
  | _, _ => NaN
  end.

(** Division by a positive literal. *)
Definition div (a : number) (d : positive) : number :=
  match a with
  | Num x => Num (x / inject_Z (Z.pos d))
  | NaN => NaN
  end.

Definition of_Z (z : Z) : number := Num (inject_Z z).

(** Math.round: nearest integer, ties towards +infinity. *)
Definition Math_round (q : Q) : Z := Qfloor (q + (1 # 2)).

(** Math.ceil *)
Definition Math_ceil (q : Q) : Z := Qceiling q.

End JS.

Import JS.

#[global] Instance result_ret : MRet result := @Return.
#[global] Instance result_bind : MBind result := fun A B k r => JS.bind r k.

(** ** History curator  (conversationService.js) *)

Module ConversationService.

(** One turn in the shape the generation backend consumes. *)
Record turn := { turn_role : string; parts : list value }.

(** formatHistoryForGemini(messages) *)
Definition formatHistoryForGemini (messages : value) : result (list turn) :=
  if negb (truthy messages) || negb (isArray messages) then Return []
  else
    match messages with
    | Arr items =>
        let format message :=
          role ← get message "role";
          content ← get message "content";
          Return {| turn_role := match role with
                                 | Str "user" => "user"
                                 | _ => "model"
                                 end;
                    parts := [Obj {[ "text" := content ]}] |} in
        foldr (fun message acc =>
                 t ← format message; ts ← acc; Return (t :: ts))
              (Return []) items
    | _ => Return []
    end.

(** trimHistory(messages, maxMessages = 10); [None] is an omitted second
    argument. *)
Definition trimHistory (messages : value) (maxMessages : option Z) : list value :=
  let maxMessages := default 10%Z maxMessages in
  if negb (truthy messages) || negb (isArray messages) then []
  else
    match messages with
    | Arr items =>
        let trimmed := slice (- maxMessages) items in
        if negb (length trimmed mod 2 =? 0)%nat && (1 <? length trimmed)%nat
        then slice 1 trimmed
        else trimmed
    | _ => []
    end.

(** estimateTokens(text) *)
Definition estimateTokens (text : value) : Z :=
  if negb (truthy text) || negb (is_string text) then 0%Z
  else
    match text with
    | Str s => Math_ceil (inject_Z (Z.of_nat (String.length s)) / 4)
    | _ => 0%Z
    end.

(** The [error] strings of validateHistory, with the interpolated index
    and role kept as data. *)
Inductive history_error :=
| MustBeArray                          (* 'Messages must be an array' *)
| HistoryTooLong                       (* 'Conversation history too long (max 50 messages)' *)
| MissingRoleOrContent (i : nat)       (* `Message ${i} missing role or content` *)
| InvalidRole (i : nat) (role : value) (* `Message ${i} has invalid role: ${message.role}` *)
| ContentNotString (i : nat)           (* `Message ${i} content must be a string` *)
| MessageTooLong (i : nat).            (* `Message ${i} too long (max 10000 characters)` *)

Record validation := { isValid : bool; error : option history_error }.

Definition valid : validation := {| isValid := true; error := None |}.
Definition invalid (e : history_error) : validation :=
  {| isValid := false; error := Some e |}.

(** ['user', 'assistant'].includes(role) *)
Definition known_role (role : value) : bool :=
  match role with
  | Str r => String.eqb r "user" || String.eqb r "assistant"
  | _ => false
  end.

(** The [for] loop of validateHistory, from index [i] on. *)
Fixpoint validate_from (i : nat) (messages : list value) : result validation :=
  match messages with
  | [] => Return valid
  | message :: rest =>
      role ← get message "role";
      if negb (truthy role) then Return (invalid (MissingRoleOrContent i))
      else
        content ← get message "content";
        if negb (truthy content) then Return (invalid (MissingRoleOrContent i))
        else if negb (known_role role) then Return (invalid (InvalidRole i role))
        else
          match content with
          | Str s =>
              if (10000 <? Z.of_nat (String.length s))%Z then Return (invalid (MessageTooLong i))
              else validate_from (S i) rest
          | _ => Return (invalid (ContentNotString i))
          end
  end.

(** validateHistory(messages) *)
Definition validateHistory (messages : value) : result validation :=
  if negb (truthy messages) || negb (isArray messages) then Return (invalid MustBeArray)
  else
    match messages with
    | Arr items =>
        if (50 <? Z.of_nat (length items))%Z then Return (invalid HistoryTooLong)
        else validate_from 0 items
    | _ => Return (invalid MustBeArray)
    end.

End ConversationService.

(** ** Audio codec  (backend/index.js: convertToWav, parseMimeType,
       createWavHeader; the page cache requires the same convertToWav from
       utils/audioUtils) *)

Module AudioUtils.

Record options :=
  { numChannels : number; sampleRate : number; bitsPerSample : number }.

(** parseMimeType(mimeType) *)
Definition parseMimeType (mimeType : string) : options :=
  let pieces := map trim (split ";" mimeType) in
  let fileType := default "" (head pieces) in
  let params := tail pieces in
  let format := split "/" fileType !! 1%nat in
  let bitsPerSample :=
    match format with
    | Some f =>
        if negb (String.eqb f "") && startsWith "L" f then
          let bits := parseInt (Some (slice1 f)) in
          if negb (isNaN bits) then bits else of_Z 16
        else of_Z 16
    | None => of_Z 16
    end in
  let sampleRate :=
    foldl (fun rate param =>
             let kv := map trim (split "=" param) in
             if String.eqb (default "" (head kv)) "rate"
             then parseInt (kv !! 1%nat)
             else rate)
          (of_Z 22050) params in
  {| numChannels := of_Z 1;
     sampleRate := sampleRate;
     bitsPerSample := bitsPerSample |}.

(** A Buffer is its bytes, each in 0..255. *)
Definition Buffer := list Z.

(** Buffer.alloc(n) *)
Definition alloc (n : nat) : Buffer := replicate n 0%Z.

Definition utf8 (s : string) : list Z :=
  map (fun c => Z.of_N (N_of_ascii c)) (list_ascii_of_string s).

(** buffer.write(s, offset), for text that fits *)
Definition write (s : string) (offset : nat) (buffer : Buffer) : Buffer :=
  list_inserts offset (utf8 s) buffer.

(** Byte [i] of [v]: [(v >>> 8 i) & 0xff]. *)
Definition byte_at (v : Z) (i : nat) : Z :=
  (Z.shiftr v (8 * Z.of_nat i) `mod` 256)%Z.

(** The [n] low bytes of [v], least significant first. *)
Definition le_bytes (n : nat) (v : Z) : list Z := map (byte_at v) (seq 0 n).

(** buffer.writeUIntNLE(value, offset) of Node: a value outside
    [0, max] raises ERR_OUT_OF_RANGE; NaN passes both comparisons and is
    stored as 0; a fraction is stored truncated.  The RangeError is
    carried by its code, which stands where the other exceptions have
    their message: the message of Node, which names the bounds and the
    value received, is not modelled, and a test on the text of the message
    (that of getPageAudio for 429) is answered here on the code. *)
Definition writeUIntLE (n : nat) (max : Z) (v : number) (offset : nat)
    (buffer : Buffer) : result Buffer :=
  match v with
  | NaN => Return (list_inserts offset (le_bytes n 0) buffer)
  | Num q =>
      if negb (Qle_bool q (inject_Z max)) || negb (Qle_bool 0 q)
      then Throw (RangeError "ERR_OUT_OF_RANGE")
      else Return (list_inserts offset (le_bytes n (Qfloor q)) buffer)
  end.

Definition writeUInt32LE := writeUIntLE 4 4294967295.
Definition writeUInt16LE := writeUIntLE 2 65535.

(** createWavHeader(dataLength, options) *)
Definition createWavHeader (dataLength : Z) (o : options) : result Buffer :=
  let byteRate := div (mul (mul (sampleRate o) (numChannels o)) (bitsPerSample o)) 8 in
  let blockAlign := div (mul (numChannels o) (bitsPerSample o)) 8 in
  let buffer := alloc 44 in
  let buffer := write "RIFF" 0 buffer in
  buffer ← writeUInt32LE (add (of_Z 36) (of_Z dataLength)) 4 buffer;
  let buffer := write "WAVE" 8 buffer in
  let buffer := write "fmt " 12 buffer in
  buffer ← writeUInt32LE (of_Z 16) 16 buffer;
  buffer ← writeUInt16LE (of_Z 1) 20 buffer;
  buffer ← writeUInt16LE (numChannels o) 22 buffer;
  buffer ← writeUInt32LE (sampleRate o) 24 buffer;
  buffer ← writeUInt32LE byteRate 28 buffer;
  buffer ← writeUInt16LE blockAlign 32 buffer;
  buffer ← writeUInt16LE (bitsPerSample o) 34 buffer;
  let buffer := write "data" 36 buffer in
  buffer ← writeUInt32LE (of_Z dataLength) 40 buffer;
  Return buffer.

Section Wrap.
(** Buffer.from(rawData, 'base64'), the runtime's decoder. *)
Variable base64 : string -> Buffer.

(** convertToWav(rawData, mimeType) *)
Definition convertToWav (rawData mimeType : string) : result Buffer :=
  let o := parseMimeType mimeType in
  let buffer := base64 rawData in
  wavHeader ← createWavHeader (Z.of_nat (length buffer)) o;
  Return (wavHeader ++ buffer)%list.
End Wrap.

(** Little-endian readers, as a consumer of the container decodes it. *)
Definition readUIntLE (n offset : nat) (buffer : Buffer) : Z :=
  foldr (fun b acc => b + 256 * acc)%Z 0%Z (take n (drop offset buffer)).
Definition readUInt32LE := readUIntLE 4.
Definition readUInt16LE := readUIntLE 2.

End AudioUtils.

(** ** The world the services act on *)

Module World.
Import AudioUtils.

(** Rows of the artifact store. *)
Record page :=
  { page_id : nat; page_book_id : string; page_number : Z; image_url : string }.

Record page_text_row :=
  { extracted_text : value; extraction_confidence : Q }.

Record page_audio_row :=
  { voice_persona : string;
    audio_url : option string;
    audio_duration_seconds : Z;
    audio_format : string;
    audio_size_bytes : Z;
    voice_settings : value }.

Record conversation :=
  { conversation_id : string;
    user_id : string;
    conversation_book_id : string;
    gemini_file_uri : option string;
    gemini_cache_name : option string;
    cache_expires_at : option Z (* instant, in ms since the epoch *) }.

Record message_row :=
  { message_id : nat;
    message_conversation_id : string;
    role : string;
    content : string;
    tokens_used : Z;
    cost : Q }.

(** Requests sent to the generation backend. *)
Inductive request :=
| ExtractText (imageData mimeType : string)
| Synthesize (text : string)
| GenerateWithFile (fileUri message : string) (history : list value)
                   (systemInstruction : string).

(** The store is modelled as tables that honour their uniqueness
    constraints (one page per book and number, one text row per page, one
    audio row per page and voice, one conversation per id) and never fail
    in transit.  Wall-clock measurements (processing_duration_ms,
    processingTime) are left out.  The clock moves where the code reads
    it again after waiting, in the document service; elsewhere an awaited
    step takes no time. *)
Record world :=
  { pages : gmap (string * Z) page;
    page_text : gmap nat page_text_row;
    page_audio : gmap (nat * string) page_audio_row;
    files : gmap string Buffer;
    conversations : gmap string conversation;
    messages : list message_row;
    next_id : nat;
    calls : list request;      (* requests made to the generation backend, oldest first;
                                  requests to the file API are not listed *)
    sleeps : list Z;           (* setTimeout delays awaited, oldest first *)
    now : Z }.                 (* what Date.now() reads *)

Definition set_pages f (w : world) : world :=
  {| pages := f (pages w); page_text := page_text w; page_audio := page_audio w;
     files := files w; conversations := conversations w; messages := messages w;
     next_id := next_id w; calls := calls w; sleeps := sleeps w; now := now w |}.
Definition set_page_text f (w : world) : world :=
  {| pages := pages w; page_text := f (page_text w); page_audio := page_audio w;
     files := files w; conversations := conversations w; messages := messages w;
     next_id := next_id w; calls := calls w; sleeps := sleeps w; now := now w |}.
Definition set_page_audio f (w : world) : world :=
  {| pages := pages w; page_text := page_text w; page_audio := f (page_audio w);
     files := files w; conversations := conversations w; messages := messages w;
     next_id := next_id w; calls := calls w; sleeps := sleeps w; now := now w |}.
Definition set_files f (w : world) : world :=
  {| pages := pages w; page_text := page_text w; page_audio := page_audio w;
     files := f (files w); conversations := conversations w; messages := messages w;
     next_id := next_id w; calls := calls w; sleeps := sleeps w; now := now w |}.
Definition set_messages f (w : world) : world :=
  {| pages := pages w; page_text := page_text w; page_audio := page_audio w;
     files := files w; conversations := conversations w; messages := f (messages w);
     next_id := next_id w; calls := calls w; sleeps := sleeps w; now := now w |}.
Definition set_next_id f (w : world) : world :=
  {| pages := pages w; page_text := page_text w; page_audio := page_audio w;
     files := files w; conversations := conversations w; messages := messages w;
     next_id := f (next_id w); calls := calls w; sleeps := sleeps w; now := now w |}.
Definition set_calls f (w : world) : world :=
  {| pages := pages w; page_text := page_text w; page_audio := page_audio w;
     files := files w; conversations := conversations w; messages := messages w;
     next_id := next_id w; calls := f (calls w); sleeps := sleeps w; now := now w |}.
Definition set_sleeps f (w : world) : world :=
  {| pages := pages w; page_text := page_text w; page_audio := page_audio w;
     files := files w; conversations := conversations w; messages := messages w;
     next_id := next_id w; calls := calls w; sleeps := f (sleeps w); now := now w |}.
Definition set_now f (w : world) : world :=
  {| pages := pages w; page_text := page_text w; page_audio := page_audio w;
     files := files w; conversations := conversations w; messages := messages w;
     next_id := next_id w; calls := calls w; sleeps := sleeps w; now := f (now w) |}.

(** An awaited computation: it may change the world and completes by
    returning or throwing. *)
Definition M (A : Type) : Type := world -> result A * world.

Definition ret {A} (a : A) : M A := fun w => (Return a, w).
Definition throw {A} (e : exn) : M A := fun w => (Throw e, w).
Definition bindM {A B} (m : M A) (k : A -> M B) : M B :=
  fun w =>
    match m w with
    | (Return a, w') => k a w'
    | (Throw e, w') => (Throw e, w')
    end.
Definition lift {A} (r : result A) : M A := fun w => (r, w).
Definition read {A} (f : world -> A) : M A := fun w => (Return (f w), w).
Definition update (f : world -> world) : M unit := fun w => (Return tt, f w).

(** try { m } catch (e) { handler e } *)
Definition try_catch {A} (m : M A) (handler : exn -> M A) : M A :=
  fun w =>
    match m w with
    | (Return a, w') => (Return a, w')
    | (Throw e, w') => handler e w'
    end.

(** Replies of the generation backend.  A failed request rejects with an
    error object of the SDK: a message and a code, either possibly absent. *)
Inductive stream_reply :=
| StreamFailed (message code : option string)
| Stream (chunks : list string).   (* the text each chunk contributes *)

Inductive speech_reply :=
| SpeechFailed (message code : option string)
| Speech (data mimeType : option string).  (* inlineData of the first part, if any *)

Record usage :=
  { prompt_tokens : Z; candidates_tokens : Z; cached_tokens : Z; total_tokens : Z }.

(** The reply of the SDK to a chat request: a rejection, or a response
    with its [text] and its [usageMetadata], which may be absent.  A count
    the metadata does not carry is read as 0, by the [|| 0] of
    generateWithFile. *)
Inductive chat_reply :=
| ChatFailed (message code : option string)
| Chat (text : string) (usageMetadata : option usage).

Record config :=
  { maxTextLength : Z;
    maxRetries : Z;
    retryDelay : Z;
    maxConversationHistory : Z }.

(** What the code takes from its runtime and its collaborators.  The
    generation backend answers the [n]-th request made to it (counting
    from 0) as the corresponding function says. *)
Record host :=
  { JSON_parse : string -> option value;         (* [None]: SyntaxError *)
    base64 : string -> Buffer;                   (* Buffer.from(s, 'base64') *)
    generateContentStream : nat -> string -> string -> stream_reply;
    generateContent : nat -> string -> speech_reply;
    generateWithFile : nat -> string -> string -> list value -> string -> chat_reply;
                                                 (* ai.models.generateContent on the
                                                    request generateWithFile builds *)
    getPublicUrl : string -> string;             (* storage public URL of a path *)
    systemInstruction : string;                  (* getDocumentChatSystemInstruction() *)
    cfg : config }.

End World.

Import World.

#[global] Instance M_ret : MRet M := @World.ret.
#[global] Instance M_bind : MBind M := fun A B k m => World.bindM m k.

(** ** Artifact store client  (supabaseService.js) *)

Module SupabaseService.

(** What a query resolves to: [{ data, error }]. *)
Record response (A : Type) := { data : option A; error : option exn }.
Arguments data {A} _.
Arguments error {A} _.

Definition PGRST116 : exn :=
  Rejection (Some "JSON object requested, multiple (or no) rows returned")
            (Some "PGRST116").

Definition unique_violation : exn :=
  Rejection (Some "duplicate key value violates unique constraint") (Some "23505").

(** [.single()]: the one row selected, or an error with the code the
    sources name (PGRST116 = not found, PGRST116 = no rows returned)
    when there is none. *)
Definition single {A} (found : option A) : response A :=
  match found with
  | Some row => {| data := Some row; error := None |}
  | None => {| data := None; error := Some PGRST116 |}
  end.

Definition code_is (c : string) (e : exn) : bool :=
  match e with
  | Rejection _ (Some c') => String.eqb c' c
  | _ => false
  end.

(** [if (error && error.code !== 'PGRST116') throw error; return data;] *)
Definition data_unless_other_error {A} (r : response A) : M (option A) :=
  match error r with
  | Some e => if negb (code_is "PGRST116" e) then throw e else mret (data r)
  | None => mret (data r)
  end.

(** [if (error) throw error; return data;] *)
Definition data_unless_error {A} (r : response A) : M (option A) :=
  match error r with
  | Some e => throw e
  | None => mret (data r)
  end.

(** getPageByBookAndNumber(bookId, pageNumber) *)
Definition getPageByBookAndNumber (bookId : string) (pageNumber : Z) : M (option page) :=
  found ← read (fun w => pages w !! (bookId, pageNumber));
  data_unless_other_error (single found).

(** createPage(bookId, pageData) *)
Definition createPage (bookId : string) (page_number : Z) (image_url : option string)
  : M page :=
  taken ← read (fun w => pages w !! (bookId, page_number));
  match taken with
  | Some _ => throw unique_violation
  | None =>
      id ← read next_id;
      let row := {| page_id := id;
                    page_book_id := bookId;
                    page_number := page_number;
                    image_url := match image_url with
                                 | Some u => if String.eqb u "" then "placeholder" else u
                                 | None => "placeholder"
                                 end |} in
      _ ← update (set_next_id S);
      _ ← update (set_pages (insert (bookId, page_number) row));
      mret row
  end.

(** getOrCreatePage(bookId, pageNumber, imageUrl = null) *)
Definition getOrCreatePage (bookId : string) (pageNumber : Z) (imageUrl : option string)
  : M page :=
  page ← getPageByBookAndNumber bookId pageNumber;
  match page with
  | Some page => mret page
  | None => createPage bookId pageNumber imageUrl
  end.

(** The [pages] object joined into a text or audio row. *)
Record joined_page := { joined_book_id : string; joined_page_number : Z }.

(** getPageTextByBookAndNumber(bookId, pageNumber) *)
Definition getPageTextByBookAndNumber (bookId : string) (pageNumber : Z)
  : M (option (page_text_row * joined_page)) :=
  found ← read (fun w =>
                   p ← pages w !! (bookId, pageNumber);
                   row ← page_text w !! page_id p;
                   Some (row, {| joined_book_id := bookId;
                                 joined_page_number := pageNumber |}));
  data_unless_other_error (single found).

(** getPageAudioByBookAndNumber(bookId, pageNumber, voicePersona) *)
Definition getPageAudioByBookAndNumber (bookId : string) (pageNumber : Z)
    (voicePersona : string) : M (option (page_audio_row * joined_page)) :=
  found ← read (fun w =>
                   p ← pages w !! (bookId, pageNumber);
                   row ← page_audio w !! (page_id p, voicePersona);
                   Some (row, {| joined_book_id := bookId;
                                 joined_page_number := pageNumber |}));
  data_unless_other_error (single found).

(** savePageText(pageId, textData): upsert of the page's text row *)
Definition savePageText (pageId : nat) (textData : page_text_row) : M page_text_row :=
  _ ← update (set_page_text (insert pageId textData));
  mret textData.

(** savePageAudio(pageId, audioData): upsert of the row of this page and
    voice *)
Definition savePageAudio (pageId : nat) (audioData : page_audio_row) : M page_audio_row :=
  let row := {| voice_persona := if String.eqb (voice_persona audioData) ""
                                 then "default" else voice_persona audioData;
                audio_url := audio_url audioData;
                audio_duration_seconds := audio_duration_seconds audioData;
                audio_format := if String.eqb (audio_format audioData) ""
                                then "wav" else audio_format audioData;
                audio_size_bytes := audio_size_bytes audioData;
                voice_settings := voice_settings audioData |} in
  _ ← update (set_page_audio (insert (pageId, voice_persona row) row));
  mret row.

(** saveAudioFile(audioBuffer, filePath): upload with upsert, then
    getFileUrl *)
Definition saveAudioFile (h : host) (audioBuffer : AudioUtils.Buffer) (filePath : string)
  : M string :=
  _ ← update (set_files (insert filePath audioBuffer));
  let publicUrl := getPublicUrl h filePath in
  if String.eqb publicUrl "" then throw (Error "Failed to get public URL from Supabase")
  else mret publicUrl.

(** getConversationById(conversationId) *)
Definition getConversationById (conversationId : string) : M (option conversation) :=
  found ← read (fun w => conversations w !! conversationId);
  data_unless_error (single found).

(** getConversationMessages(conversationId), oldest first *)
Definition getConversationMessages (conversationId : string) : M (list message_row) :=
  read (fun w =>
          filter (fun m => message_conversation_id m = conversationId) (messages w)).

(** createMessage(messageData) *)
Definition createMessage (conversationId role content : string) (tokensUsed : Z)
    (cost : Q) : M message_row :=
  id ← read next_id;
  let row := {| message_id := id;
                message_conversation_id := conversationId;
                role := role;
                content := content;
                tokens_used := tokensUsed;
                cost := cost |} in
  _ ← update (set_next_id S);
  _ ← update (set_messages (fun ms => ms ++ [row])%list);
  mret row.

End SupabaseService.

(** ** Generation backend client  (geminiService: unnamed/part_004) *)

Module GeminiService.

(** Ask the backend: the request is logged, and the reply is the one the
    host gives to the request with this sequence number. *)
Definition ask {A} (rq : request) (reply : nat -> A) : M A :=
  n ← read (fun w => length (calls w));
  _ ← update (set_calls (fun l => l ++ [rq])%list);
  mret (reply n).

(** parseResponse(fullText) *)
Definition parseResponse (h : host) (fullText : string) : value :=
  match JSON_parse h fullText with
  | Some v => v
  | None =>
      Obj {[ "header" := Str "";
             "body" := Str (if String.eqb fullText "" then "Text extraction failed"
                            else fullText);
             "footer" := Str "" ]}
  end.

(** processImageToText(imageData, mimeType) *)
Definition processImageToText (h : host) (imageData mimeType : string) : M value :=
  if String.eqb imageData "" then throw (Error "Image data is required")
  else if String.eqb mimeType "" then throw (Error "MIME type is required")
  else if negb (startsWith "image/" mimeType)
  then throw (Error ("Invalid MIME type: " ++ mimeType ++ ". Expected image type."))
  else
    response ← ask (ExtractText imageData mimeType)
                   (fun n => generateContentStream h n imageData mimeType);
    match response with
    | StreamFailed message code => throw (Rejection message code)
    | Stream chunks =>
        let fullText := foldl String.append "" chunks in
        mret (parseResponse h fullText)
    end.

(** [error.message && error.message.includes('429')] *)
Definition rate_limited (error : exn) : bool :=
  match message_of error with
  | Some m => negb (String.eqb m "") && includes "429" m
  | None => false
  end.

(** setTimeout(resolve, waitTime), awaited *)
Definition sleep (waitTime : Z) : M unit :=
  update (set_sleeps (fun l => l ++ [waitTime])%list).

(** The [while (attempts < maxAttempts)] loop of retryWithBackoff.  Each
    turn either leaves the loop or raises [attempts] by one, so
    [maxAttempts - attempts] turns of [fuel] see it to its end.  [None] is
    the [undefined] of falling out of the loop. *)
Fixpoint retry_loop {A} (fuel : nat) (maxAttempts retryDelay attempts : Z)
    (operation : M A) : M (option A) :=
  match fuel with
  | O => mret None
  | S fuel =>
      if negb (attempts <? maxAttempts)%Z then mret None
      else
        try_catch (a ← operation; mret (Some a))
          (fun error =>
             let attempts := (attempts + 1)%Z in
             if rate_limited error && (attempts <? maxAttempts)%Z then
               let waitTime := (2 ^ attempts * retryDelay)%Z in
               _ ← sleep waitTime;
               retry_loop fuel maxAttempts retryDelay attempts operation
             else throw error)
  end.

(** retryWithBackoff(operation) *)
Definition retryWithBackoff {A} (h : host) (operation : M A) : M (option A) :=
  let maxAttempts := maxRetries (cfg h) in
  retry_loop (Z.to_nat maxAttempts) maxAttempts (retryDelay (cfg h)) 0 operation.

(** The payload of a successful synthesis. *)
Record audio := { audio_data : string; audio_mimeType : string }.

(** The text generateAudio sends: cut to config.maxTextLength, with an
    ellipsis, when longer. *)
Definition truncatedText (h : host) (text : string) : string :=
  if (maxTextLength (cfg h) <? Z.of_nat (String.length text))%Z
  then String.substring 0 (Z.to_nat (maxTextLength (cfg h))) text ++ "..."
  else text.

(** What the retried operation of generateAudio makes of a response. *)
Definition audio_of (response : speech_reply) : result audio :=
  match response with
  | SpeechFailed message code => Throw (Rejection message code)
  | Speech audioData mimeType =>
      match audioData with
      | Some d =>
          if String.eqb d "" then Throw (Error "No audio data in response")
          else Return {| audio_data := d;
                         audio_mimeType := match mimeType with
                                           | Some m => m
                                           | None => ""
                                           end |}
      | None => Throw (Error "No audio data in response")
      end
  end.

(** generateAudio(text) *)
Definition generateAudio (h : host) (text : string) : M (option audio) :=
  let truncatedText := truncatedText h text in
  retryWithBackoff h
    (response ← ask (Synthesize truncatedText)
                    (fun n => generateContent h n truncatedText);
     lift (audio_of response)).

End GeminiService.

(** ** Page artifact cache  (pageCacheService.js) *)

Module PageCacheService.
Import SupabaseService GeminiService.

Record extracted := { header : string; body : string; footer : string }.

(** [typeof v === 'string' ? v : ''] *)
Definition string_or_empty (v : value) : string :=
  match v with Str s => s | _ => "" end.

(** The tail of normalizeExtractedText: the three guarded field reads. *)
Definition safe_fields (parsed : value) : result extracted :=
  h ← get parsed "header";
  b ← get parsed "body";
  f ← get parsed "footer";
  Return {| header := string_or_empty h;
            body := string_or_empty b;
            footer := string_or_empty f |}.

(** normalizeExtractedText(rawText) *)
Definition normalizeExtractedText (h : host) (rawText : value) : result extracted :=
  if negb (truthy rawText) then Return {| header := ""; body := ""; footer := "" |}
  else
    match rawText with
    | Str s =>
        match JSON_parse h s with
        | Some parsed => safe_fields parsed
        | None => Return {| header := ""; body := s; footer := "" |}
        end
    | _ => safe_fields rawText
    end.

(** The [page] of a result: the joined [pages] object on a hit, the page
    row on a miss. *)
Inductive page_view :=
| Joined (p : joined_page)
| Row (p : page).

Record text_result := { cached : bool; text : extracted; text_page : page_view }.

(** getOrExtractPageText(bookId, pageNumber, imageData, mimeType, userId) *)
Definition getOrExtractPageText (h : host) (bookId : string) (pageNumber : Z)
    (imageData mimeType userId : string) : M text_result :=
  existingText ← getPageTextByBookAndNumber bookId pageNumber;
  match existingText with
  | Some (row, joined) =>
      normalizedText ← lift (normalizeExtractedText h (extracted_text row));
      mret {| cached := true; text := normalizedText; text_page := Joined joined |}
  | None =>
      page ← getOrCreatePage bookId pageNumber (Some "placeholder");
      extractedText ← processImageToText h imageData mimeType;
      _ ← savePageText (page_id page)
            {| extracted_text := extractedText; extraction_confidence := 95 # 100 |};
      normalizedText ← lift (normalizeExtractedText h extractedText);
      mret {| cached := false; text := normalizedText; text_page := Row page |}
  end.

Record audio_result :=
  { audio_cached : bool; audioUrl : string; duration : Z; audio_page : page_view }.

(** getOrGeneratePageAudio(bookId, pageNumber, text, voicePersona = 'Zephyr',
    userId); [None] is an omitted voice. *)
Definition getOrGeneratePageAudio (h : host) (bookId : string) (pageNumber : Z)
    (text : string) (voicePersona : option string) (userId : string) : M audio_result :=
  let voicePersona := default "Zephyr" voicePersona in
  existingAudio ← getPageAudioByBookAndNumber bookId pageNumber voicePersona;
  let hit :=
    match existingAudio with
    | Some (row, joined) =>
        match audio_url row with
        | Some url => if String.eqb url "" then None else Some (row, joined, url)
        | None => None
        end
    | None => None
    end in
  match hit with
  | Some (row, joined, url) =>
      mret {| audio_cached := true;
              audioUrl := url;
              duration := audio_duration_seconds row;
              audio_page := Joined joined |}
  | None =>
      page ← getOrCreatePage bookId pageNumber (Some "placeholder");
      generated ← generateAudio h text;
      match generated with
      | None =>
          throw (TypeError "Cannot destructure property 'data' of undefined")
      | Some generated =>
          wavBuffer ← lift (AudioUtils.convertToWav (base64 h) (audio_data generated)
                                                    (audio_mimeType generated));
          let fileName := "page_" ++ of_int pageNumber ++ "_"
                          ++ toLowerCase voicePersona ++ ".wav" in
          let filePath := "audio/" ++ userId ++ "/" ++ bookId ++ "/" ++ fileName in
          audioUrl ← saveAudioFile h wavBuffer filePath;
          let estimatedDuration :=
            Math_round (inject_Z (Z.of_nat (length wavBuffer))
                        / inject_Z (44100 * 2 * 2)) in
          _ ← savePageAudio (page_id page)
                {| voice_persona := voicePersona;
                   audio_url := Some audioUrl;
                   audio_duration_seconds := estimatedDuration;
                   audio_format := "wav";
                   audio_size_bytes := Z.of_nat (length wavBuffer);
                   voice_settings := Obj {[ "voiceName" := Str voicePersona ]} |};
          mret {| audio_cached := false;
                  audioUrl := audioUrl;
                  duration := estimatedDuration;
                  audio_page := Row page |}
      end
  end.

End PageCacheService.

(** ** Document service  (geminiDocumentService, the class of
       frontend/src/components/BackToLibrary.tsx) *)

Module GeminiDocumentService.
Import AudioUtils GeminiService.

(** A file as the file API describes it. *)
Record file := { file_uri : string; file_name : string; file_state : string }.

(** The response of [fetch]: [ok], the status followed by its text, and
    the body. *)
Record fetched :=
  { response_ok : bool; response_status : string; response_body : Buffer }.

(** What the service and the chat handlers take from outside: [fetch]
    with the reading of the body, the file API of the SDK, the configured
    timeout, the time the awaited network steps take, and the key the
    store gives a new conversation row.  A rejected promise is the
    exception it carries.  The poll numbered [n] of a wait, counting from
    0, is answered as [files_get n] says.  The temporary file of an upload
    is not modelled: what is uploaded is the body fetched, and writing and
    unlinking the file neither fail nor take time. *)
Record documents :=
  { fetch : string -> result fetched;
    files_upload : Buffer -> string -> result file;   (* ai.files.upload *)
    files_get : nat -> string -> result file;         (* ai.files.get *)
    files_delete : string -> result unit;             (* ai.files.delete *)
    fileUploadTimeout : Z;        (* config.geminiChat.fileUploadTimeout *)
    fetch_took : Z;               (* ms until the fetched body is at hand *)
    upload_took : Z;              (* ms an upload takes *)
    poll_took : nat -> Z;         (* ms the poll numbered n takes *)
    timer_lag : nat -> Z;         (* ms the timer after that poll fires late *)
    new_conversation_id : nat -> string }.   (* the id the store gives a new row *)

(** Time passing while a promise is awaited. *)
Definition elapse (ms : Z) : M unit := update (set_now (fun t => (t + ms)%Z)).

(** new Error(`${prefix}${error.message}`) *)
Definition rethrown (prefix : string) (error : exn) : exn :=
  Error (prefix ++ default "undefined" (message_of error)).

(** uploadPdfFromUrl(pdfUrl, displayName) *)
Definition uploadPdfFromUrl (docs : documents) (pdfUrl displayName : string) : M file :=
  if String.eqb pdfUrl "" then throw (Error "PDF URL is required")
  else if String.eqb displayName "" then throw (Error "Display name is required")
  else
    try_catch
      (_ ← elapse (fetch_took docs);
       response ← lift (fetch docs pdfUrl);
       if negb (response_ok response) then
         throw (Error ("Failed to fetch PDF: " ++ response_status response))
       else
         _ ← elapse (upload_took docs);
         lift (files_upload docs (response_body response) displayName))
      (fun error => throw (rethrown "Failed to upload PDF: " error)).

(** The [while (Date.now() - startTime < timeout)] loop of
    waitForFileProcessing and the [throw] after it; [n] numbers the poll.
    A turn that goes on to the next lasts 2000 ms at least, provided no
    step takes a negative time, so [timeout / 2000 + 1] turns of [fuel]
    see the loop to its end. *)
Fixpoint poll (docs : documents) (fuel : nat) (fileName : string) (startTime timeout : Z)
    (n : nat) : M file :=
  let expired :=
    Error ("File processing timeout after " ++ of_int timeout ++ "ms - File: " ++ fileName) in
  match fuel with
  | O => throw expired
  | S fuel =>
      today ← read now;
      if (today - startTime <? timeout)%Z then
        _ ← elapse (poll_took docs n);
        file ← lift (files_get docs n fileName);
        if String.eqb (file_state file) "ACTIVE" then mret file
        else if String.eqb (file_state file) "FAILED" then
          throw (Error ("File processing failed - File: " ++ fileName))
        else
          _ ← sleep 2000;
          _ ← elapse (2000 + timer_lag docs n);
          poll docs fuel fileName startTime timeout (S n)
      else throw expired
  end.

(** waitForFileProcessing(fileName), with the default of its second
    parameter; its [catch] throws what it caught. *)
Definition waitForFileProcessing (docs : documents) (fileName : string) : M file :=
  let timeout := if (fileUploadTimeout docs =? 0)%Z then 60000%Z
                 else fileUploadTimeout docs in
  if String.eqb fileName "" then throw (Error "File name is required")
  else
    startTime ← read now;
    poll docs (Z.to_nat (timeout / 2000 + 1)) fileName startTime timeout 0.

(** deleteFile(fileName).  Nothing reads the clock after it, so the time
    it takes is left out. *)
Definition deleteFile (docs : documents) (fileName : string) : result unit :=
  if String.eqb fileName "" then Throw (Error "File name is required")
  else
    match files_delete docs fileName with
    | Return _ => Return tt
    | Throw error => Throw (rethrown "Failed to delete file: " error)
    end.

(** The [contents] built from the history: of each message its [role],
    with [model] for [assistant], and its [content]. *)
Definition history_contents (conversationHistory : list value)
  : result (list (value * value)) :=
  foldr (fun msg acc =>
           role ← get msg "role";
           content ← get msg "content";
           contents ← acc;
           Return ((match role with
                    | Str "assistant" => Str "model"
                    | _ => role
                    end, content) :: contents))
        (Return []) conversationHistory.

(** What generateWithFile returns: { text, tokensUsed }. *)
Record generated := { text : string; tokensUsed : usage }.

(** generateWithFile(fileUri, userMessage, conversationHistory,
    systemInstruction) *)
Definition generateWithFile (h : host) (fileUri userMessage : string)
    (conversationHistory : list value) (systemInstruction : string) : M generated :=
  if String.eqb fileUri "" then throw (Error "File URI is required")
  else if String.eqb userMessage "" then throw (Error "User message is required")
  else
    try_catch
      (_ ← lift (history_contents conversationHistory);
       response ← ask (GenerateWithFile fileUri userMessage conversationHistory
                                        systemInstruction)
                      (fun n => World.generateWithFile h n fileUri userMessage
                                  conversationHistory systemInstruction);
       match response with
       | ChatFailed message code => throw (Rejection message code)
       | Chat text usageMetadata =>
           mret {| text := text;
                   tokensUsed :=
                     {| prompt_tokens := from_option prompt_tokens 0%Z usageMetadata;
                        candidates_tokens := from_option candidates_tokens 0%Z usageMetadata;
                        cached_tokens := from_option cached_tokens 0%Z usageMetadata;
                        total_tokens := from_option total_tokens 0%Z usageMetadata |} |}
       end)
      (fun error => throw (rethrown "Failed to generate content: " error)).

End GeminiDocumentService.

(** ** Chat session controller  (chatController.js) *)

Module ChatController.
Import SupabaseService GeminiService ConversationService.

(** The JSON bodies sendMessage answers with. *)
Inductive body :=
| ErrorBody (error : string)                    (* { error } *)
| ValidationBody (error : option history_error) (* { error: validation.error } *)
| ExpiredBody (error code : string)             (* { error, code } *)
| ReplyBody (message : string) (messageId : nat) (tokensUsed : usage).
                                                (* { success: true, message, messageId, tokensUsed } *)

(** How a handler ends: [res.status(s).json(b)] or [next(error)]. *)
Inductive outcome :=
| Json (status : Z) (b : body)
| Next (error : exn).

(** calculateMessageCost(tokensUsed).  The sum is exact here; the code
    computes it in double precision and so may differ in the last place. *)
Definition calculateMessageCost (tokensUsed : option usage) : Q :=
  match tokensUsed with
  | None => 0
  | Some u =>
      inject_Z (cached_tokens u) * (1 # 100000)
      + inject_Z (prompt_tokens u) * (15 # 100000)
      + inject_Z (candidates_tokens u) * (60 # 100000)
  end.

(** A message row as the object the history curator reads. *)
Definition message_object (m : message_row) : value :=
  Obj {[ "id" := Number (of_Z (Z.of_nat (message_id m)));
         "conversation_id" := Str (message_conversation_id m);
         "role" := Str (role m);
         "content" := Str (content m);
         "tokens_used" := Number (of_Z (tokens_used m));
         "cost" := Number (Num (cost m)) ]}.

(** The [try] block of sendMessage.  [None] is a field missing from the
    request body. *)
Definition sendMessage_try (h : host) (userId : string)
    (conversationId message : option string) : M outcome :=
  let conversationId := default "" conversationId in
  let message := default "" message in
  if String.eqb conversationId "" || String.eqb message "" then
    mret (Json 400 (ErrorBody "conversationId and message are required"))
  else if (10000 <? Z.of_nat (String.length message))%Z then
    mret (Json 400 (ErrorBody "Message too long (max 10000 characters)"))
  else
    conversation ← getConversationById conversationId;
    match conversation with
    | None => mret (Json 404 (ErrorBody "Conversation not found"))
    | Some conversation =>
        if negb (String.eqb (user_id conversation) userId) then
          mret (Json 403 (ErrorBody "Access denied to this conversation"))
        else
          today ← read now;
          if match cache_expires_at conversation with
             | Some expires => (expires <? today)%Z
             | None => false
             end
          then throw (CacheExpiredError "File has expired. Please upload the book again.")
          else
            match gemini_file_uri conversation with
            | None => throw (CacheExpiredError "Conversation is not prepared for chat")
            | Some fileUri =>
                if String.eqb fileUri "" then
                  throw (CacheExpiredError "Conversation is not prepared for chat")
                else
                  rows ← getConversationMessages conversationId;
                  let history := Arr (map message_object rows) in
                  validation ← lift (validateHistory history);
                  if negb (isValid validation) then
                    mret (Json 400 (ValidationBody (ConversationService.error validation)))
                  else
                    let limit := if (maxConversationHistory (cfg h) =? 0)%Z then 10%Z
                                 else maxConversationHistory (cfg h) in
                    let trimmedHistory := trimHistory history (Some limit) in
                    response ← GeminiDocumentService.generateWithFile h fileUri message
                                 trimmedHistory (systemInstruction h);
                    let tokensUsed := GeminiDocumentService.tokensUsed response in
                    _ ← createMessage conversationId "user" message
                          (prompt_tokens tokensUsed) 0;
                    assistantMessage ←
                      createMessage conversationId "assistant"
                        (GeminiDocumentService.text response)
                        (candidates_tokens tokensUsed)
                        (calculateMessageCost (Some tokensUsed));
                    mret (Json 200 (ReplyBody (GeminiDocumentService.text response)
                                      (message_id assistantMessage) tokensUsed))
            end
    end.

(** sendMessage(req, res, next): the [try] block and its [catch]. *)
Definition sendMessage (h : host) (userId : string)
    (conversationId message : option string) (w : world) : outcome * world :=
  match sendMessage_try h userId conversationId message w with
  | (Return o, w') => (o, w')
  | (Throw (CacheExpiredError m), w') => (Json 410 (ExpiredBody m "CACHE_EXPIRED"), w')
  | (Throw e, w') => (Next e, w')
  end.

End ChatController.

(** ** The specification's vocabulary *)

Module Spec.
Import ConversationService AudioUtils.

(** The [n] most recent entries of a history. *)
Definition most_recent {A} (n : nat) (history : list A) : list A :=
  reverse (take n (reverse history)).

(** The window the specification describes for trimHistory: the
    [maxMessages] most recent entries, less the oldest of them when their
    number is odd and greater than one. *)
Definition window {A} (maxMessages : Z) (history : list A) : list A :=
  let kept := most_recent (Z.to_nat maxMessages) history in
  if Nat.odd (length kept) && (1 <? length kept)%nat then tail kept else kept.

(** A field of a history entry; absent fields read as [undefined]. *)
Definition field (entry : value) (k : string) : value :=
  match entry with
  | Obj fields => default Undefined (fields !! k)
  | _ => Undefined
  end.

(** An entry lacks a role or a content when the field is absent or empty. *)
Definition lacks_role_or_content (entry : value) : Prop :=
  truthy (field entry "role") = false \/ truthy (field entry "content") = false.

Definition role_outside (entry : value) : Prop :=
  field entry "role" <> Str "user" /\ field entry "role" <> Str "assistant".

(** A valid entry: role [user] or [assistant], and a non-empty string
    content of at most 10,000 characters. *)
Definition valid_entry (entry : value) : Prop :=
  exists r c,
    field entry "role" = Str r /\ (r = "user" \/ r = "assistant") /\
    field entry "content" = Str c /\ c <> "" /\
    (Z.of_nat (String.length c) <= 10000)%Z.

(** The path under which the audio of a page and voice is filed. *)
Definition audio_path (userId bookId : string) (pageNumber : Z)
    (voicePersona : option string) : string :=
  "audio/" ++ userId ++ "/" ++ bookId ++ "/" ++ "page_" ++ of_int pageNumber ++ "_"
  ++ toLowerCase (default "Zephyr" voicePersona) ++ ".wav".

(** The cached text row of a page, if any. *)
Definition cached_text (w : world) (bookId : string) (pageNumber : Z)
  : option page_text_row :=
  p ← pages w !! (bookId, pageNumber);
  page_text w !! page_id p.

(** A client asking for the text of one page again and again, each time
    with its own image bytes, declared format and requester. *)
Fixpoint ask_again (h : host) (bookId : string) (pageNumber : Z)
    (requests : list (string * string * string)) (w : world)
  : list (result PageCacheService.text_result) * world :=
  match requests with
  | [] => ([], w)
  | (imageData, mimeType, userId) :: rest =>
      let '(r, w') :=
        PageCacheService.getOrExtractPageText h bookId pageNumber imageData mimeType
          userId w in
      let '(rs, w'') := ask_again h bookId pageNumber rest w' in
      (r :: rs, w'')
  end.

(** The duration the specification describes:
    byteLength / (sampleRate x channelCount x bytesPerSample), with the
    values the codec parsed from the format descriptor. *)
Definition described_duration (byteLength : Z) (o : options) : option Q :=
  match sampleRate o, numChannels o, bitsPerSample o with
  | Num rate, Num channels, Num bits =>
      Some (inject_Z byteLength / (rate * channels * (bits / 8)))%Q
  | _, _, _ => None
  end.

(** The voice under which savePageAudio files a row. *)
Definition stored_voice (voicePersona : option string) : string :=
  let v := default "Zephyr" voicePersona in
  if String.eqb v "" then "default" else v.

(** Two worlds with the same store: they differ at most in the log of
    backend requests and of delays. *)
Definition same_store (w w' : world) : Prop :=
  pages w' = pages w /\ page_text w' = page_text w /\ page_audio w' = page_audio w /\
  files w' = files w /\ conversations w' = conversations w /\
  messages w' = messages w /\ next_id w' = next_id w /\ now w' = now w.

(** How one attempt ends for the caller of a retried operation. *)
Definition settled {A} (r : result A) : result (option A) :=
  match r with
  | Return a => Return (Some a)
  | Throw e => Throw e
  end.

(** The delays of an exponential backoff over [k] retries: 2 d, 4 d, ...,
    2^k d. *)
Definition backoff (d : Z) (k : nat) : list Z :=
  map (fun i => 2 ^ Z.of_nat i * d)%Z (seq 1 k).

End Spec.

(** ** A concrete host, for running the services on examples *)

Module Example.

(** A stand-in for JSON.parse that knows the three JSON literals and
    rejects every other text. *)
Definition parse_literal (s : string) : option value :=
  if String.eqb s "null" then Some Null
  else if String.eqb s "true" then Some (Bool true)
  else if String.eqb s "false" then Some (Bool false)
  else None.

Definition settings : config :=
  {| maxTextLength := 1000; maxRetries := 3; retryDelay := 1000;
     maxConversationHistory := 10 |}.

(** A backend that always answers, and a decoder that yields one zero
    byte per character. *)
Definition steady : host :=
  {| JSON_parse := parse_literal;
     base64 := fun s => replicate (String.length s) 0%Z;
     generateContentStream := fun _ _ _ => Stream ["page "; "text"];
     generateContent := fun _ _ => Speech (Some "AAAA") (Some "audio/L16;rate=24000");
     generateWithFile := fun _ _ _ _ _ =>
       Chat "answer" (Some {| prompt_tokens := 12; candidates_tokens := 7;
                              cached_tokens := 0; total_tokens := 19 |});
     getPublicUrl := fun path => "https://media.example/" ++ path;
     systemInstruction := "You answer questions about the attached book.";
     cfg := settings |}.

(** The same, where the synthesis payload decodes to 47,956 bytes: a
    48,000-byte container, one second of 24 kHz 16-bit mono sound. *)
Definition long_audio : host :=
  {| JSON_parse := JSON_parse steady;
     base64 := fun _ => replicate (Z.to_nat 47956) 0%Z;
     generateContentStream := generateContentStream steady;
     generateContent := generateContent steady;
     generateWithFile := generateWithFile steady;
     getPublicUrl := getPublicUrl steady;
     systemInstruction := systemInstruction steady;
     cfg := settings |}.

(** A backend that answers its first request with a rate-limit error
    and every later one properly. *)
Definition throttled_once : host :=
  {| JSON_parse := parse_literal;
     base64 := base64 steady;
     generateContentStream := fun n _ _ =>
       match n with
       | O => StreamFailed (Some "got status: 429 Too Many Requests") (Some "429")
       | S _ => Stream ["page "; "text"]
       end;
     generateContent := fun n _ =>
       match n with
       | O => SpeechFailed (Some "got status: 429 Too Many Requests") (Some "429")
       | S _ => Speech (Some "AAAA") (Some "audio/L16;rate=24000")
       end;
     generateWithFile := generateWithFile steady;
     getPublicUrl := getPublicUrl steady;
     systemInstruction := systemInstruction steady;
     cfg := settings |}.

(** A history entry. *)
Definition entry (role content : string) : value :=
  Obj {[ "role" := Str role; "content" := Str content ]}.

Fixpoint repeat_char (c : ascii) (n : nat) : string :=
  match n with
  | O => ""
  | S n => String c (repeat_char c n)
  end.

Definition empty : world :=
  {| pages := ∅; page_text := ∅; page_audio := ∅; files := ∅; conversations := ∅;
     messages := []; next_id := 0; calls := []; sleeps := []; now := 1700000000000 |}.

End Example.

(** ** History curator, the remaining helpers  (conversationService.js) *)

Module ConversationTools.
Import ConversationService.

(** estimateHistoryTokens(messages): a [reduce] from 0, left to right *)
Definition estimateHistoryTokens (messages : value) : result Z :=
  if negb (truthy messages) || negb (isArray messages) then Return 0%Z
  else
    match messages with
    | Arr items =>
        foldl (fun acc message =>
                 total ← acc;
                 content ← get message "content";
                 Return (total + estimateTokens content)%Z)
              (Return 0%Z) items
    | _ => Return 0%Z
    end.

Record prompt := { contents : list turn; totalTokens : Z }.

(** buildPrompt(userMessage, history) *)
Definition buildPrompt (userMessage history : value) : result prompt :=
  if negb (truthy userMessage) then Throw (Error "User message is required")
  else
    formattedHistory ← formatHistoryForGemini history;
    historyTokens ← estimateHistoryTokens history;
    Return {| contents := (formattedHistory
                           ++ [{| turn_role := "user";
                                  parts := [Obj {[ "text" := userMessage ]}] |}])%list;
              totalTokens := (historyTokens + estimateTokens userMessage)%Z |}.

(** messages.filter(m => m.role === role).length *)
Definition count_role (role : string) (items : list value) : result nat :=
  foldl (fun acc m =>
           n ← acc;
           r ← get m "role";
           Return (match r with
                   | Str s => if String.eqb s role then S n else n
                   | _ => n
                   end))
        (Return 0%nat) items.

Definition not_a_function : exn := TypeError "messages.filter is not a function".

(** isHistoryBalanced(messages).  Only an array has a [filter] method;
    on any other value that is neither falsy nor of length 0 the call of
    [messages.filter] throws. *)
Definition isHistoryBalanced (messages : value) : result bool :=
  if negb (truthy messages) then Return true
  else
    match messages with
    | Arr items =>
        if (length items =? 0)%nat then Return true
        else
          userCount ← count_role "user" items;
          assistantCount ← count_role "assistant" items;
          Return (Z.abs (Z.of_nat userCount - Z.of_nat assistantCount) <=? 1)%Z
    | Obj fields =>
        match fields !! "length" with
        | Some (Number (Num q)) => if Qeq_bool q 0 then Return true else Throw not_a_function
        | _ => Throw not_a_function
        end
    | _ => Throw not_a_function
    end.

(** s.replace(/\s+/g, ' '): [in_run] tells that the character before was
    white space, already replaced. *)
Fixpoint collapse (in_run : bool) (s : string) : string :=
  match s with
  | EmptyString => ""
  | String c s' =>
      if is_space c then
        if in_run then collapse true s' else String " " (collapse true s')
      else String c (collapse false s')
  end.

(** Canonicalisation of the [i] flag for the characters the pattern can
    meet: a-z to upper case. *)
Definition fold_case (c : ascii) : ascii :=
  let n := N_of_ascii c in
  if ((97 <=? n) && (n <=? 122))%N then ascii_of_N (n - 32) else c.

(** [label] matched at the head of [s] without regard to case: what
    follows it. *)
Fixpoint after_label (label s : string) : option string :=
  match label with
  | EmptyString => Some s
  | String a label' =>
      match s with
      | EmptyString => None
      | String b s' =>
          if Ascii.eqb (fold_case a) (fold_case b) then after_label label' s' else None
      end
  end.

(** The length of the white space at the head of [s]. *)
Fixpoint space_run (s : string) : nat :=
  match s with
  | EmptyString => 0
  | String c s' => if is_space c then S (space_run s') else 0
  end.

(** The length of a match of /(system|assistant|user):\s*/i at the head
    of [s], if there is one. *)
Definition label_match (s : string) : option nat :=
  match after_label "system:" s with
  | Some rest => Some (7 + space_run rest)%nat
  | None =>
      match after_label "assistant:" s with
      | Some rest => Some (10 + space_run rest)%nat
      | None =>
          match after_label "user:" s with
          | Some rest => Some (5 + space_run rest)%nat
          | None => None
          end
      end
  end.

(** s.replace(/(system|assistant|user):\s*/gi, ''): [skip] characters of a
    match are still to be dropped.  The text is scanned once; what a
    removal brings together is not looked at again. *)
Fixpoint strip_labels (skip : nat) (s : string) : string :=
  match s with
  | EmptyString => ""
  | String c s' =>
      match skip with
      | S k => strip_labels k s'
      | O =>
          match label_match s with
          | Some n => strip_labels (n - 1) s'
          | None => String c (strip_labels 0 s')
          end
      end
  end.

(** sanitizeContent(content) *)
Definition sanitizeContent (content : value) : string :=
  if negb (truthy content) || negb (is_string content) then ""
  else
    match content with
    | Str s =>
        let sanitized := collapse false (trim s) in
        let sanitized := strip_labels 0 sanitized in
        if (10000 <? Z.of_nat (String.length sanitized))%Z
        then String.substring 0 (Z.to_nat 10000) sanitized
        else sanitized
    | _ => ""
    end.

End ConversationTools.

(** ** Chat sessions, the remaining handlers  (chatController.js,
       supabaseService.js) *)

Module ChatSessions.
Import SupabaseService GeminiService ConversationService ChatController.
Export GeminiDocumentService(file, file_uri, file_name, file_state, fetched, response_ok,
  response_status, response_body, documents, fetch, files_upload, files_get, files_delete,
  fileUploadTimeout, fetch_took, upload_took, poll_took, timer_lag, new_conversation_id,
  elapse, rethrown, uploadPdfFromUrl, poll, waitForFileProcessing, deleteFile).

Definition set_conversations f (w : world) : world :=
  {| pages := pages w; page_text := page_text w; page_audio := page_audio w;
     files := files w; conversations := f (conversations w); messages := messages w;
     next_id := next_id w; calls := calls w; sleeps := sleeps w; now := now w |}.

(** The tables the chat handlers only read: books and library
    memberships, the latter as pairs of a user and a book. *)
Record book := { book_id : string; book_user_id : string; book_title : string }.

Record library :=
  { books : gmap string book;
    user_books : list (string * string) }.

(** How a handler ends: [res.status(s).json(body)] or [next(error)]. *)
Inductive reply :=
| Answer (status : Z) (body : value)
| Forward (error : exn).

Definition error_body (message : string) : value := Obj {[ "error" := Str message ]}.

(** [.single()] on the rows a filter selects: exactly one, or the
    PGRST116 error. *)
Definition single_of {A} (rows : list A) : response A :=
  match rows with
  | [row] => {| data := Some row; SupabaseService.error := None |}
  | _ => {| data := None; SupabaseService.error := Some PGRST116 |}
  end.

(** getBookById(bookId) *)
Definition getBookById (lib : library) (bookId : string) : M (option book) :=
  data_unless_error (single (books lib !! bookId)).

(** ensureUserHasBookAccess(userId, bookId) *)
Definition ensureUserHasBookAccess (lib : library) (userId bookId : string) : M bool :=
  ownership ← data_unless_other_error (single (books lib !! bookId));
  if match ownership with
     | Some b => String.eqb (book_user_id b) userId
     | None => false
     end
  then mret true
  else
    let count := length (filter (fun r => r = (userId, bookId)) (user_books lib)) in
    mret (0 <? count)%nat.

(** getConversationByBookId(userId, bookId) *)
Definition getConversationByBookId (userId bookId : string) : M (option conversation) :=
  rows ← read (fun w =>
                  filter (fun c => user_id c = userId /\ conversation_book_id c = bookId)
                         (map_to_list (conversations w)).*2);
  data_unless_other_error (single_of rows).

(** createConversation(conversationData); the title and the type of the
    row are not kept in this model. *)
Definition createConversation (docs : documents) (userId bookId : string) : M conversation :=
  n ← read next_id;
  let id := new_conversation_id docs n in
  taken ← read (fun w => conversations w !! id);
  match taken with
  | Some _ => throw unique_violation
  | None =>
      let row := {| conversation_id := id;
                    user_id := userId;
                    conversation_book_id := bookId;
                    gemini_file_uri := None;
                    gemini_cache_name := None;
                    cache_expires_at := None |} in
      _ ← update (set_next_id S);
      _ ← update (set_conversations (insert id row));
      mret row
  end.

(** The fields an update sets; [None] leaves a field as it is. *)
Record conversation_updates :=
  { new_file_uri : option (option string);
    new_cache_name : option (option string);
    new_expires_at : option (option Z) }.

Definition apply_updates (u : conversation_updates) (c : conversation) : conversation :=
  {| conversation_id := conversation_id c;
     user_id := user_id c;
     conversation_book_id := conversation_book_id c;
     gemini_file_uri := default (gemini_file_uri c) (new_file_uri u);
     gemini_cache_name := default (gemini_cache_name c) (new_cache_name u);
     cache_expires_at := default (cache_expires_at c) (new_expires_at u) |}.

(** updateConversation(conversationId, updates) *)
Definition updateConversation (conversationId : string) (updates : conversation_updates)
  : M (option conversation) :=
  found ← read (fun w => conversations w !! conversationId);
  match found with
  | Some c =>
      let row := apply_updates updates c in
      _ ← update (set_conversations (insert conversationId row));
      data_unless_error (single (Some row))
  | None => data_unless_error (single None)
  end.

(** The [try] block of deleteCache *)
Definition deleteCache_try (docs : documents) (userId conversationId : string) : M reply :=
  conversation ← getConversationById conversationId;
  match conversation with
  | None => mret (Answer 404 (error_body "Conversation not found"))
  | Some conversation =>
      if negb (String.eqb (user_id conversation) userId) then
        mret (Answer 403 (error_body "Access denied to this conversation"))
      else
        _ ← match gemini_file_uri conversation with
            | Some fileUri =>
                if String.eqb fileUri "" then mret tt
                else try_catch (lift (deleteFile docs fileUri)) (fun fileError => mret tt)
            | None => mret tt
            end;
        _ ← updateConversation conversationId
              {| new_cache_name := Some None;
                 new_file_uri := Some None;
                 new_expires_at := Some None |};
        mret (Answer 200 (Obj {[ "success" := Bool true;
                                 "message" := Str "File deleted successfully" ]}))
  end.

Definition forward_errors (m : M reply) (w : world) : reply * world :=
  match m w with
  | (Return r, w') => (r, w')
  | (Throw e, w') => (Forward e, w')
  end.

(** deleteCache(req, res, next) *)
Definition deleteCache (docs : documents) (userId conversationId : string)
  : world -> reply * world :=
  forward_errors (deleteCache_try docs userId conversationId).

(** The instant of [new Date(cache_expires_at)]: the epoch for [null]. *)
Definition date_of (cache_expires_at : option Z) : Z := default 0%Z cache_expires_at.

(** extendCache(req, res, next); [expiresAt] is given as the instant, in
    ms, in place of its ISO text. *)
Definition extendCache (userId : string) (conversationId : option string)
  : world -> reply * world :=
  forward_errors
    (let conversationId := default "" conversationId in
     if String.eqb conversationId "" then
       mret (Answer 400 (error_body "conversationId is required"))
     else
       conversation ← getConversationById conversationId;
       match conversation with
       | None => mret (Answer 404 (error_body "Conversation not found"))
       | Some conversation =>
           if negb (String.eqb (user_id conversation) userId) then
             mret (Answer 403 (error_body "Access denied to this conversation"))
           else if match gemini_file_uri conversation with
                   | Some fileUri => String.eqb fileUri ""
                   | None => true
                   end
           then mret (Answer 400 (error_body "Conversation file not initialized"))
           else
             today ← read now;
             let expiresAt := date_of (cache_expires_at conversation) in
             let isExpired := (expiresAt <? today)%Z in
             mret (Answer 200
                     (Obj {[ "success" := Bool true;
                             "expiresAt" := Number (of_Z expiresAt);
                             "isExpired" := Bool isExpired;
                             "message" :=
                               Str (if isExpired
                                    then "File has expired. Please upload the book again."
                                    else "File expires automatically after 48 hours from upload. Cannot be extended.") ]}))
       end).

(** [conversation || create] of both handlers *)
Definition conversation_for (docs : documents) (userId bookId : string) : M conversation :=
  conversation ← getConversationByBookId userId bookId;
  match conversation with
  | Some conversation => mret conversation
  | None => createConversation docs userId bookId
  end.

(** uploadBookToGemini(req, res, next).  No GeminiFileUploadError is
    ever constructed in the sources, so every exception goes to [next]. *)
Definition uploadBookToGemini (lib : library) (docs : documents) (userId : string)
    (bookId pdfUrl title : option string) : world -> reply * world :=
  forward_errors
    (let bookId := default "" bookId in
     let pdfUrl := default "" pdfUrl in
     let title := default "" title in
     if String.eqb bookId "" || String.eqb pdfUrl "" || String.eqb title "" then
       mret (Answer 400 (error_body "bookId, pdfUrl, and title are required"))
     else
       book ← getBookById lib bookId;
       match book with
       | None => mret (Answer 404 (error_body "Book not found"))
       | Some _ =>
           hasAccess ← ensureUserHasBookAccess lib userId bookId;
           if negb hasAccess then
             mret (Answer 403 (error_body "Access denied to this book"))
           else
             conversation ← conversation_for docs userId bookId;
             uploadResult ← uploadPdfFromUrl docs pdfUrl title;
             processedFile ← waitForFileProcessing docs (file_name uploadResult);
             today ← read now;
             let fileExpiresAt := (today + 48 * 60 * 60 * 1000)%Z in
             _ ← updateConversation (conversation_id conversation)
                   {| new_file_uri := Some (Some (file_uri processedFile));
                      new_cache_name := Some (Some (file_name uploadResult));
                      new_expires_at := Some (Some fileExpiresAt) |};
             mret (Answer 200
                     (Obj {[ "success" := Bool true;
                             "conversationId" := Str (conversation_id conversation);
                             "fileUri" := Str (file_uri processedFile);
                             "fileName" := Str (file_name uploadResult);
                             "expiresAt" := Number (of_Z fileExpiresAt);
                             "message" :=
                               Str "Book uploaded successfully and ready for chat (implicit caching enabled)" ]}))
       end).

(** [a && b && c] of getOrCreateConversation, with the value JavaScript
    gives it: the first falsy operand, or the comparison. *)
Definition hasActiveCache (c : conversation) (today : Z) : value :=
  match gemini_cache_name c with
  | None => Null
  | Some name =>
      if String.eqb name "" then Str ""
      else
        match cache_expires_at c with
        | None => Null
        | Some expires => Bool (today <? expires)%Z
        end
  end.

(** getOrCreateConversation(req, res, next) *)
Definition getOrCreateConversation (lib : library) (docs : documents)
    (userId bookId : string) : world -> reply * world :=
  forward_errors
    (book ← getBookById lib bookId;
     match book with
     | None => mret (Answer 404 (error_body "Book not found"))
     | Some _ =>
         hasAccess ← ensureUserHasBookAccess lib userId bookId;
         if negb hasAccess then
           mret (Answer 403 (error_body "Access denied to this book"))
         else
           conversation ← conversation_for docs userId bookId;
           rows ← getConversationMessages (conversation_id conversation);
           today ← read now;
           mret (Answer 200
                   (Obj {[ "success" := Bool true;
                           "conversation" :=
                             Obj {[ "id" := Str (conversation_id conversation);
                                    "hasActiveCache" := hasActiveCache conversation today;
                                    "cacheExpiresAt" :=
                                      match cache_expires_at conversation with
                                      | Some t => Number (of_Z t)
                                      | None => Null
                                      end;
                                    "messages" := Arr (map message_object rows) ]} ]}))
     end).

(** The quotation mark, for messages that quote. *)
Definition quote : string := String (ascii_of_nat 34) "".

(** /^(\d+)(s|m|h)$/ on [ttl]: the digits and the unit. *)
Fixpoint ttl_match (ttl : string) : option (string * ascii) :=
  match ttl with
  | EmptyString => None
  | String c rest =>
      match digit c with
      | None => None
      | Some _ =>
          match ttl_match rest with
          | Some (ds, unit) => Some (String c ds, unit)
          | None =>
              match rest with
              | String u EmptyString =>
                  if Ascii.eqb u "s" || Ascii.eqb u "m" || Ascii.eqb u "h"
                  then Some (String c "", u) else None
              | _ => None
              end
          end
      end
  end.

(** parseTtlToMs(ttl) *)
Definition parseTtlToMs (ttl : string) : result number :=
  match ttl_match ttl with
  | None =>
      Throw (Error ("Invalid TTL format. Use format like " ++ quote ++ "3600s" ++ quote
                    ++ ", " ++ quote ++ "60m" ++ quote ++ ", " ++ quote ++ "1h" ++ quote))
  | Some (digits, unit) =>
      let value := parseInt (Some digits) in
      if Ascii.eqb unit "s" then Return (mul value (of_Z 1000))
      else if Ascii.eqb unit "m" then Return (mul (mul value (of_Z 60)) (of_Z 1000))
      else if Ascii.eqb unit "h"
      then Return (mul (mul (mul value (of_Z 60)) (of_Z 60)) (of_Z 1000))
      else Throw (Error "Invalid TTL unit. Use s, m, or h")
  end.

End ChatSessions.

(** ** Page endpoints  (pageController.js) *)

Module PageController.
Import SupabaseService GeminiService PageCacheService ChatSessions.

(** A line terminator, which [.] does not match. *)
Definition is_line_terminator (c : ascii) : bool :=
  let n := N_of_ascii c in ((n =? 10) || (n =? 13))%N.

Fixpoint has_line_terminator (s : string) : bool :=
  match s with
  | EmptyString => false
  | String c s' => is_line_terminator c || has_line_terminator s'
  end.

(** The last place where [s] reads [;base64,] followed by at least one
    character: what precedes it and what follows it. *)
Fixpoint last_marker (s : string) : option (string * string) :=
  match s with
  | EmptyString => None
  | String c s' =>
      match last_marker s' with
      | Some (before, after) => Some (String c before, after)
      | None =>
          if String.prefix ";base64," s && (8 <? String.length s)%nat
          then Some ("", String.substring 8 (String.length s - 8) s)
          else None
      end
  end.

(** imageData.match(/^data:(.+);base64,(.+)$/): the two groups.  Both are
    greedy and free of line terminators, so that the first one runs up to
    the last marker that leaves the second one something to match. *)
Definition data_uri (imageData : string) : option (string * string) :=
  if String.prefix "data:" imageData then
    match String.substring 5 (String.length imageData - 5) imageData with
    | EmptyString => None
    | String c rest =>
        if has_line_terminator (String c rest) then None
        else
          match last_marker rest with
          | Some (before, after) => Some (String c before, after)
          | None => None
          end
    end
  else None.

(** s.replace(/\s/g, '') *)
Fixpoint remove_spaces (s : string) : string :=
  match s with
  | EmptyString => ""
  | String c s' => if is_space c then remove_spaces s' else String c (remove_spaces s')
  end.

Definition text_object (t : extracted) : value :=
  Obj {[ "header" := Str (header t); "body" := Str (body t); "footer" := Str (footer t) ]}.

(** The body of a 500 answer: [{ error, details: error.message }]. *)
Definition failure_body (message : string) (e : exn) : value :=
  match message_of e with
  | Some details => Obj {[ "error" := Str message; "details" := Str details ]}
  | None => Obj {[ "error" := Str message ]}
  end.

(** pageController.getPageText(req, res); [None] is a field missing from
    the request body.  The processing time of the answer is left out. *)
Definition getPageText (h : host) (userId : string) (bookId : option string)
    (pageNumber : option Z) (imageData mimeType : option string) (w : world)
  : reply * world :=
  let bookId := default "" bookId in
  let pageNumber := default 0%Z pageNumber in
  let imageData := default "" imageData in
  if String.eqb bookId "" || (pageNumber =? 0)%Z || String.eqb imageData "" then
    (Answer 400 (error_body "bookId, pageNumber, and imageData are required"), w)
  else
    let parsed :=
      if startsWith "data:" imageData then
        match data_uri imageData with
        | Some (type, data) => Some (remove_spaces data, Some type)
        | None => None
        end
      else Some (imageData, mimeType) in
    match parsed with
    | None =>
        (Answer 400 (error_body "Invalid image data format. Expected base64 data URI."), w)
    | Some (processedImageData, resolvedMimeType) =>
        let resolvedMimeType :=
          match resolvedMimeType with
          | Some m => if String.eqb m "" then "image/png" else m
          | None => "image/png"
          end in
        match getOrExtractPageText h bookId pageNumber processedImageData resolvedMimeType
                userId w with
        | (Return result, w') =>
            (Answer 200 (Obj {[ "success" := Bool true;
                                "cached" := Bool (cached result);
                                "text" := text_object (text result) ]}), w')
        | (Throw error, w') =>
            (Answer 500 (failure_body "Failed to process page text" error), w')
        end
    end.

(** pageController.getPageAudio(req, res) *)
Definition getPageAudio (h : host) (userId : string) (bookId : option string)
    (pageNumber : option Z) (text voicePersona : option string) (w : world)
  : reply * world :=
  let bookId := default "" bookId in
  let pageNumber := default 0%Z pageNumber in
  let text := default "" text in
  let voicePersona := default "Zephyr" voicePersona in
  if String.eqb bookId "" || (pageNumber =? 0)%Z || String.eqb text "" then
    (Answer 400 (error_body "bookId, pageNumber, and text are required"), w)
  else
    match getOrGeneratePageAudio h bookId pageNumber text (Some voicePersona) userId w with
    | (Return result, w') =>
        (Answer 200 (Obj {[ "success" := Bool true;
                            "cached" := Bool (audio_cached result);
                            "audioUrl" := Str (audioUrl result);
                            "duration" := Number (of_Z (duration result)) ]}), w')
    | (Throw error, w') =>
        if rate_limited error then
          (Answer 429 (failure_body "API rate limit exceeded. Please try again later." error),
           w')
        else (Answer 500 (failure_body "Failed to process page audio" error), w')
    end.

End PageController.

(** ** Notions of the further properties *)

Module Notions.
Import ConversationService ConversationTools Spec.

(** The turn formatHistoryForGemini makes of an entry. *)
Definition turn_of (entry : value) : turn :=
  {| turn_role := match field entry "role" with
                  | Str "user" => "user"
                  | _ => "model"
                  end;
     parts := [Obj {[ "text" := field entry "content" ]}] |}.

(** The estimate of a history whose entries can be read, in closed form. *)
Definition history_tokens (items : list value) : Z :=
  foldr (fun m total => (estimateTokens (field m "content") + total)%Z) 0%Z items.

(** The entry's role is the string [role]. *)
Definition has_role (role : string) (m : value) : bool :=
  match field m "role" with
  | Str s => String.eqb s role
  | _ => false
  end.

(** The number of entries of a role. *)
Definition tally (role : string) (items : list value) : nat :=
  length (List.filter (has_role role) items).

(** A history in which user and assistant take turns, [user_first] telling
    who speaks first. *)
Fixpoint alternating (user_first : bool) (items : list value) : Prop :=
  match items with
  | [] => True
  | m :: rest =>
      field m "role" = Str (if user_first then "user" else "assistant")
      /\ alternating (negb user_first) rest
  end.

(** White space in [s] is made of single blanks only; [after_space] tells
    that a blank stands right before [s]. *)
Fixpoint single_spaced (after_space : bool) (s : string) : bool :=
  match s with
  | EmptyString => true
  | String c s' =>
      if is_space c
      then Ascii.eqb c " " && negb after_space && single_spaced true s'
      else single_spaced false s'
  end.

(** [s] does not begin with white space. *)
Definition starts_solid (s : string) : Prop :=
  match s with
  | EmptyString => True
  | String c _ => is_space c = false
  end.

(** [s] without its first [k] characters. *)
Fixpoint string_drop (k : nat) (s : string) : string :=
  match k, s with
  | O, _ => s
  | S k', String _ s' => string_drop k' s'
  | S _, EmptyString => ""
  end.

(** The number a sequence of decimal digits denotes after [acc]. *)
Fixpoint uint_acc (d : Decimal.uint) (acc : Z) : Z :=
  match d with
  | Decimal.Nil => acc
  | Decimal.D0 l => uint_acc l (10 * acc)
  | Decimal.D1 l => uint_acc l (10 * acc + 1)
  | Decimal.D2 l => uint_acc l (10 * acc + 2)
  | Decimal.D3 l => uint_acc l (10 * acc + 3)
  | Decimal.D4 l => uint_acc l (10 * acc + 4)
  | Decimal.D5 l => uint_acc l (10 * acc + 5)
  | Decimal.D6 l => uint_acc l (10 * acc + 6)
  | Decimal.D7 l => uint_acc l (10 * acc + 7)
  | Decimal.D8 l => uint_acc l (10 * acc + 8)
  | Decimal.D9 l => uint_acc l (10 * acc + 9)
  end.

(** The character [sep] does not occur in [s]. *)
Fixpoint lacks (sep : ascii) (s : string) : bool :=
  match s with
  | EmptyString => true
  | String c s' => negb (Ascii.eqb c sep) && lacks sep s'
  end.

(** [s] holds no white space. *)
Fixpoint spaceless (s : string) : bool :=
  match s with
  | EmptyString => true
  | String c s' => negb (is_space c) && spaceless s'
  end.

(** [s] is made of decimal digits and minus signs. *)
Fixpoint numeral (s : string) : bool :=
  match s with
  | EmptyString => true
  | String c s' => (bool_decide (digit c <> None) || Ascii.eqb c "-") && numeral s'
  end.

(** A byte of a buffer. *)
Definition is_byte (b : Z) : Prop := (0 <= b < 256)%Z.

(** Rows refer to identifiers already issued: none is filed under an
    identifier still to come. *)
Definition fresh_ids (w : world) : Prop :=
  (forall i, (next_id w <= i)%nat -> page_text w !! i = None) /\
  (forall i v, (next_id w <= i)%nat -> page_audio w !! (i, v) = None).

(** The audio row of a page and voice that has an address, with the
    address. *)
Definition usable_audio (w : world) (bookId : string) (pageNumber : Z) (voice : string)
  : option (page_audio_row * string) :=
  p ← pages w !! (bookId, pageNumber);
  row ← page_audio w !! (page_id p, voice);
  url ← audio_url row;
  if String.eqb url "" then None else Some (row, url).

(** The sum of a list of delays. *)
Definition total_delay (delays : list Z) : Z := foldr Z.add 0%Z delays.

(** The request for the text of a page is refused before it is sent, or
    the backend fails the request numbered [n]. *)
Definition refused (imageData mimeType : string) : Prop :=
  imageData = "" \/ startsWith "image/" mimeType = false.

Definition extraction_fails (h : host) (imageData mimeType : string) (n : nat) : Prop :=
  refused imageData mimeType \/
  exists message code,
    generateContentStream h n imageData mimeType = StreamFailed message code.

(** The conversation [conversationId] is the user's, bound to the file
    [uri], and not past its expiry at the time of [w]. *)
Definition chat_ready (w : world) (userId conversationId uri : string) : Prop :=
  exists c,
    conversations w !! conversationId = Some c /\
    user_id c = userId /\
    (forall expires, cache_expires_at c = Some expires -> (now w <= expires)%Z) /\
    gemini_file_uri c = Some uri /\ uri <> "".

(** The stored messages of a conversation, as the history curator reads
    them. *)
Definition stored_history (w : world) (conversationId : string) : list value :=
  map ChatController.message_object
    (filter (fun m => message_conversation_id m = conversationId) (messages w)).

(** The history limit sendMessage hands to trimHistory. *)
Definition history_limit (h : host) : Z :=
  if (maxConversationHistory (cfg h) =? 0)%Z then 10%Z else maxConversationHistory (cfg h).

(** The time a wait that finds the file ACTIVE at the poll numbered [k]
    has taken: the [k] polls before it, each followed by a timer of 2000
    ms, and that poll. *)
Definition polling_time (docs : GeminiDocumentService.documents) (from k : nat) : Z :=
  (total_delay (map (fun i => GeminiDocumentService.poll_took docs i + 2000
                              + GeminiDocumentService.timer_lag docs i)
                    (seq from k))
   + GeminiDocumentService.poll_took docs (from + k))%Z.

(** Every conversation is filed under its own identifier. *)
Definition well_keyed (w : world) : Prop :=
  forall key c, conversations w !! key = Some c -> conversation_id c = key.

(** A conversation with its file binding cleared. *)
Definition unbound (c : conversation) : conversation :=
  {| conversation_id := conversation_id c;
     user_id := user_id c;
     conversation_book_id := conversation_book_id c;
     gemini_file_uri := None;
     gemini_cache_name := None;
     cache_expires_at := None |}.

End Notions.

(** ** Further hosts and stores, for running the handlers on examples *)

Module Scenario.
Import ChatSessions.

(** A backend whose chat responses carry no usage metadata. *)
Definition no_usage : host :=
  {| JSON_parse := JSON_parse Example.steady;
     base64 := base64 Example.steady;
     generateContentStream := generateContentStream Example.steady;
     generateContent := generateContent Example.steady;
     generateWithFile := fun _ _ _ _ _ => Chat "answer" None;
     getPublicUrl := getPublicUrl Example.steady;
     systemInstruction := systemInstruction Example.steady;
     cfg := Example.settings |}.

(** A backend that fails every request: speech with a rate-limit error,
    the rest with an outage. *)
Definition failing : host :=
  {| JSON_parse := JSON_parse Example.steady;
     base64 := base64 Example.steady;
     generateContentStream := fun _ _ _ =>
       StreamFailed (Some "503 Service Unavailable") (Some "503");
     generateContent := fun _ _ =>
       SpeechFailed (Some "got status: 429 Too Many Requests") (Some "429");
     generateWithFile := fun _ _ _ _ _ =>
       ChatFailed (Some "503 Service Unavailable") (Some "503");
     getPublicUrl := getPublicUrl Example.steady;
     systemInstruction := systemInstruction Example.steady;
     cfg := Example.settings |}.

(** The steady backend under a configuration that allows no attempt. *)
Definition no_retries : host :=
  {| JSON_parse := JSON_parse Example.steady;
     base64 := base64 Example.steady;
     generateContentStream := generateContentStream Example.steady;
     generateContent := generateContent Example.steady;
     generateWithFile := generateWithFile Example.steady;
     getPublicUrl := getPublicUrl Example.steady;
     systemInstruction := systemInstruction Example.steady;
     cfg := {| maxTextLength := 1000; maxRetries := 0; retryDelay := 1000;
               maxConversationHistory := 10 |} |}.

(** A conversation of user-1 about book-1, bound to an uploaded file that
    expires an hour after the time of [Example.empty]. *)
Definition talk : conversation :=
  {| conversation_id := "c-1";
     user_id := "user-1";
     conversation_book_id := "book-1";
     gemini_file_uri := Some "files/abc";
     gemini_cache_name := Some "abc";
     cache_expires_at := Some 1700003600000%Z |}.

Definition line (n : nat) : message_row :=
  {| message_id := n;
     message_conversation_id := "c-1";
     role := if Nat.even n then "user" else "assistant";
     content := "text";
     tokens_used := 0;
     cost := 0 |}.

(** The store holding that conversation and [n] messages of it. *)
Definition chatting (n : nat) : world :=
  {| pages := ∅; page_text := ∅; page_audio := ∅; files := ∅;
     conversations := {[ "c-1" := talk ]};
     messages := map line (seq 0 n);
     next_id := n; calls := []; sleeps := []; now := 1700000000000 |}.

(** A library with book-1, owned by user-1, and a file API that accepts
    every upload, reports a file ACTIVE from the second poll on and cannot
    delete. *)
Definition shelf : library :=
  {| books := {[ "book-1" := {| book_id := "book-1"; book_user_id := "user-1";
                                book_title := "A Book" |} ]};
     user_books := [] |}.

Definition uploads : documents :=
  {| fetch := fun _ =>
       Return {| response_ok := true; response_status := "200 OK";
                 response_body := [37; 80; 68; 70]%Z |};
     files_upload := fun _ _ =>
       Return {| file_uri := "files/abc"; file_name := "abc"; file_state := "PROCESSING" |};
     files_get := fun n name =>
       Return {| file_uri := "files/" ++ name; file_name := name;
                 file_state := match n with O => "PROCESSING" | S _ => "ACTIVE" end |};
     files_delete := fun _ => Throw (Error "file not found");
     fileUploadTimeout := 60000;
     fetch_took := 350;
     upload_took := 1200;
     poll_took := fun _ => 150%Z;
     timer_lag := fun _ => 4%Z;
     new_conversation_id := fun n => "c-" ++ of_int (Z.of_nat n) |}.

End Scenario.

(** * Properties *)

#[local] Open Scope list_scope.

(** Unfolding the monad of awaited computations. *)
Ltac run :=
  repeat (cbn [mbind mret M_bind M_ret bindM World.ret read update lift throw
               result_bind result_ret JS.bind fst snd] in *;
          unfold mbind, mret, M_bind, M_ret, bindM, World.ret, read, update, lift, throw in *).

(** ** trimHistory *)

Module HistoryCurator.
Import ConversationService Spec.

Lemma slice_negative {A} (n : Z) (xs : list A) :
  (1 <= n)%Z -> slice (- n) xs = most_recent (Z.to_nat n) xs.
Proof.
  intros Hn. unfold slice, most_recent.
  destruct (Z.ltb_spec (- n) 0) as [_|]; [|lia].
  rewrite take_reverse, reverse_involutive. f_equal. lia.
Qed.

Lemma slice_one {A} (xs : list A) : (1 < length xs)%nat -> slice 1 xs = tail xs.
Proof.
  intros Hlen. unfold slice. simpl.
  replace (Z.to_nat (1 `min` Z.of_nat (length xs))) with 1%nat by lia.
  by destruct xs.
Qed.

Lemma odd_mod2 (n : nat) : negb (n mod 2 =? 0)%nat = Nat.odd n.
Proof.
  rewrite <- Nat.negb_even. f_equal.
  destruct (Nat.even n) eqn:E.
  - apply Nat.even_spec in E. destruct E as [k ->].
    apply Nat.eqb_eq. rewrite Nat.mul_comm. apply Nat.Div0.mod_mul.
  - apply Nat.eqb_neq. intros H.
    apply Nat.Div0.mod_divides in H. destruct H as [k ->].
    rewrite Nat.even_mul in E. discriminate.
Qed.

(** C4, as amended.  For every history and every bound of at least one
    (10 when the bound is omitted), trimHistory returns exactly the
    [maxMessages] most recent entries, less the oldest of them when their
    number is odd and greater than one; nothing else is removed, reordered
    or altered. *)
Theorem trimHistory_window (history : list value) (maxMessages : option Z) :
  (1 <= default 10 maxMessages)%Z ->
  trimHistory (Arr history) maxMessages = window (default 10%Z maxMessages) history.
Proof.
  intros Hn. unfold trimHistory, window. cbn [truthy isArray negb orb].
  rewrite (slice_negative _ _ Hn), odd_mod2.
  destruct (Nat.odd _ && _) eqn:E; [|done].
  apply andb_true_iff in E as [_ E%Nat.ltb_lt].
  by apply slice_one.
Qed.

(** Twelve entries cut to ten; eleven entries cut to ten; three of four
    entries kept, then the oldest of the three dropped. *)
Lemma trimHistory_window_witness :
  trimHistory (Arr (map (fun i => Number (of_Z i)) (seqZ 1 12))) None
  = map (fun i => Number (of_Z i)) (seqZ 3 10) /\
  trimHistory (Arr (map (fun i => Number (of_Z i)) (seqZ 1 11))) (Some 10%Z)
  = map (fun i => Number (of_Z i)) (seqZ 2 10) /\
  trimHistory (Arr [Str "m1"; Str "m2"; Str "m3"; Str "m4"]) (Some 3%Z)
  = [Str "m3"; Str "m4"].
Proof.
  rewrite !trimHistory_window by (simpl; lia). repeat split.
Defined.

(** C4, as stated, fails at the bound 0: [slice(-0)] is [slice(0)], so
    the whole history is kept where the zero most recent entries are
    none. *)
Lemma trimHistory_zero_keeps_everything :
  trimHistory (Arr [Str "m1"; Str "m2"]) (Some 0%Z) = [Str "m1"; Str "m2"] /\
  window 0 [Str "m1"; Str "m2"] = [] /\
  trimHistory (Arr [Str "m1"; Str "m2"]) (Some 0%Z) <> window 0 [Str "m1"; Str "m2"].
Proof. repeat split. discriminate. Qed.

End HistoryCurator.

(** ** validateHistory, and the curator on inputs that are no sequence *)

Module HistoryValidation.
Import ConversationService Spec.

Lemma get_field (entry : value) (k : string) :
  nullish entry = false -> get entry k = Return (field entry k).
Proof. by destruct entry. Qed.

Lemma valid_entry_not_nullish (entry : value) : valid_entry entry -> nullish entry = false.
Proof. intros (r & c & Hr & _). by destruct entry. Qed.

Lemma string_eqb_false (a b : string) : a <> b -> String.eqb a b = false.
Proof. intros H. by apply String.eqb_neq. Qed.

(** One turn of the loop, on an entry that can be read. *)
Lemma validate_from_cons (i : nat) (entry : value) (rest : list value) :
  nullish entry = false ->
  validate_from i (entry :: rest) =
    if negb (truthy (field entry "role")) then Return (invalid (MissingRoleOrContent i))
    else if negb (truthy (field entry "content"))
         then Return (invalid (MissingRoleOrContent i))
    else if negb (known_role (field entry "role"))
         then Return (invalid (InvalidRole i (field entry "role")))
    else match field entry "content" with
         | Str s => if (10000 <? Z.of_nat (String.length s))%Z
                    then Return (invalid (MessageTooLong i))
                    else validate_from (S i) rest
         | _ => Return (invalid (ContentNotString i))
         end.
Proof.
  intros Hn. cbn [validate_from]. rewrite (get_field entry "role" Hn).
  cbn [mbind result_bind JS.bind].
  destruct (negb (truthy (field entry "role"))); [done|].
  by rewrite (get_field _ _ Hn).
Qed.

Lemma validate_from_valid (i : nat) (entry : value) (rest : list value) :
  valid_entry entry -> validate_from i (entry :: rest) = validate_from (S i) rest.
Proof.
  intros Hv. rewrite validate_from_cons by by apply valid_entry_not_nullish.
  destruct Hv as (r & c & -> & Hr & -> & Hc & Hlen).
  cbn [truthy known_role].
  rewrite (string_eqb_false _ _ Hc).
  replace (String.eqb r "") with false by (by destruct Hr as [-> | ->]).
  replace (String.eqb r "user" || String.eqb r "assistant") with true
    by (by destruct Hr as [-> | ->]).
  cbn [negb].
  destruct (Z.ltb_spec 10000 (Z.of_nat (String.length c))); [lia|done].
Qed.

Lemma validate_from_prefix (i : nat) (pre rest : list value) :
  Forall valid_entry pre ->
  validate_from i (pre ++ rest) = validate_from (i + length pre) rest.
Proof.
  intros Hpre. revert i. induction Hpre as [|entry pre Hv _ IH]; intros i.
  - by rewrite Nat.add_0_r.
  - cbn [app length]. rewrite validate_from_valid by done.
    rewrite IH. f_equal. lia.
Qed.

Lemma validate_from_all_valid (i : nat) (history : list value) :
  Forall valid_entry history -> validate_from i history = Return valid.
Proof.
  intros H. rewrite <- (app_nil_r history), validate_from_prefix by done. done.
Qed.

Lemma validateHistory_Arr (history : list value) :
  validateHistory (Arr history) =
    if (50 <? Z.of_nat (length history))%Z then Return (invalid HistoryTooLong)
    else validate_from 0 history.
Proof. reflexivity. Qed.

Lemma known_role_false (entry : value) :
  role_outside entry -> known_role (field entry "role") = false.
Proof.
  intros [Hu Ha]. destruct (field entry "role") as [| | | |r| |]; try done.
  cbn. rewrite !string_eqb_false; [done| |]; congruence.
Qed.

Lemma known_role_true (entry : value) :
  ~ role_outside entry -> known_role (field entry "role") = true.
Proof.
  intros Hn. destruct (known_role (field entry "role")) eqn:E; [done|].
  exfalso. apply Hn. split; intros Hr; rewrite Hr in E; discriminate.
Qed.

(** C5, as amended.  validateHistory answers invalid for an input that is
    no sequence, for a history of more than 50 entries, and otherwise for
    the first entry (in order) that is not valid, provided that entry is
    neither [null] nor [undefined], naming the first check the entry
    fails: a role or content that is absent or empty, a role outside
    user and assistant, a content that is no string, a content of more than
    10,000 characters.  It answers valid for every history of at most 50
    valid entries. *)
Theorem validateHistory_first_violation :
  (forall v, isArray v = false -> validateHistory v = Return (invalid MustBeArray)) /\
  (forall history, (50 < length history)%nat ->
     validateHistory (Arr history) = Return (invalid HistoryTooLong)) /\
  (forall history, (length history <= 50)%nat -> Forall valid_entry history ->
     validateHistory (Arr history) = Return valid) /\
  (forall history i entry,
     (length history <= 50)%nat ->
     Forall valid_entry (take i history) ->
     history !! i = Some entry ->
     nullish entry = false ->
     (lacks_role_or_content entry ->
        validateHistory (Arr history) = Return (invalid (MissingRoleOrContent i))) /\
     (~ lacks_role_or_content entry -> role_outside entry ->
        validateHistory (Arr history)
        = Return (invalid (InvalidRole i (field entry "role")))) /\
     (~ lacks_role_or_content entry -> ~ role_outside entry ->
        is_string (field entry "content") = false ->
        validateHistory (Arr history) = Return (invalid (ContentNotString i))) /\
     (~ lacks_role_or_content entry -> ~ role_outside entry ->
        forall c, field entry "content" = Str c ->
        (10000 < Z.of_nat (String.length c))%Z ->
        validateHistory (Arr history) = Return (invalid (MessageTooLong i)))).
Proof.
  split; [|split; [|split]].
  - intros v Hv. unfold validateHistory.
    destruct v; try done; by destruct (negb _ || _).
  - intros history Hlen. rewrite validateHistory_Arr.
    destruct (Z.ltb_spec 50 (Z.of_nat (length history))); [done|lia].
  - intros history Hlen Hall. rewrite validateHistory_Arr.
    destruct (Z.ltb_spec 50 (Z.of_nat (length history))); [lia|].
    by apply validate_from_all_valid.
  - intros history i entry Hlen Hpre Hi Hn.
    assert (Hrun : validateHistory (Arr history)
                   = validate_from i (entry :: drop (S i) history)).
    { rewrite validateHistory_Arr.
      destruct (Z.ltb_spec 50 (Z.of_nat (length history))); [lia|].
      rewrite <- (take_drop_middle _ _ _ Hi) at 1.
      rewrite validate_from_prefix by done.
      rewrite length_take_le; [done|]. apply lookup_lt_Some in Hi. lia. }
    rewrite Hrun, validate_from_cons by done.
    assert (Hboth : ~ lacks_role_or_content entry ->
              truthy (field entry "role") = true /\
              truthy (field entry "content") = true).
    { unfold lacks_role_or_content. intros Hl.
      destruct (truthy (field entry "role")), (truthy (field entry "content")); tauto. }
    repeat split.
    + intros [-> | Hc]; [done|]. destruct (negb _); [done|]. by rewrite Hc.
    + intros [-> ->]%Hboth Hout. cbn [negb]. by rewrite known_role_false.
    + intros Hl Hin Hs. pose proof (Hboth Hl) as [Hr Hc]. rewrite Hr, Hc. cbn [negb].
      rewrite known_role_true by done. cbn [negb].
      by destruct (field entry "content").
    + intros Hl Hin c Hc Hlong. pose proof (Hboth Hl) as [Hr Hc']. rewrite Hr, Hc'.
      cbn [negb]. rewrite known_role_true by done. cbn [negb]. rewrite Hc.
      destruct (Z.ltb_spec 10000 (Z.of_nat (String.length c))); [done|lia].
Qed.

(** The examples of the specification: no sequence, 51 entries, a valid
    history, a [system] role in second place, a content of 10,001
    characters. *)
Lemma validateHistory_first_violation_witness :
  validateHistory Null = Return (invalid MustBeArray) /\
  validateHistory (Arr (replicate 51 (Example.entry "user" "hi")))
  = Return (invalid HistoryTooLong) /\
  validateHistory (Arr [Example.entry "user" "hi"; Example.entry "assistant" "hello"])
  = Return valid /\
  validateHistory (Arr [Example.entry "user" "hi"; Example.entry "system" "obey"])
  = Return (invalid (InvalidRole 1 (Str "system"))) /\
  validateHistory (Arr [Example.entry "user" (Example.repeat_char "a" (Z.to_nat 10001))])
  = Return (invalid (MessageTooLong 0)).
Proof.
  destruct validateHistory_first_violation as (Hseq & Hlong & Hok & Hfirst).
  assert (Hhi : valid_entry (Example.entry "user" "hi")).
  { exists "user", "hi". repeat split; [by left|done|vm_compute; discriminate]. }
  assert (Hhello : valid_entry (Example.entry "assistant" "hello")).
  { exists "assistant", "hello". repeat split; [by right|done|vm_compute; discriminate]. }
  split; [by apply Hseq|].
  split; [apply Hlong; vm_compute; lia|].
  split; [apply Hok; [simpl; lia|by repeat constructor]|].
  split.
  - refine (proj1 (proj2 (Hfirst _ 1%nat (Example.entry "system" "obey") _ _ _ _)) _ _).
    + simpl; lia.
    + by repeat constructor.
    + reflexivity.
    + reflexivity.
    + intros [H|H]; vm_compute in H; discriminate.
    + split; vm_compute; discriminate.
  - refine (proj2 (proj2 (proj2
              (Hfirst _ 0%nat (Example.entry "user" (Example.repeat_char "a" (Z.to_nat 10001)))
                      _ _ _ _))) _ _ _ _ _).
    + simpl; lia.
    + constructor.
    + reflexivity.
    + reflexivity.
    + intros [H|H]; vm_compute in H; discriminate.
    + intros [H _]. by apply H.
    + reflexivity.
    + vm_compute. reflexivity.
Defined.

(** C5, as stated, fails on an entry that is [null] or [undefined]: such
    an entry lacks a role and a content, and validateHistory throws on
    reading its role where the claim has it answer invalid. *)
Lemma validateHistory_throws_on_null_entry :
  lacks_role_or_content Null /\ lacks_role_or_content Undefined /\
  validateHistory (Arr [Null])
  = Throw (TypeError "Cannot read properties of null (reading 'role')") /\
  validateHistory (Arr [Example.entry "user" "hi"; Undefined])
  = Throw (TypeError "Cannot read properties of undefined (reading 'role')") /\
  forall v, validateHistory (Arr [Null]) <> Return v.
Proof.
  split; [by left|]. split; [by left|]. split; [reflexivity|]. split; [reflexivity|].
  discriminate.
Qed.

(** C10.  On an argument that is no array ([null], [undefined], or any
    other value), trimHistory and formatHistoryForGemini return the empty
    list and validateHistory returns an invalid result; estimateTokens
    returns 0 on an argument that is no string.  None of them throws. *)
Theorem curator_total_on_non_sequences (v text : value) (maxMessages : option Z) :
  isArray v = false ->
  is_string text = false ->
  trimHistory v maxMessages = [] /\
  formatHistoryForGemini v = Return [] /\
  validateHistory v = Return (invalid MustBeArray) /\
  estimateTokens text = 0%Z.
Proof.
  intros Hv Ht.
  unfold trimHistory, formatHistoryForGemini, validateHistory, estimateTokens.
  destruct v; try done; destruct text; try done;
    repeat match goal with |- context [negb ?b || _] => destruct (negb b || _) end;
    done.
Qed.

Lemma curator_total_on_non_sequences_witness :
  (trimHistory Null None = [] /\
   formatHistoryForGemini Null = Return [] /\
   validateHistory Null = Return (invalid MustBeArray) /\
   estimateTokens (Arr []) = 0%Z) /\
  (trimHistory (Str "history") (Some 4%Z) = [] /\
   formatHistoryForGemini (Str "history") = Return [] /\
   validateHistory (Str "history") = Return (invalid MustBeArray) /\
   estimateTokens Undefined = 0%Z).
Proof.
  split; apply curator_total_on_non_sequences; reflexivity.
Defined.

End HistoryValidation.

(** ** The WAV container *)

Module WavContainer.
Import AudioUtils.

Lemma writeUIntLE_integer (n : nat) (max z : Z) (q : Q) (offset : nat) (buffer : Buffer) :
  (0 <= z <= max)%Z -> q == inject_Z z ->
  writeUIntLE n max (Num q) offset buffer
  = Return (list_inserts offset (le_bytes n z) buffer).
Proof.
  intros [Hlo Hhi] Hq. unfold writeUIntLE.
  assert (Hle : Qle_bool q (inject_Z max) = true).
  { apply Qle_bool_iff. rewrite Hq. by rewrite <- Zle_Qle. }
  assert (Hge : Qle_bool 0 q = true).
  { apply Qle_bool_iff. rewrite Hq. by rewrite <- (Zle_Qle 0). }
  rewrite Hle, Hge. cbn [negb orb].
  by rewrite (Qfloor_comp _ _ Hq), Qfloor_Z.
Qed.

Lemma byte_at_0 (z : Z) : byte_at z 0 = (z `mod` 256)%Z.
Proof. unfold byte_at. by rewrite Z.shiftr_0_r. Qed.

Lemma byte_at_S (z : Z) (i : nat) : byte_at z (S i) = byte_at (z `div` 256) i.
Proof.
  unfold byte_at. f_equal.
  rewrite !Z.shiftr_div_pow2 by lia.
  replace (8 * Z.of_nat (S i))%Z with (8 + 8 * Z.of_nat i)%Z by lia.
  rewrite Z.pow_add_r by lia. rewrite Z.div_div by lia. done.
Qed.

Lemma read_le_bytes (n : nat) (z : Z) (rest : Buffer) :
  (0 <= z < 256 ^ Z.of_nat n)%Z ->
  readUIntLE n 0 (le_bytes n z ++ rest) = z.
Proof.
  unfold readUIntLE, le_bytes. rewrite drop_0.
  rewrite take_app_length' by by rewrite length_map, length_seq.
  revert z. induction n as [|n IH]; intros z Hz.
  - simpl in *. lia.
  - cbn [seq map foldr]. rewrite <- seq_shift, map_map.
    rewrite (map_ext _ (byte_at (z `div` 256))) by (intros; apply byte_at_S).
    rewrite IH, byte_at_0.
    + pose proof (Z.div_mod z 256). lia.
    + rewrite Nat2Z.inj_succ, Z.pow_succ_r in Hz by lia.
      split; [apply Z.div_pos; lia|apply Z.div_lt_upper_bound; lia].
Qed.

Lemma header_bytes (dataLength rate bits : Z) (o : options) :
  numChannels o = of_Z 1 -> sampleRate o = of_Z rate -> bitsPerSample o = of_Z bits ->
  (0 <= rate <= 4294967295)%Z ->
  (0 <= bits <= 65535)%Z ->
  (8 | bits)%Z ->
  (rate * 1 * bits / 8 <= 4294967295)%Z ->
  (0 <= dataLength)%Z ->
  (36 + dataLength <= 4294967295)%Z ->
  createWavHeader dataLength o
  = Return (utf8 "RIFF" ++ le_bytes 4 (36 + dataLength)
            ++ utf8 "WAVE" ++ utf8 "fmt " ++ le_bytes 4 16 ++ le_bytes 2 1
            ++ le_bytes 2 1 ++ le_bytes 4 rate ++ le_bytes 4 (rate * 1 * bits / 8)
            ++ le_bytes 2 (1 * bits / 8) ++ le_bytes 2 bits
            ++ utf8 "data" ++ le_bytes 4 dataLength)%list.
Proof.
  intros Hc Hr Hb Hrate Hbits [k ->] Hbr Hlen0 Hlen.
  unfold createWavHeader. rewrite Hc, Hr, Hb.
  unfold writeUInt32LE, writeUInt16LE, of_Z, mul, div, add.
  assert (Hk : (rate * 1 * (k * 8) / 8 = rate * k)%Z).
  { replace (rate * 1 * (k * 8))%Z with (rate * k * 8)%Z by lia. rewrite Z.div_mul by lia. reflexivity. }
  assert (Hk' : (1 * (k * 8) / 8 = k)%Z).
  { replace (1 * (k * 8))%Z with (k * 8)%Z by lia. rewrite Z.div_mul by lia. reflexivity. }
  rewrite Hk in *. rewrite Hk'.
  rewrite (writeUIntLE_integer 4 _ (36 + dataLength)); [|lia|rewrite inject_Z_plus; reflexivity].
  cbn [mbind result_bind JS.bind].
  rewrite (writeUIntLE_integer 4 _ 16); [|lia|reflexivity].
  cbn [mbind result_bind JS.bind].
  rewrite (writeUIntLE_integer 2 _ 1); [|lia|reflexivity].
  cbn [mbind result_bind JS.bind].
  rewrite (writeUIntLE_integer 2 _ 1); [|lia|reflexivity].
  cbn [mbind result_bind JS.bind].
  rewrite (writeUIntLE_integer 4 _ rate); [|lia|reflexivity].
  cbn [mbind result_bind JS.bind].
  rewrite (writeUIntLE_integer 4 _ (rate * k)); [|nia|].
  2:{ rewrite !inject_Z_mult. unfold Qdiv. change (inject_Z (Z.pos 8)) with (inject_Z 8).
      field. }
  cbn [mbind result_bind JS.bind].
  rewrite (writeUIntLE_integer 2 _ k); [|lia|].
  2:{ rewrite !inject_Z_mult. unfold Qdiv. change (inject_Z (Z.pos 8)) with (inject_Z 8).
      field. }
  cbn [mbind result_bind JS.bind].
  rewrite (writeUIntLE_integer 2 _ (k * 8)); [|lia|reflexivity].
  cbn [mbind result_bind JS.bind].
  rewrite (writeUIntLE_integer 4 _ dataLength); [|lia|reflexivity].
  cbn [mbind result_bind JS.bind].
  reflexivity.
Qed.

Lemma parseMimeType_channels (mimeType : string) :
  numChannels (parseMimeType mimeType) = of_Z 1.
Proof. reflexivity. Qed.

(** C7, as amended.  Whenever the values parsed from the descriptor fit
    their header fields (a sample rate below 2^32, a bit depth of whole bytes below
    2^16, a byte rate and a chunk size below 2^32), convertToWav returns
    44 + payload-length bytes: a 44-byte header that holds the PCM format
    tag 1 at offset 20, the channel count at 22, the sample rate at 24-27,
    the byte rate sampleRate x channels x bitsPerSample / 8 at 28-31, the
    block alignment channels x bitsPerSample / 8 at 32-33, the bit depth
    at 34-35 and the payload length at 40-43, all little-endian, followed
    by the payload unchanged. *)
Theorem convertToWav_layout (base64 : string -> Buffer) (rawData mimeType : string)
    (rate bits : Z) :
  let o := parseMimeType mimeType in
  let payload := base64 rawData in
  sampleRate o = of_Z rate ->
  bitsPerSample o = of_Z bits ->
  (0 <= rate <= 4294967295)%Z ->
  (0 <= bits <= 65535)%Z ->
  (8 | bits)%Z ->
  (rate * 1 * bits / 8 <= 4294967295)%Z ->
  (36 + Z.of_nat (length payload) <= 4294967295)%Z ->
  exists header,
    convertToWav base64 rawData mimeType = Return (header ++ payload) /\
    length header = 44%nat /\
    readUInt16LE 20 header = 1%Z /\
    readUInt16LE 22 header = 1%Z /\
    readUInt32LE 24 header = rate /\
    readUInt32LE 28 header = (rate * 1 * bits / 8)%Z /\
    readUInt16LE 32 header = (1 * bits / 8)%Z /\
    readUInt16LE 34 header = bits /\
    readUInt32LE 40 header = Z.of_nat (length payload).
Proof.
  intros o payload Hr Hb Hrate Hbits Hdiv Hbr Hlen.
  assert (Hblock : (0 <= 1 * bits / 8 < 256 ^ 2)%Z).
  { split; [apply Z.div_pos; lia|apply Z.div_lt_upper_bound; lia]. }
  assert (Hbyte : (0 <= rate * 1 * bits / 8)%Z) by (apply Z.div_pos; lia).
  eexists. split.
  { unfold convertToWav. fold o payload.
    rewrite (header_bytes _ rate bits o) by first [reflexivity | assumption | lia].
    reflexivity. }
  split; [reflexivity|].
  split; [reflexivity|].
  split; [reflexivity|].
  split.
  { change (readUIntLE 4 0 (le_bytes 4 rate ++ []) = rate).
    apply read_le_bytes. lia. }
  split.
  { change (readUIntLE 4 0 (le_bytes 4 (rate * 1 * bits / 8) ++ [])
            = (rate * 1 * bits / 8)%Z).
    apply read_le_bytes. lia. }
  split.
  { change (readUIntLE 2 0 (le_bytes 2 (1 * bits / 8) ++ []) = (1 * bits / 8)%Z).
    by apply read_le_bytes. }
  split.
  { change (readUIntLE 2 0 (le_bytes 2 bits ++ []) = bits).
    apply read_le_bytes. lia. }
  change (readUIntLE 4 0 (le_bytes 4 (Z.of_nat (length payload)) ++ [])
          = Z.of_nat (length payload)).
  apply read_le_bytes. lia.
Qed.

(** The descriptor of the specification's example, on a three-byte
    payload. *)
Lemma convertToWav_layout_witness :
  exists header,
    convertToWav (fun _ => [1; 2; 3]%Z) "AQID" "audio/L16;rate=24000"
    = Return (header ++ [1; 2; 3]%Z) /\
    length header = 44%nat /\
    readUInt16LE 20 header = 1%Z /\
    readUInt16LE 22 header = 1%Z /\
    readUInt32LE 24 header = 24000%Z /\
    readUInt32LE 28 header = (24000 * 1 * 16 / 8)%Z /\
    readUInt16LE 32 header = (1 * 16 / 8)%Z /\
    readUInt16LE 34 header = 16%Z /\
    readUInt32LE 40 header = 3%Z.
Proof.
  apply (convertToWav_layout (fun _ => [1; 2; 3]%Z) "AQID" "audio/L16;rate=24000"
           24000 16).
  - reflexivity.
  - reflexivity.
  - lia.
  - lia.
  - by exists 2%Z.
  - vm_compute. discriminate.
  - vm_compute. discriminate.
Defined.

(** C7, as stated, fails for a bit depth that is no whole number of
    bytes: under the descriptor audio/L12;rate=24000 the block alignment
    1 x 12 / 8 is 1.5, and the header holds 1. *)
Lemma block_alignment_is_truncated :
  exists header,
    convertToWav (fun _ => [1; 2; 3]%Z) "AQID" "audio/L12;rate=24000"
    = Return (header ++ [1; 2; 3]%Z) /\
    length header = 44%nat /\
    numChannels (parseMimeType "audio/L12;rate=24000") = of_Z 1 /\
    bitsPerSample (parseMimeType "audio/L12;rate=24000") = of_Z 12 /\
    readUInt16LE 32 header = 1%Z /\
    ~ (inject_Z (readUInt16LE 32 header) == 1 * 12 / 8)%Q.
Proof.
  exists [82; 73; 70; 70; 39; 0; 0; 0; 87; 65; 86; 69; 102; 109; 116; 32; 16; 0; 0; 0;
          1; 0; 1; 0; 192; 93; 0; 0; 160; 140; 0; 0; 1; 0; 12; 0; 100; 97; 116; 97;
          3; 0; 0; 0]%Z.
  split; [vm_compute; reflexivity|].
  split; [reflexivity|]. split; [reflexivity|]. split; [reflexivity|].
  split; [reflexivity|]. vm_compute. discriminate.
Qed.

Lemma writeUIntLE_cases (n : nat) (max : Z) (v : number) (offset : nat) (buffer : Buffer) :
  (exists written, writeUIntLE n max v offset buffer = Return written) \/
  writeUIntLE n max v offset buffer = Throw (RangeError "ERR_OUT_OF_RANGE").
Proof.
  unfold writeUIntLE. destruct v as [|q]; [by eauto|].
  destruct (negb _ || negb _); [by right|by eauto].
Qed.

Lemma createWavHeader_negative_rate (dataLength : Z) :
  createWavHeader dataLength
    {| numChannels := of_Z 1; sampleRate := of_Z (-1); bitsPerSample := of_Z 16 |}
  = Throw (RangeError "ERR_OUT_OF_RANGE").
Proof.
  unfold createWavHeader, writeUInt32LE, writeUInt16LE.
  cbn [numChannels sampleRate bitsPerSample].
  destruct (writeUIntLE_cases 4 4294967295 (add (of_Z 36) (of_Z dataLength)) 4
              (write "RIFF" 0 (alloc 44))) as [[buffer ->] | ->];
    reflexivity.
Qed.

(** C8, where the code departs from it.  A rate that is no number is
    not replaced by the default 22050 but parsed to NaN, while a bit depth
    that is no number is replaced by its default; and a rate that does not
    fit 32 unsigned bits makes the wrapping throw, whatever the payload. *)
Theorem malformed_rate_is_not_defaulted :
  parseMimeType "audio/L16;rate=abc"
  = {| numChannels := of_Z 1; sampleRate := NaN; bitsPerSample := of_Z 16 |} /\
  parseMimeType "audio/Labc;rate=24000"
  = {| numChannels := of_Z 1; sampleRate := of_Z 24000; bitsPerSample := of_Z 16 |} /\
  (forall (base64 : string -> Buffer) (rawData : string),
     convertToWav base64 rawData "audio/L16;rate=-1"
     = Throw (RangeError "ERR_OUT_OF_RANGE")).
Proof.
  split; [reflexivity|]. split; [reflexivity|].
  intros base64 rawData. unfold convertToWav.
  change (parseMimeType "audio/L16;rate=-1")
    with {| numChannels := of_Z 1; sampleRate := of_Z (-1); bitsPerSample := of_Z 16 |}.
  by rewrite createWavHeader_negative_rate.
Qed.

End WavContainer.


(** ** How the store and the generation client run *)

Module Runs.
Import SupabaseService GeminiService PageCacheService AudioUtils Spec.

Lemma getPageTextByBookAndNumber_run (bookId : string) (pageNumber : Z) (w : world) :
  getPageTextByBookAndNumber bookId pageNumber w
  = (Return (row ← cached_text w bookId pageNumber;
             Some (row, {| joined_book_id := bookId; joined_page_number := pageNumber |})),
     w).
Proof.
  unfold getPageTextByBookAndNumber, cached_text. run.
  destruct (pages w !! (bookId, pageNumber)) as [p|]; [|done]. cbn.
  by destruct (page_text w !! page_id p).
Qed.

Lemma getPageAudioByBookAndNumber_run (bookId : string) (pageNumber : Z)
    (voicePersona : string) (w : world) :
  exists found,
    getPageAudioByBookAndNumber bookId pageNumber voicePersona w = (Return found, w).
Proof.
  unfold getPageAudioByBookAndNumber. run.
  destruct (pages w !! (bookId, pageNumber)) as [p|]; cbn; [|by eauto].
  destruct (page_audio w !! (page_id p, voicePersona)); cbn; by eauto.
Qed.

Lemma getOrCreatePage_run (bookId : string) (pageNumber : Z) (imageUrl : option string)
    (w : world) :
  exists page w',
    getOrCreatePage bookId pageNumber imageUrl w = (Return page, w') /\
    pages w' !! (bookId, pageNumber) = Some page /\
    page_text w' = page_text w /\ calls w' = calls w /\ sleeps w' = sleeps w /\
    page_audio w' = page_audio w.
Proof.
  unfold getOrCreatePage, getPageByBookAndNumber, createPage. run.
  destruct (pages w !! (bookId, pageNumber)) as [p|] eqn:E; cbn.
  - by exists p, w.
  - rewrite E. cbn. eexists _, _. split; [reflexivity|].
    cbn. by rewrite lookup_insert_eq.
Qed.

Lemma processImageToText_run (h : host) (imageData mimeType : string) (w w' : world)
    (v : value) :
  processImageToText h imageData mimeType w = (Return v, w') ->
  w' = set_calls (fun l => l ++ [ExtractText imageData mimeType]) w.
Proof.
  unfold processImageToText, ask.
  destruct (String.eqb imageData ""); [done|].
  destruct (String.eqb mimeType ""); [done|].
  destruct (negb _); [done|]. run.
  destruct (generateContentStream _ _ _ _); [done|]. by intros [= _ <-].
Qed.

Lemma same_store_refl (w : world) : same_store w w.
Proof. by repeat split. Qed.

Lemma same_store_trans (w1 w2 w3 : world) :
  same_store w1 w2 -> same_store w2 w3 -> same_store w1 w3.
Proof. unfold same_store. intros H1 H2. destruct_and!. repeat split; congruence. Qed.

Lemma retry_loop_same_store {A} (operation : M A) (fuel : nat)
    (maxAttempts retryDelay attempts : Z) (w : world) :
  (forall w0, same_store w0 (operation w0).2) ->
  same_store w (retry_loop fuel maxAttempts retryDelay attempts operation w).2.
Proof.
  intros Hop. revert attempts w. induction fuel as [|fuel IH]; intros attempts w.
  - apply same_store_refl.
  - cbn [retry_loop]. destruct (negb _); [apply same_store_refl|].
    unfold try_catch. run.
    pose proof (Hop w) as Hw. destruct (operation w) as [[a|e] w'']; [done|].
    destruct (rate_limited e && _); [|done].
    eapply same_store_trans; [exact Hw|].
    eapply same_store_trans; [|apply IH]. by repeat split.
Qed.

Lemma generateAudio_same_store (h : host) (text : string) (w : world) :
  same_store w (generateAudio h text w).2.
Proof.
  unfold generateAudio, retryWithBackoff. apply retry_loop_same_store.
  intros w0. unfold ask. run. by repeat split.
Qed.

(** The fuel retryWithBackoff gives its loop is enough: more of it changes
    nothing. *)
Lemma retry_loop_fuel {A} (operation : M A) (fuel : nat)
    (maxAttempts retryDelay attempts : Z) (w : world) :
  (Z.to_nat (maxAttempts - attempts) <= fuel)%nat ->
  retry_loop (S fuel) maxAttempts retryDelay attempts operation w
  = retry_loop fuel maxAttempts retryDelay attempts operation w.
Proof.
  revert attempts w. induction fuel as [|fuel IH]; intros attempts w Hfuel.
  - cbn [retry_loop]. destruct (Z.ltb_spec attempts maxAttempts); [lia|done].
  - change (retry_loop (S (S fuel)) maxAttempts retryDelay attempts operation w)
      with ((if negb (attempts <? maxAttempts)%Z then mret None
             else try_catch (a ← operation; mret (Some a))
                    (fun error =>
                       if rate_limited error && (attempts + 1 <? maxAttempts)%Z
                       then _ ← sleep (2 ^ (attempts + 1) * retryDelay)%Z;
                            retry_loop (S fuel) maxAttempts retryDelay (attempts + 1)
                              operation
                       else throw error)) w).
    cbn [retry_loop].
    destruct (Z.ltb_spec attempts maxAttempts); [|done]. cbn [negb].
    unfold try_catch. run. destruct (operation w) as [[a|e] w']; [done|].
    destruct (rate_limited e && _); [|done].
    unfold sleep. run. apply IH. lia.
Qed.

Lemma bind_Return {A B} (r : result A) (k : A -> result B) (b : B) :
  r ≫= k = Return b -> exists a, r = Return a /\ k a = Return b.
Proof. destruct r as [a|e]; [by exists a|done]. Qed.

Lemma writeUIntLE_length (n : nat) (max : Z) (v : number) (offset : nat)
    (buffer written : Buffer) :
  writeUIntLE n max v offset buffer = Return written -> length written = length buffer.
Proof.
  unfold writeUIntLE. destruct v as [|q].
  - intros [= <-]. apply length_inserts.
  - destruct (negb _ || negb _); [done|]. intros [= <-]. apply length_inserts.
Qed.

Lemma createWavHeader_length (dataLength : Z) (o : options) (header : Buffer) :
  createWavHeader dataLength o = Return header -> length header = 44%nat.
Proof.
  unfold createWavHeader, writeUInt32LE, writeUInt16LE, write.
  repeat (let b := fresh "b" in let Hw := fresh "Hw" in
          intros (b & Hw%writeUIntLE_length & H)%bind_Return; revert H).
  intros [= <-].
  rewrite ?length_inserts in *. unfold alloc in *. rewrite length_replicate in *.
  congruence.
Qed.

Lemma convertToWav_length (base64 : string -> Buffer) (rawData mimeType : string)
    (wav : Buffer) :
  convertToWav base64 rawData mimeType = Return wav ->
  length wav = (44 + length (base64 rawData))%nat.
Proof.
  unfold convertToWav. intros (header & Hh%createWavHeader_length & [= <-])%bind_Return.
  by rewrite length_app, Hh.
Qed.

End Runs.

(** ** Page text *)

Module PageText.
Import SupabaseService GeminiService PageCacheService Spec Runs.

Lemma getOrExtractPageText_hit (h : host) (bookId : string) (pageNumber : Z)
    (imageData mimeType userId : string) (w : world) (row : page_text_row) (t : extracted) :
  cached_text w bookId pageNumber = Some row ->
  normalizeExtractedText h (extracted_text row) = Return t ->
  getOrExtractPageText h bookId pageNumber imageData mimeType userId w
  = (Return {| cached := true; text := t;
               text_page := Joined {| joined_book_id := bookId;
                                      joined_page_number := pageNumber |} |}, w).
Proof.
  intros Hrow Ht. unfold getOrExtractPageText.
  unfold mbind at 1, M_bind, bindM.
  rewrite getPageTextByBookAndNumber_run, Hrow. cbn. run. by rewrite Ht.
Qed.


(** A first call does return when the request is well formed, the backend
    answers, and the answer can be normalised. *)
Lemma first_call_returns (h : host) (bookId : string) (pageNumber : Z)
    (imageData mimeType userId : string) (w : world) (chunks : list string) (t : extracted) :
  cached_text w bookId pageNumber = None ->
  imageData <> "" ->
  startsWith "image/" mimeType = true ->
  generateContentStream h (length (calls w)) imageData mimeType = Stream chunks ->
  normalizeExtractedText h (parseResponse h (foldl String.append "" chunks)) = Return t ->
  exists page w1,
    getOrExtractPageText h bookId pageNumber imageData mimeType userId w
    = (Return {| cached := false; text := t; text_page := Row page |}, w1) /\
    calls w1 = calls w ++ [ExtractText imageData mimeType].
Proof.
  intros Hmiss Hdata Hmime Hreply Ht. unfold getOrExtractPageText.
  unfold mbind at 1, M_bind, bindM.
  rewrite getPageTextByBookAndNumber_run, Hmiss. cbn.
  unfold mbind at 1, M_bind, bindM.
  destruct (getOrCreatePage_run bookId pageNumber (Some "placeholder") w)
    as (page & w0 & -> & Hpage & Htext & Hcalls & _).
  unfold processImageToText, ask, savePageText.
  apply String.eqb_neq in Hdata. rewrite Hdata, Hmime.
  assert (String.eqb mimeType "" = false) as ->.
  { apply String.eqb_neq. intros ->. discriminate. }
  run. cbn [negb]. cbv beta. rewrite Hcalls, Hreply. run. rewrite Ht.
  eexists _, _. split; [reflexivity|]. cbn. by rewrite Hcalls.
Qed.


(** C3, where the code departs from it.  The stored string [null] parses,
    to the value null, and reading its header throws: normalizeExtractedText
    fails instead of returning empty fields. *)
Theorem normalize_throws_on_parsed_null (h : host) :
  JSON_parse h "null" = Some Null ->
  normalizeExtractedText h (Str "null")
  = Throw (TypeError "Cannot read properties of null (reading 'header')").
Proof. intros Hparse. unfold normalizeExtractedText. cbn. by rewrite Hparse. Qed.

Lemma normalize_throws_on_parsed_null_witness :
  normalizeExtractedText Example.steady (Str "null")
  = Throw (TypeError "Cannot read properties of null (reading 'header')").
Proof. apply normalize_throws_on_parsed_null. reflexivity. Defined.

(** The part of the mapping that the code does implement. *)
Lemma normalize_mapping (h : host) :
  normalizeExtractedText h Null = Return {| header := ""; body := ""; footer := "" |} /\
  normalizeExtractedText h Undefined = Return {| header := ""; body := ""; footer := "" |} /\
  (forall s, JSON_parse h s = None ->
     normalizeExtractedText h (Str s) = Return {| header := ""; body := s; footer := "" |}) /\
  (forall s parsed, s <> "" -> JSON_parse h s = Some parsed -> nullish parsed = false ->
     normalizeExtractedText h (Str s)
     = Return {| header := string_or_empty (field parsed "header");
                 body := string_or_empty (field parsed "body");
                 footer := string_or_empty (field parsed "footer") |}) /\
  (forall v, truthy v = true -> is_string v = false ->
     normalizeExtractedText h v
     = Return {| header := string_or_empty (field v "header");
                 body := string_or_empty (field v "body");
                 footer := string_or_empty (field v "footer") |}).
Proof.
  split; [done|]. split; [done|]. split; [|split].
  - intros s Hs. unfold normalizeExtractedText. cbn.
    destruct (String.eqb_spec s "") as [->|]; [done|]. cbn. by rewrite Hs.
  - intros s parsed Hne Hs Hn. unfold normalizeExtractedText. cbn.
    destruct (String.eqb_spec s "") as [->|]; [done|]. cbn. rewrite Hs.
    by destruct parsed.
  - intros v Hv Hs. unfold normalizeExtractedText. rewrite Hv. cbn.
    by destruct v.
Qed.

End PageText.

(** ** Page audio *)

Module PageAudio.
Import SupabaseService GeminiService PageCacheService AudioUtils Spec WavContainer Runs.

(** A miss that returns: the container the codec produced, and what is
    returned and kept of it. *)
Lemma audio_miss_run (h : host) (bookId : string) (pageNumber : Z)
    (text : string) (voicePersona : option string) (userId : string) (w w1 : world)
    (r : audio_result) :
  getOrGeneratePageAudio h bookId pageNumber text voicePersona userId w = (Return r, w1) ->
  audio_cached r = false ->
  exists (generated : audio) (wav : Buffer) (page : page) (row : page_audio_row),
    convertToWav (base64 h) (audio_data generated) (audio_mimeType generated)
    = Return wav /\
    duration r
    = Math_round (inject_Z (Z.of_nat (length wav)) / inject_Z (44100 * 2 * 2)) /\
    pages w1 !! (bookId, pageNumber) = Some page /\
    page_audio w1 !! (page_id page, stored_voice voicePersona) = Some row /\
    audio_duration_seconds row = duration r /\
    audio_size_bytes row = Z.of_nat (length wav) /\
    (generateAudio h text (getOrCreatePage bookId pageNumber (Some "placeholder") w).2).1
    = Return (Some generated) /\
    files w1 !! audio_path userId bookId pageNumber voicePersona = Some wav /\
    audioUrl r = getPublicUrl h (audio_path userId bookId pageNumber voicePersona).
Proof.
  unfold getOrGeneratePageAudio.
  unfold mbind at 1, M_bind, bindM.
  destruct (getPageAudioByBookAndNumber_run bookId pageNumber (default "Zephyr" voicePersona) w)
    as [existing ->].
  match goal with |- context [match ?hit with Some _ => _ | None => _ end w] =>
    destruct hit as [[[row joined] url]|] end.
  { intros [= <- _]. done. }
  unfold mbind at 1, M_bind, bindM.
  destruct (getOrCreatePage_run bookId pageNumber (Some "placeholder") w)
    as (page & w2 & Hcreated & Hpage & _).
  rewrite Hcreated. cbn [snd].
  unfold mbind at 1, M_bind, bindM.
  destruct (generateAudio h text w2) as [[[generated|]|e] w3] eqn:Hgen; [|done|done].
  unfold mbind at 1, M_bind, bindM. unfold lift at 1.
  destruct (convertToWav _ _ _) as [wav|e] eqn:Hwav; [|done].
  unfold saveAudioFile, savePageAudio. run.
  destruct (String.eqb (getPublicUrl h _) ""); [done|].
  intros [= <- <-] _.
  pose proof (generateAudio_same_store h text w2) as Hstore.
  rewrite Hgen in Hstore. destruct Hstore as (Hpages & _). cbn in Hpages.
  exists generated, wav, page. eexists. cbn.
  split; [exact Hwav|]. split; [done|].
  split; [congruence|].
  split; [unfold stored_voice; apply lookup_insert_eq|].
  split; [done|]. split; [done|]. split; [done|].
  split; [unfold audio_path; apply lookup_insert_eq|done].
Qed.

Lemma audio_miss_returns (h : host) (bookId : string) (pageNumber : Z)
    (text : string) (voicePersona : option string) (userId : string) (w w2 : world)
    (generated : audio) (wav : Buffer) :
  getPageAudioByBookAndNumber bookId pageNumber (default "Zephyr" voicePersona) w
  = (Return None, w) ->
  generateAudio h text (getOrCreatePage bookId pageNumber (Some "placeholder") w).2
  = (Return (Some generated), w2) ->
  convertToWav (base64 h) (audio_data generated) (audio_mimeType generated) = Return wav ->
  (forall path, getPublicUrl h path <> "") ->
  exists r w1,
    getOrGeneratePageAudio h bookId pageNumber text voicePersona userId w = (Return r, w1) /\
    audio_cached r = false.
Proof.
  intros Hmiss Hgen Hwav Hurl. unfold getOrGeneratePageAudio.
  unfold mbind at 1, M_bind, bindM. rewrite Hmiss.
  unfold mbind at 1, M_bind, bindM.
  destruct (getOrCreatePage_run bookId pageNumber (Some "placeholder") w)
    as (page & w0 & Hpage & _).
  rewrite Hpage in *. cbn [snd] in Hgen.
  unfold mbind at 1, M_bind, bindM. rewrite Hgen.
  unfold mbind at 1, M_bind, bindM. unfold lift at 1. rewrite Hwav.
  unfold saveAudioFile, savePageAudio. run.
  destruct (String.eqb_spec (getPublicUrl h
    ("audio/" ++ userId ++ "/" ++ bookId ++ "/" ++ "page_" ++ of_int pageNumber ++ "_"
     ++ toLowerCase (default "Zephyr" voicePersona) ++ ".wav")%string) "") as [E|_].
  - by apply Hurl in E.
  - by eexists _, _.
Qed.

(** C6, as amended.  On an audio cache miss the duration returned, and
    persisted with the row of the page and voice, is
    Math.round(byteLength / (44100 x 2 x 2)): the byte length of the
    container over the fixed profile of 44.1 kHz, 16-bit, stereo, rounded
    to whole seconds.  The container is the one convertToWav makes of the
    audio that generateAudio returned for the text, it is the file stored
    under the path of the page and voice, whose address is returned, and
    its length is 44 header bytes and the payload.  The sample rate,
    channel count and bit depth the codec parsed from the descriptor play
    no part in the duration. *)
Theorem audio_duration_uses_fixed_profile (h : host) (bookId : string) (pageNumber : Z)
    (text : string) (voicePersona : option string) (userId : string) (w w1 : world)
    (r : audio_result) :
  getOrGeneratePageAudio h bookId pageNumber text voicePersona userId w = (Return r, w1) ->
  audio_cached r = false ->
  exists (generated : audio) (wav : Buffer) (page : page) (row : page_audio_row),
    let byteLength := Z.of_nat (length wav) in
    let filePath := audio_path userId bookId pageNumber voicePersona in
    (generateAudio h text (getOrCreatePage bookId pageNumber (Some "placeholder") w).2).1
    = Return (Some generated) /\
    convertToWav (base64 h) (audio_data generated) (audio_mimeType generated)
    = Return wav /\
    files w1 !! filePath = Some wav /\
    audioUrl r = getPublicUrl h filePath /\
    byteLength = (44 + Z.of_nat (length (base64 h (audio_data generated))))%Z /\
    duration r = Math_round (inject_Z byteLength / inject_Z (44100 * 2 * 2)) /\
    pages w1 !! (bookId, pageNumber) = Some page /\
    page_audio w1 !! (page_id page, stored_voice voicePersona) = Some row /\
    audio_duration_seconds row = duration r /\
    audio_size_bytes row = byteLength.
Proof.
  intros Hrun Hmiss.
  destruct (audio_miss_run _ _ _ _ _ _ _ _ _ Hrun Hmiss)
    as (generated & wav & page & row & Hwav & Hduration & Hpage & Hrow & Hkept & Hsize
        & Hgenerated & Hfile & Hurl).
  pose proof (convertToWav_length _ _ _ _ Hwav) as Hlength.
  assert (Hbytes : Z.of_nat (length wav)
                   = (44 + Z.of_nat (length (base64 h (audio_data generated))))%Z)
    by (rewrite Hlength; lia).
  exists generated, wav, page, row. cbn zeta.
  by repeat split.
Qed.

Lemma audio_duration_uses_fixed_profile_witness :
  let '(r, w1) :=
    getOrGeneratePageAudio Example.steady "book-1" 7 "some text" None "user-1"
      Example.empty in
  match r with
  | Return r =>
      audio_cached r = false /\
      exists (generated : audio) (wav : Buffer) (page : page) (row : page_audio_row),
        let byteLength := Z.of_nat (length wav) in
        let filePath := audio_path "user-1" "book-1" 7 None in
        (generateAudio Example.steady "some text"
           (getOrCreatePage "book-1" 7 (Some "placeholder") Example.empty).2).1
        = Return (Some generated) /\
        convertToWav (base64 Example.steady) (audio_data generated)
          (audio_mimeType generated)
        = Return wav /\
        files w1 !! filePath = Some wav /\
        audioUrl r = getPublicUrl Example.steady filePath /\
        byteLength
        = (44 + Z.of_nat (length (base64 Example.steady (audio_data generated))))%Z /\
        duration r = Math_round (inject_Z byteLength / inject_Z (44100 * 2 * 2)) /\
        pages w1 !! ("book-1", 7%Z) = Some page /\
        page_audio w1 !! (page_id page, stored_voice None) = Some row /\
        audio_duration_seconds row = duration r /\
        audio_size_bytes row = byteLength
  | Throw _ => False
  end.
Proof.
  destruct (getOrGeneratePageAudio Example.steady "book-1" 7 "some text" None "user-1"
              Example.empty) as [[r|e] w1] eqn:Hrun.
  - assert (Hmiss : audio_cached r = false).
    { vm_compute in Hrun. by injection Hrun as <- _. }
    split; [exact Hmiss|].
    exact (audio_duration_uses_fixed_profile _ _ _ _ _ _ _ _ _ Hrun Hmiss).
  - vm_compute in Hrun. discriminate.
Defined.

(** C6, as stated, fails: a 48,000-byte container whose descriptor
    reports 24 kHz, one channel, 16 bits lasts 48000 / (24000 x 1 x 2) = 1
    second by the formula of the specification, and the code returns 0. *)
Lemma duration_ignores_codec_profile :
  exists r w1,
    getOrGeneratePageAudio Example.long_audio "book-1" 7 "some text" None "user-1"
      Example.empty = (Return r, w1) /\
    audio_cached r = false /\
    duration r = 0%Z /\
    described_duration 48000 (parseMimeType "audio/L16;rate=24000")
    = Some (48000 / (24000 * 1 * (16 / 8)))%Q /\
    (48000 / (24000 * 1 * (16 / 8)) == 1)%Q /\
    ~ (inject_Z (duration r) == 48000 / (24000 * 1 * (16 / 8)))%Q.
Proof.
  set (h := Example.long_audio).
  set (generated := {| audio_data := "AAAA"; audio_mimeType := "audio/L16;rate=24000" |}).
  assert (Hlen : length (base64 h (audio_data generated)) = Z.to_nat 47956)
    by apply length_replicate.
  destruct (audio_miss_returns h "book-1" 7 "some text" None "user-1" Example.empty
              (generateAudio h "some text"
                 (getOrCreatePage "book-1" 7 (Some "placeholder") Example.empty).2).2
              generated
              ((utf8 "RIFF" ++ le_bytes 4 (36 + 47956)
                ++ utf8 "WAVE" ++ utf8 "fmt " ++ le_bytes 4 16 ++ le_bytes 2 1
                ++ le_bytes 2 1 ++ le_bytes 4 24000 ++ le_bytes 4 (24000 * 1 * 16 / 8)
                ++ le_bytes 2 (1 * 16 / 8) ++ le_bytes 2 16
                ++ utf8 "data" ++ le_bytes 4 47956) ++ base64 h (audio_data generated)))
    as (r & w1 & Hrun & Hmiss).
  - reflexivity.
  - vm_compute. reflexivity.
  - unfold convertToWav. rewrite Hlen.
    rewrite (header_bytes (Z.of_nat (Z.to_nat 47956)) 24000 16).
    + reflexivity.
    + reflexivity.
    + reflexivity.
    + reflexivity.
    + lia.
    + lia.
    + by exists 2%Z.
    + vm_compute. discriminate.
    + lia.
    + lia.
  - intros path. discriminate.
  - exists r, w1. split; [exact Hrun|]. split; [exact Hmiss|].
    destruct (audio_miss_run _ _ _ _ _ _ _ _ _ Hrun Hmiss)
      as (g & wav & page & row & Hwav & Hd & _).
    apply convertToWav_length in Hwav.
    assert (Hzero : duration r = 0%Z).
    { rewrite Hd, Hwav.
      change (base64 h (audio_data g)) with (replicate (Z.to_nat 47956) 0%Z).
      rewrite length_replicate. reflexivity. }
    split; [exact Hzero|]. split; [reflexivity|]. split; [reflexivity|].
    rewrite Hzero. vm_compute. discriminate.
Qed.

End PageAudio.

(** ** Retries on rate limits *)

Module Retry.
Import SupabaseService GeminiService PageCacheService Spec.

Section Loop.
Context {A : Type} (operation : M A) (rq : request) (out : nat -> result A).
Variables maxAttempts retryDelay : Z.

(** The operation sends one request and ends as the reply to it says. *)
Hypothesis driven :
  forall w, operation w = (out (length (calls w)), set_calls (fun l => l ++ [rq]) w).

Lemma retry_loop_attempts (k fuel : nat) (attempts : Z) (w : world) :
  (k < fuel)%nat ->
  (attempts + Z.of_nat k < maxAttempts)%Z ->
  (forall j, (j < k)%nat ->
     exists e, out (length (calls w) + j) = Throw e /\ rate_limited e = true) ->
  (forall e, out (length (calls w) + k) = Throw e ->
     rate_limited e = false \/ (attempts + Z.of_nat k + 1 = maxAttempts)%Z) ->
  exists w',
    retry_loop fuel maxAttempts retryDelay attempts operation w
    = (settled (out (length (calls w) + k)), w') /\
    calls w' = calls w ++ replicate (S k) rq /\
    sleeps w'
    = sleeps w ++ map (fun i => 2 ^ (attempts + Z.of_nat i) * retryDelay)%Z (seq 1 k).
Proof.
  revert fuel attempts w.
  induction k as [|k IH]; intros fuel attempts w Hfuel Hcap Hretried Hlast.
  - destruct fuel as [|fuel]; [lia|]. cbn [retry_loop].
    destruct (Z.ltb_spec attempts maxAttempts) as [_|]; [|lia]. cbn [negb].
    unfold try_catch. run. rewrite driven, Nat.add_0_r in *.
    destruct (out (length (calls w))) as [a|e] eqn:Hout.
    + eexists. split; [reflexivity|]. cbn. by rewrite app_nil_r.
    + destruct (Hlast e eq_refl) as [-> | Hend].
      * eexists. split; [reflexivity|]. cbn. by rewrite app_nil_r.
      * destruct (Z.ltb_spec (attempts + 1) maxAttempts) as [|_]; [lia|].
        rewrite andb_false_r.
        eexists. split; [reflexivity|]. cbn. by rewrite app_nil_r.
  - destruct fuel as [|fuel]; [lia|]. cbn [retry_loop].
    destruct (Z.ltb_spec attempts maxAttempts) as [_|]; [|lia]. cbn [negb].
    unfold try_catch. run. rewrite driven.
    destruct (Hretried 0%nat ltac:(lia)) as (e & Hout & Hlimited).
    rewrite Nat.add_0_r in Hout. rewrite Hout, Hlimited.
    destruct (Z.ltb_spec (attempts + 1) maxAttempts) as [_|]; [|lia]. cbn [andb].
    unfold sleep. run.
    set (w1 := set_sleeps _ (set_calls _ w)).
    assert (Hcalls : calls w1 = calls w ++ [rq]) by done.
    assert (Hlen : length (calls w1) = S (length (calls w)))
      by (rewrite Hcalls, length_app; cbn; lia).
    destruct (IH fuel (attempts + 1)%Z w1) as (w' & Hrun & Hc & Hs).
    + lia.
    + lia.
    + intros j Hj. rewrite Hlen.
      replace (S (length (calls w)) + j)%nat with (length (calls w) + S j)%nat by lia.
      apply Hretried. lia.
    + intros e' He'. rewrite Hlen in He'.
      replace (S (length (calls w)) + k)%nat with (length (calls w) + S k)%nat in He' by lia.
      destruct (Hlast e' He'); [by left|right; lia].
    + exists w'. split.
      * rewrite Hrun, Hlen.
        by replace (S (length (calls w)) + k)%nat with (length (calls w) + S k)%nat by lia.
      * split.
        -- rewrite Hc, Hcalls, <- app_assoc. done.
        -- rewrite Hs. subst w1. cbn [sleeps set_sleeps set_calls].
           rewrite <- app_assoc. f_equal. cbn [seq map app].
           change (Z.of_nat 1) with 1%Z. f_equal.
           rewrite <- (seq_shift k 1), map_map. apply map_ext. intros i.
           f_equal. f_equal. lia.
Qed.

Lemma retry_loop_bounded (fuel : nat) (attempts : Z) (w : world) :
  (length (calls (retry_loop fuel maxAttempts retryDelay attempts operation w).2)
   <= length (calls w) + fuel)%nat.
Proof.
  revert attempts w. induction fuel as [|fuel IH]; intros attempts w; [cbn; lia|].
  cbn [retry_loop]. destruct (negb _); [cbn; lia|].
  unfold try_catch. run. rewrite driven.
  destruct (out _) as [a|e]; [cbn; rewrite length_app; cbn; lia|].
  destruct (rate_limited e && _); [|cbn; rewrite length_app; cbn; lia].
  unfold sleep. run.
  etrans; [apply IH|]. cbn. rewrite length_app. cbn. lia.
Qed.

End Loop.

(** C9, as amended.  The text-to-audio path retries with a bounded
    exponential backoff, and only on rate-limit responses: if the first [k]
    attempts fail with a rate-limit error, [k] being below the cap
    maxRetries, and attempt [k] succeeds, fails otherwise, or is the last
    the cap allows, then generateAudio ends as attempt [k] does, after
    [k + 1] requests and the delays 2 d, 4 d, ..., 2^k d; it never makes
    more than maxRetries requests.  The image-to-text path makes one
    request and rethrows whatever failure it meets, a rate-limit response
    included, without any delay. *)
Theorem backoff_only_for_speech (h : host) :
  (forall text w k,
     let sent := truncatedText h text in
     let attempt j := audio_of (generateContent h (length (calls w) + j) sent) in
     (Z.of_nat k < maxRetries (cfg h))%Z ->
     (forall j, (j < k)%nat -> exists e, attempt j = Throw e /\ rate_limited e = true) ->
     (forall e, attempt k = Throw e ->
        rate_limited e = false \/ (Z.of_nat k + 1 = maxRetries (cfg h))%Z) ->
     exists w',
       generateAudio h text w = (settled (attempt k), w') /\
       calls w' = calls w ++ replicate (S k) (Synthesize sent) /\
       sleeps w' = sleeps w ++ backoff (retryDelay (cfg h)) k) /\
  (forall text w,
     (length (calls (generateAudio h text w).2)
      <= length (calls w) + Z.to_nat (maxRetries (cfg h)))%nat) /\
  (forall imageData mimeType w message code,
     imageData <> "" -> startsWith "image/" mimeType = true ->
     generateContentStream h (length (calls w)) imageData mimeType
     = StreamFailed message code ->
     processImageToText h imageData mimeType w
     = (Throw (Rejection message code),
        set_calls (fun l => l ++ [ExtractText imageData mimeType]) w)).
Proof.
  split; [|split].
  - intros text w k sent attempt Hk Hretried Hlast.
    unfold generateAudio, retryWithBackoff. fold sent.
    destruct (retry_loop_attempts
                (response ← ask (Synthesize sent) (fun n => generateContent h n sent);
                 lift (audio_of response))
                (Synthesize sent)
                (fun n => audio_of (generateContent h n sent))
                (maxRetries (cfg h)) (retryDelay (cfg h))
                ltac:(intros w0; unfold ask; by run)
                k (Z.to_nat (maxRetries (cfg h))) 0 w)
      as (w' & Hrun & Hc & Hs); try done; try lia.
    exists w'. split; [exact Hrun|]. split; [exact Hc|].
    rewrite Hs. unfold backoff. done.
  - intros text w. unfold generateAudio, retryWithBackoff.
    apply (retry_loop_bounded _ (Synthesize (truncatedText h text))
             (fun n => audio_of (generateContent h n (truncatedText h text)))).
    intros w0. unfold ask. by run.
  - intros imageData mimeType w message code Hdata Hmime Hreply.
    unfold processImageToText, ask.
    apply String.eqb_neq in Hdata. rewrite Hdata, Hmime.
    assert (String.eqb mimeType "" = false) as ->.
    { apply String.eqb_neq. intros ->. discriminate. }
    cbn [negb]. run. by rewrite Hreply.
Qed.

Lemma backoff_only_for_speech_witness :
  exists w',
    generateAudio Example.throttled_once "read this page aloud" Example.empty
    = (Return (Some {| audio_data := "AAAA"; audio_mimeType := "audio/L16;rate=24000" |}),
       w') /\
    calls w' = [Synthesize "read this page aloud"; Synthesize "read this page aloud"] /\
    sleeps w' = [2000%Z].
Proof.
  destruct (proj1 (backoff_only_for_speech Example.throttled_once)
              "read this page aloud" Example.empty 1%nat) as (w' & Hrun & Hc & Hs).
  - reflexivity.
  - intros j Hj. assert (j = 0%nat) as -> by lia.
    eexists. split; reflexivity.
  - intros e He. discriminate.
  - exists w'. split; [exact Hrun|]. split; [exact Hc|exact Hs].
Defined.

(** C9, as stated, fails for image-to-text extraction: a rate-limit
    response to the first request is rethrown at once, although the cap
    would allow further attempts and the next one would succeed. *)
Lemma image_extraction_is_not_retried :
  exists w',
    processImageToText Example.throttled_once "aGVsbG8=" "image/png" Example.empty
    = (Throw (Rejection (Some "got status: 429 Too Many Requests") (Some "429")), w') /\
    rate_limited (Rejection (Some "got status: 429 Too Many Requests") (Some "429")) = true /\
    (1 < maxRetries (cfg Example.throttled_once))%Z /\
    generateContentStream Example.throttled_once 1 "aGVsbG8=" "image/png"
    = Stream ["page "; "text"] /\
    calls w' = [ExtractText "aGVsbG8=" "image/png"] /\
    sleeps w' = [].
Proof. eexists. repeat split. Qed.

End Retry.

(** ** The chat session *)

Module ChatSession.
Import SupabaseService GeminiService ConversationService ChatController.

Lemma request_passes_validation (conversationId message : string) :
  conversationId <> "" -> message <> "" ->
  (Z.of_nat (String.length message) <= 10000)%Z ->
  String.eqb conversationId "" || String.eqb message "" = false /\
  (10000 <? Z.of_nat (String.length message))%Z = false.
Proof.
  intros Hc%String.eqb_neq Hm%String.eqb_neq Hlen. rewrite Hc, Hm. split; [done|].
  by apply Z.ltb_ge.
Qed.

(** C2, where the code departs from it.  For a well-formed request that
    names a conversation the store does not hold, getConversationById
    throws the storage error PGRST116, so that sendMessage ends in
    [next(error)] and not in its not-found answer. *)
Theorem sendMessage_missing_conversation (h : host) (userId conversationId message : string)
    (w : world) :
  conversationId <> "" -> message <> "" ->
  (Z.of_nat (String.length message) <= 10000)%Z ->
  conversations w !! conversationId = None ->
  sendMessage h userId (Some conversationId) (Some message) w = (Next PGRST116, w).
Proof.
  intros Hc Hm Hlen Hnone.
  destruct (request_passes_validation _ _ Hc Hm Hlen) as [Hreq Hshort].
  unfold sendMessage, sendMessage_try. cbn [default from_option id].
  rewrite Hreq, Hshort. unfold getConversationById. run. by rewrite Hnone.
Qed.

Lemma sendMessage_missing_conversation_witness :
  sendMessage Example.steady "user-1" (Some "no-such-conversation") (Some "hello")
    Example.empty
  = (Next PGRST116, Example.empty).
Proof.
  apply sendMessage_missing_conversation; [done|done|vm_compute; discriminate|reflexivity].
Defined.

(** What does hold of the checks once the conversation is found. *)
Lemma sendMessage_access_before_state (h : host) (userId conversationId message : string)
    (w : world) (c : conversation) :
  conversationId <> "" -> message <> "" ->
  (Z.of_nat (String.length message) <= 10000)%Z ->
  conversations w !! conversationId = Some c ->
  (user_id c <> userId ->
     sendMessage h userId (Some conversationId) (Some message) w
     = (Json 403 (ErrorBody "Access denied to this conversation"), w)) /\
  (user_id c = userId ->
     (forall expires, cache_expires_at c = Some expires -> (expires < now w)%Z ->
        sendMessage h userId (Some conversationId) (Some message) w
        = (Json 410 (ExpiredBody "File has expired. Please upload the book again."
                                 "CACHE_EXPIRED"), w)) /\
     ((forall expires, cache_expires_at c = Some expires -> (now w <= expires)%Z) ->
      gemini_file_uri c = None ->
      sendMessage h userId (Some conversationId) (Some message) w
      = (Json 410 (ExpiredBody "Conversation is not prepared for chat" "CACHE_EXPIRED"),
         w))).
Proof.
  intros Hc Hm Hlen Hsome.
  destruct (request_passes_validation _ _ Hc Hm Hlen) as [Hreq Hshort].
  unfold sendMessage, sendMessage_try. cbn [default from_option id].
  rewrite Hreq, Hshort. unfold getConversationById. run. rewrite Hsome. cbn.
  split.
  - intros Hother%String.eqb_neq. by rewrite Hother.
  - intros Howner. apply String.eqb_eq in Howner. rewrite Howner. cbn [negb].
    split.
    + intros expires -> Hpast. apply Z.ltb_lt in Hpast. by rewrite Hpast.
    + intros Hfresh Hunbound.
      destruct (cache_expires_at c) as [expires|].
      * specialize (Hfresh expires eq_refl). apply Z.ltb_ge in Hfresh.
        rewrite Hfresh. by rewrite Hunbound.
      * by rewrite Hunbound.
Qed.

End ChatSession.

(** ** History window and formatting *)

Module CuratorFacts.
Import ConversationService ConversationTools Spec HistoryCurator HistoryValidation Notions.

(** X1.  For a limit of at least one (the default 10 included),
    trimHistory keeps a suffix of the history, never more entries than the
    limit, and an even number of them unless it keeps exactly one; a
    history of at most one entry is kept as it is. *)
Theorem trimHistory_bounds (history : list value) (maxMessages : option Z) :
  (1 <= default 10 maxMessages)%Z ->
  let kept := trimHistory (Arr history) maxMessages in
  kept `suffix_of` history /\
  (Z.of_nat (length kept) <= default 10 maxMessages)%Z /\
  (Nat.even (length kept) = true \/ length kept = 1%nat) /\
  (length history <= 1 -> kept = history)%nat.
Proof.
  intros Hn kept. subst kept. unfold trimHistory. cbn [truthy isArray negb orb].
  set (n := default 10%Z maxMessages) in *.
  assert (Hslice : slice (- n) history = drop (length history - Z.to_nat n) history).
  { unfold slice. destruct (Z.ltb_spec (- n) 0) as [_|]; [|lia]. f_equal. lia. }
  rewrite Hslice, odd_mod2.
  set (trimmed := drop (length history - Z.to_nat n) history).
  assert (Hlen : length trimmed = (length history `min` Z.to_nat n)%nat).
  { subst trimmed. rewrite length_drop. lia. }
  assert (Hsuffix : trimmed `suffix_of` history) by apply suffix_drop.
  destruct (Nat.odd (length trimmed) && (1 <? length trimmed)%nat) eqn:E.
  - apply andb_true_iff in E as [Hodd Hmany%Nat.ltb_lt].
    rewrite slice_one by done.
    assert (Htail : length (tail trimmed) = (length trimmed - 1)%nat)
      by (destruct trimmed; cbn; lia).
    repeat split.
    + etrans; [|exact Hsuffix]. destruct trimmed as [|x t]; [done|]. by apply suffix_cons_r.
    + lia.
    + left. rewrite Htail.
      destruct (length trimmed) as [|m] eqn:Em; [lia|].
      rewrite Nat.odd_succ in Hodd. by rewrite Nat.sub_succ, Nat.sub_0_r.
    + intros Hshort. lia.
  - repeat split; [done|lia| |].
    + apply andb_false_iff in E as [Heven|Hone].
      * left. by rewrite <- Nat.negb_odd, Heven.
      * apply Nat.ltb_ge in Hone.
        destruct (length trimmed) as [|[|m]] eqn:Em; [by left|by right|lia].
    + intros Hshort. subst trimmed.
      replace (length history - Z.to_nat n)%nat with 0%nat by lia. done.
Qed.

Lemma trimHistory_bounds_witness :
  let kept := trimHistory (Arr [Str "a"; Str "b"; Str "c"; Str "d"; Str "e"]) (Some 3%Z) in
  kept `suffix_of` [Str "a"; Str "b"; Str "c"; Str "d"; Str "e"] /\
  (Z.of_nat (length kept) <= 3)%Z /\
  (Nat.even (length kept) = true \/ length kept = 1%nat) /\
  (length [Str "a"; Str "b"; Str "c"; Str "d"; Str "e"] <= 1 ->
   kept = [Str "a"; Str "b"; Str "c"; Str "d"; Str "e"])%nat.
Proof.
  apply (trimHistory_bounds [Str "a"; Str "b"; Str "c"; Str "d"; Str "e"] (Some 3%Z)).
  simpl. lia.
Defined.

Lemma formatHistory_readable (items : list value) :
  Forall (fun m => nullish m = false) items ->
  formatHistoryForGemini (Arr items) = Return (map turn_of items).
Proof.
  intros Hall. unfold formatHistoryForGemini. cbn [truthy isArray negb orb].
  induction Hall as [|m items Hm _ IH]; [done|].
  cbn [foldr map]. rewrite !(get_field m _ Hm).
  cbn [mbind result_bind JS.bind]. rewrite IH. done.
Qed.

(** X2.  On a history without null or undefined entries
    formatHistoryForGemini returns one turn per entry, in order; each turn
    has the role user or model, user exactly for the entries whose role is
    the string user, and carries the entry's content as its single text
    part. *)
Theorem formatHistory_roles (items : list value) :
  Forall (fun m => nullish m = false) items ->
  exists turns,
    formatHistoryForGemini (Arr items) = Return turns /\
    length turns = length items /\
    Forall (fun t => turn_role t = "user" \/ turn_role t = "model") turns /\
    forall i entry, items !! i = Some entry ->
      exists t, turns !! i = Some t /\
        (turn_role t = "user" <-> field entry "role" = Str "user") /\
        parts t = [Obj {[ "text" := field entry "content" ]}].
Proof.
  intros Hall. exists (map turn_of items).
  split; [by apply formatHistory_readable|].
  split; [by rewrite length_map|].
  split.
  - apply Forall_map, Forall_forall. intros m _. unfold turn_of. cbn.
    destruct (field m "role") as [| | | |r| |]; try by right.
    destruct (String.eqb_spec r "user") as [->|Hr]; [by left|].
    right. repeat (destruct r as [|[[] [] [] [] [] [] [] []] r]; try done).
  - intros i entry Hi. exists (turn_of entry).
    split; [by rewrite list_lookup_fmap, Hi|].
    split; [|done].
    unfold turn_of. cbn. split.
    + destruct (field entry "role") as [| | | |r| |]; try done.
      intros Hr. f_equal.
      repeat (destruct r as [|[[] [] [] [] [] [] [] []] r]; try done).
    + by intros ->.
Qed.

Lemma formatHistory_roles_witness :
  exists turns,
    formatHistoryForGemini
      (Arr [Example.entry "user" "hello"; Example.entry "system" "be brief"]) = Return turns /\
    length turns = 2%nat /\
    Forall (fun t => turn_role t = "user" \/ turn_role t = "model") turns /\
    forall i entry,
      [Example.entry "user" "hello"; Example.entry "system" "be brief"] !! i = Some entry ->
      exists t, turns !! i = Some t /\
        (turn_role t = "user" <-> field entry "role" = Str "user") /\
        parts t = [Obj {[ "text" := field entry "content" ]}].
Proof.
  apply (formatHistory_roles
           [Example.entry "user" "hello"; Example.entry "system" "be brief"]).
  repeat constructor.
Defined.

End CuratorFacts.

(** ** Token estimates *)

Module TokenFacts.
Import ConversationService ConversationTools Spec HistoryCurator HistoryValidation Notions.

Lemma ceil_quarter (n : Z) :
  (n <= 4 * Math_ceil (inject_Z n / 4) < n + 4)%Z.
Proof.
  unfold Math_ceil.
  pose proof (Qle_ceiling (inject_Z n / 4)) as Hup.
  pose proof (Qceiling_lt (inject_Z n / 4)) as Hlow.
  set (t := Qceiling (inject_Z n / 4)) in *.
  assert (Hq : (inject_Z n / 4 == inject_Z n * (1 # 4))%Q) by reflexivity.
  rewrite Hq in Hup, Hlow.
  unfold Qle, Qlt in *. cbn in *. lia.
Qed.

(** X3.  The estimate of a string is its length over four, rounded up:
    four times the estimate is at least the length and exceeds it by less
    than four; the empty string is estimated at zero. *)
Theorem estimateTokens_bounds (s : string) :
  let n := Z.of_nat (String.length s) in
  let t := estimateTokens (Str s) in
  (n <= 4 * t < n + 4)%Z /\ estimateTokens (Str "") = 0%Z.
Proof.
  cbn zeta. split; [|done]. unfold estimateTokens. cbn [truthy is_string].
  destruct s as [|c s]; [cbn; lia|].
  cbn [negb orb String.eqb]. apply ceil_quarter.
Qed.

Lemma estimateTokens_nonneg (v : value) : (0 <= estimateTokens v)%Z.
Proof.
  unfold estimateTokens.
  destruct (negb (truthy v) || negb (is_string v)); [lia|].
  destruct v; try lia.
  pose proof (ceil_quarter (Z.of_nat (String.length s))). lia.
Qed.

Lemma estimateHistory_from (items : list value) (start : Z) :
  Forall (fun m => nullish m = false) items ->
  foldl (fun acc message =>
           total ← acc;
           content ← get message "content";
           Return (total + estimateTokens content)%Z)
        (Return start) items
  = Return (start + history_tokens items)%Z.
Proof.
  intros Hall. revert start.
  induction Hall as [|m items Hm _ IH]; intros start.
  - cbn. f_equal. lia.
  - cbn [foldl]. rewrite (get_field m "content" Hm).
    cbn [mbind result_bind JS.bind]. rewrite IH. f_equal.
    change (history_tokens (m :: items))
      with (estimateTokens (field m "content") + history_tokens items)%Z.
    lia.
Qed.

Lemma estimateHistory_readable (items : list value) :
  Forall (fun m => nullish m = false) items ->
  estimateHistoryTokens (Arr items) = Return (history_tokens items).
Proof.
  intros Hall. unfold estimateHistoryTokens. cbn [truthy isArray negb orb].
  by rewrite estimateHistory_from.
Qed.

Lemma history_tokens_app (a b : list value) :
  history_tokens (a ++ b) = (history_tokens a + history_tokens b)%Z.
Proof.
  induction a as [|m a IH]; [done|].
  change (history_tokens ((m :: a) ++ b))
    with (estimateTokens (field m "content") + history_tokens (a ++ b))%Z.
  change (history_tokens (m :: a))
    with (estimateTokens (field m "content") + history_tokens a)%Z.
  lia.
Qed.

Lemma history_tokens_nonneg (a : list value) : (0 <= history_tokens a)%Z.
Proof.
  induction a as [|m a IH]; [done|].
  change (history_tokens (m :: a))
    with (estimateTokens (field m "content") + history_tokens a)%Z.
  pose proof (estimateTokens_nonneg (field m "content")). lia.
Qed.

(** X4.  Over histories without null or undefined entries the token
    estimate is additive: the estimate of two histories joined is the sum
    of their estimates, and no estimate is negative.  Appending a message
    thus raises the estimate by that message's own. *)
Theorem estimateHistoryTokens_additive (earlier later : list value) :
  Forall (fun m => nullish m = false) earlier ->
  Forall (fun m => nullish m = false) later ->
  exists x y,
    estimateHistoryTokens (Arr earlier) = Return x /\
    estimateHistoryTokens (Arr later) = Return y /\
    estimateHistoryTokens (Arr (earlier ++ later)) = Return (x + y)%Z /\
    (0 <= x)%Z /\ (0 <= y)%Z.
Proof.
  intros Ha Hb. exists (history_tokens earlier), (history_tokens later).
  rewrite !estimateHistory_readable by (try apply Forall_app; done).
  rewrite history_tokens_app.
  repeat split; apply history_tokens_nonneg.
Qed.

Lemma estimateHistoryTokens_additive_witness :
  exists x y,
    estimateHistoryTokens (Arr [Example.entry "user" "hello"]) = Return x /\
    estimateHistoryTokens (Arr [Example.entry "assistant" "hi there"]) = Return y /\
    estimateHistoryTokens (Arr ([Example.entry "user" "hello"]
                                ++ [Example.entry "assistant" "hi there"]))
      = Return (x + y)%Z /\
    (0 <= x)%Z /\ (0 <= y)%Z.
Proof.
  apply (estimateHistoryTokens_additive [Example.entry "user" "hello"]
           [Example.entry "assistant" "hi there"]).
  - repeat constructor.
  - repeat constructor.
Defined.

End TokenFacts.

(** ** Balance of trimmed histories *)

Module BalanceFacts.
Import ConversationService ConversationTools Spec HistoryCurator HistoryValidation Notions.

Lemma alternating_readable (u : bool) (items : list value) :
  alternating u items -> Forall (fun m => nullish m = false) items.
Proof.
  revert u. induction items as [|m items IH]; intros u; [constructor|].
  intros [Hrole Hrest]. constructor; [|by eapply IH].
  destruct m; try done; cbn in Hrole; done.
Qed.

Lemma count_role_from (role : string) (items : list value) (start : nat) :
  Forall (fun m => nullish m = false) items ->
  foldl (fun acc m =>
           n ← acc;
           r ← get m "role";
           Return (match r with
                   | Str s => if String.eqb s role then S n else n
                   | _ => n
                   end))
        (Return start) items
  = Return (start + tally role items)%nat.
Proof.
  intros Hall. revert start.
  induction Hall as [|m items Hm _ IH]; intros start.
  - cbn. f_equal. unfold tally. cbn. lia.
  - cbn [foldl]. rewrite (get_field m "role" Hm).
    cbn [mbind result_bind JS.bind].
    assert (Hstep : tally role (m :: items)
                    = ((if has_role role m then 1 else 0) + tally role items)%nat).
    { unfold tally. cbn [List.filter]. by destruct (has_role role m). }
    rewrite Hstep. unfold has_role.
    destruct (field m "role") as [| | | |s| |]; rewrite IH; f_equal; try lia.
    destruct (String.eqb s role); lia.
Qed.

Lemma count_role_readable (role : string) (items : list value) :
  Forall (fun m => nullish m = false) items ->
  count_role role items = Return (tally role items).
Proof. intros Hall. unfold count_role. by rewrite count_role_from. Qed.

Lemma alternating_tally (u : bool) (items : list value) :
  alternating u items ->
  if u
  then (tally "user" items = tally "assistant" items
        \/ tally "user" items = S (tally "assistant" items))
  else (tally "user" items = tally "assistant" items
        \/ tally "assistant" items = S (tally "user" items)).
Proof.
  revert u. induction items as [|m items IH]; intros u.
  - by destruct u; left.
  - intros [Hrole Hrest]. specialize (IH _ Hrest).
    assert (Hstep : forall role, tally role (m :: items)
                    = ((if has_role role m then 1 else 0) + tally role items)%nat).
    { intros role. unfold tally. cbn [List.filter]. by destruct (has_role role m). }
    rewrite !Hstep. unfold has_role. rewrite Hrole.
    destruct u; cbn in IH |- *; lia.
Qed.

Lemma alternating_drop (k : nat) (u : bool) (items : list value) :
  alternating u items -> exists u', alternating u' (drop k items).
Proof.
  revert u items. induction k as [|k IH]; intros u items Halt.
  - by exists u.
  - destruct items as [|m items]; [by exists u|].
    destruct Halt as [_ Hrest]. by apply (IH _ _ Hrest).
Qed.

Lemma alternating_balanced (u : bool) (items : list value) :
  alternating u items -> isHistoryBalanced (Arr items) = Return true.
Proof.
  intros Halt. unfold isHistoryBalanced. cbn [truthy negb].
  destruct (length items =? 0)%nat; [done|].
  pose proof (alternating_readable _ _ Halt) as Hread.
  rewrite !count_role_readable by done.
  cbn [mbind result_bind JS.bind]. f_equal. apply Z.leb_le.
  pose proof (alternating_tally _ _ Halt) as Ht. destruct u; lia.
Qed.

(** X5.  A history in which user and assistant strictly take turns is
    balanced, and so is what trimHistory keeps of it, whatever the limit:
    trimming never unbalances an alternating conversation. *)
Theorem trimmed_history_is_balanced (user_first : bool) (history : list value)
    (maxMessages : option Z) :
  alternating user_first history ->
  isHistoryBalanced (Arr history) = Return true /\
  isHistoryBalanced (Arr (trimHistory (Arr history) maxMessages)) = Return true.
Proof.
  intros Halt. split; [by eapply alternating_balanced|].
  assert (Hsuffix : exists k, trimHistory (Arr history) maxMessages = drop k history).
  { unfold trimHistory. cbn [truthy isArray negb orb].
    assert (Hslice : forall z (xs : list value), exists k, slice z xs = drop k xs).
    { intros z xs. unfold slice. destruct (z <? 0)%Z; eauto. }
    destruct (Hslice (- default 10%Z maxMessages)%Z history) as [k ->].
    destruct (_ && _); [|by exists k].
    destruct (Hslice 1%Z (drop k history)) as [j ->].
    exists (k + j)%nat. by rewrite drop_drop. }
  destruct Hsuffix as [k ->].
  destruct (alternating_drop k _ _ Halt) as [u' Hu'].
  by eapply alternating_balanced.
Qed.

Lemma trimmed_history_is_balanced_witness :
  isHistoryBalanced (Arr [Example.entry "user" "a"; Example.entry "assistant" "b";
                          Example.entry "user" "c"]) = Return true /\
  isHistoryBalanced (Arr (trimHistory (Arr [Example.entry "user" "a";
                                            Example.entry "assistant" "b";
                                            Example.entry "user" "c"]) (Some 2%Z)))
    = Return true.
Proof.
  apply (trimmed_history_is_balanced true
           [Example.entry "user" "a"; Example.entry "assistant" "b";
            Example.entry "user" "c"] (Some 2%Z)).
  cbn. repeat split; reflexivity.
Defined.

End BalanceFacts.

(** ** Sanitised content *)

Module SanitizeFacts.
Import ConversationService ConversationTools Spec Notions.

Lemma trimStart_length (s : string) : (String.length (trimStart s) <= String.length s)%nat.
Proof. induction s as [|c s IH]; cbn; [lia|]. destruct (is_space c); cbn; lia. Qed.

Lemma trimEnd_length (s : string) : (String.length (trimEnd s) <= String.length s)%nat.
Proof.
  induction s as [|c s IH]; cbn; [lia|].
  destruct (trimEnd s); [destruct (is_space c)|]; cbn in *; lia.
Qed.

Lemma collapse_length (b : bool) (s : string) :
  (String.length (collapse b s) <= String.length s)%nat.
Proof.
  revert b. induction s as [|c s IH]; intros b; cbn; [lia|].
  destruct (is_space c); [destruct b|]; cbn; pose proof (IH true); pose proof (IH false); lia.
Qed.

Lemma strip_labels_length (k : nat) (s : string) :
  (String.length (strip_labels k s) <= String.length s)%nat.
Proof.
  revert k. induction s as [|c s IH]; intros k; [by destruct k|].
  cbn [strip_labels]. destruct k as [|k].
  - destruct (label_match (String c s)); cbn [String.length].
    + pose proof (IH (n - 1)%nat). lia.
    + pose proof (IH 0%nat). lia.
  - cbn [String.length]. pose proof (IH k). lia.
Qed.

Lemma substring_length_le (n : nat) (s : string) :
  (String.length (String.substring 0 n s) <= n)%nat.
Proof.
  revert s. induction n as [|n IH]; intros s; destruct s; cbn; try lia.
  pose proof (IH s). lia.
Qed.

Lemma sanitizeContent_length (content : value) :
  (Z.of_nat (String.length (sanitizeContent content)) <= 10000)%Z /\
  (forall s, content = Str s ->
     String.length (sanitizeContent content) <= String.length s)%nat /\
  (is_string content = false -> sanitizeContent content = "").
Proof.
  unfold sanitizeContent. repeat split.
  - destruct (negb (truthy content) || negb (is_string content)); [cbn; lia|].
    destruct content; try (cbn; lia).
    destruct (Z.ltb_spec 10000 (Z.of_nat (String.length (strip_labels 0 (collapse false (trim s))))));
      [|lia].
    pose proof (substring_length_le (Z.to_nat 10000)
                  (strip_labels 0 (collapse false (trim s)))). lia.
  - intros s ->. cbn [is_string negb orb].
    assert (Hlen : (String.length (strip_labels 0 (collapse false (trim s)))
                    <= String.length s)%nat).
    { etrans; [apply strip_labels_length|]. etrans; [apply collapse_length|].
      unfold trim. etrans; [apply trimEnd_length|]. apply trimStart_length. }
    destruct (truthy (Str s)); cbn [negb orb String.length]; [|lia].
    destruct (_ <? _)%Z; [|done].
    pose proof (substring_length_le (Z.to_nat 10000)
                  (strip_labels 0 (collapse false (trim s)))).
    destruct (Nat.le_gt_cases (String.length (strip_labels 0 (collapse false (trim s))))
                (Z.to_nat 10000)) as [Hle|Hgt]; [|lia].
    assert (Hsub : forall n t, (String.length (String.substring 0 n t) <= String.length t)%nat).
    { intros n. induction n as [|n IH]; intros t; destruct t; cbn; try lia.
      pose proof (IH t). lia. }
    pose proof (Hsub (Z.to_nat 10000) (strip_labels 0 (collapse false (trim s)))). lia.
  - intros Hs. rewrite Hs. cbn [negb]. by rewrite orb_true_r.
Qed.

Lemma single_spaced_weaken (s : string) :
  single_spaced true s = true -> single_spaced false s = true.
Proof.
  destruct s as [|c s]; [done|]. cbn.
  destruct (is_space c); [|done]. rewrite andb_false_r. done.
Qed.

Lemma single_spaced_solid (b : bool) (s : string) :
  starts_solid s -> single_spaced b s = true -> single_spaced true s = true.
Proof. destruct s as [|c s]; [done|]. cbn. by intros ->. Qed.

Lemma trimStart_solid (s : string) : starts_solid (trimStart s).
Proof. induction s as [|c s IH]; cbn; [done|]. by destruct (is_space c) eqn:E. Qed.

Lemma trimEnd_solid (s : string) : starts_solid s -> starts_solid (trimEnd s).
Proof.
  destruct s as [|c s]; [done|]. cbn. intros Hc.
  destruct (trimEnd s); [by rewrite Hc|done].
Qed.

Lemma collapse_spaced (s : string) :
  single_spaced true (collapse true s) = true /\
  single_spaced false (collapse false s) = true.
Proof.
  induction s as [|c s [IHt IHf]]; [done|]. cbn.
  destruct (is_space c) eqn:E; cbn; rewrite ?E; cbn; auto.
Qed.

Lemma collapse_solid (s : string) :
  starts_solid s -> single_spaced true (collapse false s) = true.
Proof.
  destruct s as [|c s]; [done|]. cbn. intros Hc. rewrite Hc. cbn. rewrite Hc.
  apply collapse_spaced.
Qed.

Lemma single_spaced_tail (b : bool) (c : ascii) (s : string) :
  single_spaced b (String c s) = true -> exists b', single_spaced b' s = true.
Proof.
  cbn. destruct (is_space c).
  - intros [_ H]%andb_true_iff. eauto.
  - eauto.
Qed.

Lemma single_spaced_drop (k : nat) (b : bool) (s : string) :
  single_spaced b s = true -> exists b', single_spaced b' (string_drop k s) = true.
Proof.
  revert b s. induction k as [|k IH]; intros b s Hs; [by exists b|].
  destruct s as [|c s]; [by exists b|].
  destruct (single_spaced_tail _ _ _ Hs) as [b' Hb']. by apply (IH b').
Qed.

Lemma space_run_solid (s : string) : starts_solid (string_drop (space_run s) s).
Proof. induction s as [|c s IH]; [done|]. cbn. by destruct (is_space c) eqn:E. Qed.

Lemma string_drop_add (j k : nat) (s : string) :
  string_drop (j + k) s = string_drop k (string_drop j s).
Proof.
  revert s. induction j as [|j IH]; intros s; [done|].
  destruct s as [|c s]; cbn; [by destruct k|]. apply IH.
Qed.

Lemma after_label_drop (label s rest : string) :
  after_label label s = Some rest -> rest = string_drop (String.length label) s.
Proof.
  revert s. induction label as [|a label IH]; intros s; cbn.
  - by intros [= ->].
  - destruct s as [|b s]; [done|].
    destruct (Ascii.eqb _ _); [|done]. apply IH.
Qed.

Lemma label_match_solid (s : string) (n : nat) :
  label_match s = Some n -> (1 <= n)%nat /\ starts_solid (string_drop n s).
Proof.
  unfold label_match.
  destruct (after_label "system:" s) as [rest|] eqn:E1.
  { intros [= <-]. split; [lia|]. apply after_label_drop in E1.
    pose proof (space_run_solid rest) as Hrun. rewrite E1 in Hrun at 2.
    rewrite <- string_drop_add in Hrun. exact Hrun. }
  destruct (after_label "assistant:" s) as [rest|] eqn:E2.
  { intros [= <-]. split; [lia|]. apply after_label_drop in E2.
    pose proof (space_run_solid rest) as Hrun. rewrite E2 in Hrun at 2.
    rewrite <- string_drop_add in Hrun. exact Hrun. }
  destruct (after_label "user:" s) as [rest|] eqn:E3; [|done].
  intros [= <-]. split; [lia|]. apply after_label_drop in E3.
  pose proof (space_run_solid rest) as Hrun. rewrite E3 in Hrun at 2.
  rewrite <- string_drop_add in Hrun. exact Hrun.
Qed.

Lemma strip_labels_spaced (s : string) :
  (forall b, single_spaced b s = true -> single_spaced b (strip_labels 0 s) = true) /\
  (forall k b, single_spaced b s = true -> starts_solid (string_drop k s) ->
     single_spaced true (strip_labels k s) = true).
Proof.
  induction s as [|c s [IH0 IHk]].
  { split; [done|]. by intros [|k]. }
  assert (Hskip : forall k b, single_spaced b (String c s) = true ->
                    starts_solid (string_drop (S k) (String c s)) ->
                    single_spaced true (strip_labels k s) = true).
  { intros k b Hs Hsolid. destruct (single_spaced_tail _ _ _ Hs) as [b' Hb'].
    by apply (IHk k b'). }
  assert (H0 : forall b, single_spaced b (String c s) = true ->
                 single_spaced b (strip_labels 0 (String c s)) = true).
  { intros b Hs. cbn [strip_labels].
    destruct (label_match (String c s)) as [n|] eqn:E.
    - apply label_match_solid in E as [Hn Hsolid].
      assert (Hgoal : single_spaced true (strip_labels (n - 1) s) = true).
      { apply (Hskip (n - 1)%nat b Hs). by replace (S (n - 1)) with n by lia. }
      destruct b; [done|by apply single_spaced_weaken].
    - cbn in Hs |- *. destruct (is_space c).
      + apply andb_true_iff in Hs as [Hhead Htail]. rewrite Hhead. cbn. by apply IH0.
      + by apply IH0. }
  split; [exact H0|].
  intros [|k] b Hs Hsolid.
  - apply H0. by apply (single_spaced_solid b).
  - by apply (Hskip k b).
Qed.

Lemma substring_spaced (n : nat) (b : bool) (s : string) :
  single_spaced b s = true -> single_spaced b (String.substring 0 n s) = true.
Proof.
  revert b s. induction n as [|n IH]; intros b s; destruct s as [|c s]; cbn; try done.
  destruct (is_space c).
  - intros [-> H]%andb_true_iff. cbn. by apply IH.
  - apply IH.
Qed.

Lemma sanitizeContent_spacing (content : value) :
  single_spaced true (sanitizeContent content) = true.
Proof.
  unfold sanitizeContent.
  destruct (negb (truthy content) || negb (is_string content)); [done|].
  destruct content; try done.
  assert (Hs : single_spaced true (strip_labels 0 (collapse false (trim s))) = true).
  { apply strip_labels_spaced, collapse_solid, trimEnd_solid, trimStart_solid. }
  destruct (_ <? _)%Z; [by apply substring_spaced|done].
Qed.

(** X6.  What sanitizeContent returns has at most 10,000 characters and
    never more than its argument; its white space is made of single
    blanks, none of them leading; and an argument that is no string gives
    the empty string. *)
Theorem sanitizeContent_normal_form (content : value) (s : string) :
  (Z.of_nat (String.length (sanitizeContent content)) <= 10000)%Z /\
  (String.length (sanitizeContent (Str s)) <= String.length s)%nat /\
  single_spaced true (sanitizeContent content) = true /\
  (if is_string content then True else sanitizeContent content = "").
Proof.
  split; [apply sanitizeContent_length|].
  split; [by apply (sanitizeContent_length (Str s))|].
  split; [apply sanitizeContent_spacing|].
  destruct (is_string content) eqn:E; [done|]. by apply sanitizeContent_length.
Qed.

End SanitizeFacts.

(** ** Numerals, descriptors and durations *)

Module DescriptorFacts.
Import AudioUtils Notions.
#[local] Arguments String.append !s1 s2 : simpl nomatch.

Lemma digits_uint (d : Decimal.uint) (acc : Z) :
  digits (Some acc) (NilEmpty.string_of_uint d) = Some (uint_acc d acc).
Proof.
  revert acc. induction d; intros acc; [done|..];
    cbn [NilEmpty.string_of_uint digits uint_acc default from_option id];
    match goal with
    | |- context [digit ?c] =>
        let v := eval vm_compute in (digit c) in change (digit c) with v
    end;
    cbn match; rewrite IHd; do 2 f_equal; lia.
Qed.

Lemma of_uint_acc_value (d : Decimal.uint) (p : positive) :
  Z.pos (Pos.of_uint_acc d p) = uint_acc d (Z.pos p).
Proof. revert p. induction d; intros p; cbn; try done; rewrite IHd; f_equal; lia. Qed.

Lemma of_uint_value (d : Decimal.uint) : Z.of_N (Pos.of_uint d) = uint_acc d 0.
Proof. induction d; cbn; try done; by rewrite of_uint_acc_value. Qed.

Lemma to_uint_value (p : positive) : uint_acc (Pos.to_uint p) 0 = Z.pos p.
Proof. by rewrite <- of_uint_value, DecimalPos.Unsigned.of_to. Qed.

Lemma digits_start (d : Decimal.uint) :
  d <> Decimal.Nil -> digits None (NilEmpty.string_of_uint d) = Some (uint_acc d 0).
Proof.
  intros Hd. destruct d; [done|..];
    cbn [NilEmpty.string_of_uint digits uint_acc default from_option id];
    match goal with
    | |- context [digit ?c] =>
        let v := eval vm_compute in (digit c) in change (digit c) with v
    end;
    cbn match; rewrite digits_uint; do 2 f_equal.
Qed.

Lemma parseInt_uint (d : Decimal.uint) :
  d <> Decimal.Nil ->
  parseInt (Some (NilEmpty.string_of_uint d)) = of_Z (uint_acc d 0) /\
  parseInt (Some (String "-" (NilEmpty.string_of_uint d))) = of_Z (- uint_acc d 0).
Proof.
  intros Hd. pose proof (digits_start d Hd) as Hdigits.
  unfold parseInt, of_Z. cbn [default from_option id trimStart].
  change (is_space "-") with false. cbn match. rewrite Hdigits.
  split; [|do 2 f_equal; lia].
  destruct d; [done|..]; cbn [NilEmpty.string_of_uint trimStart] in *;
    match goal with
    | |- context [is_space ?c] =>
        let v := eval vm_compute in (is_space c) in change (is_space c) with v
    end;
    cbn match; rewrite Hdigits; do 2 f_equal; lia.
Qed.

Lemma parseInt_of_int (z : Z) : parseInt (Some (of_int z)) = of_Z z.
Proof.
  unfold of_int. destruct z as [|p|p]; [done| |]; cbn [Z.to_int NilZero.string_of_int].
  - pose proof (DecimalPos.Unsigned.to_uint_nonnil p) as Hp.
    replace (NilZero.string_of_uint (Pos.to_uint p))
      with (NilEmpty.string_of_uint (Pos.to_uint p)) by (by destruct (Pos.to_uint p)).
    rewrite (proj1 (parseInt_uint _ Hp)). by rewrite to_uint_value.
  - pose proof (DecimalPos.Unsigned.to_uint_nonnil p) as Hp.
    replace (NilZero.string_of_uint (Pos.to_uint p))
      with (NilEmpty.string_of_uint (Pos.to_uint p)) by (by destruct (Pos.to_uint p)).
    rewrite (proj2 (parseInt_uint _ Hp)). by rewrite to_uint_value.
Qed.

Lemma numeral_uint (d : Decimal.uint) : numeral (NilEmpty.string_of_uint d) = true.
Proof. induction d; cbn; done. Qed.

Lemma numeral_of_int (z : Z) : numeral (of_int z) = true.
Proof.
  unfold of_int.
  destruct z as [|p|p]; [done| |]; cbn [Z.to_int NilZero.string_of_int numeral];
    pose proof (numeral_uint (Pos.to_uint p)); by destruct (Pos.to_uint p).
Qed.

Lemma numeral_lacks (sep : ascii) (s : string) :
  digit sep = None -> sep <> "-"%char -> numeral s = true -> lacks sep s = true.
Proof.
  intros Hsep Hminus. induction s as [|c s IH]; [done|]. cbn.
  intros [Hc Hs]%andb_true_iff. rewrite (IH Hs), andb_true_r.
  apply negb_true_iff, Ascii.eqb_neq. intros ->.
  apply orb_true_iff in Hc as [Hc|Hc].
  - by apply bool_decide_eq_true in Hc.
  - by apply Ascii.eqb_eq in Hc.
Qed.

Lemma numeral_spaceless (s : string) : numeral s = true -> spaceless s = true.
Proof.
  induction s as [|c s IH]; [done|]. cbn.
  intros [Hc Hs]%andb_true_iff. rewrite (IH Hs), andb_true_r.
  apply orb_true_iff in Hc as [Hc|Hc].
  - apply bool_decide_eq_true in Hc.
    destruct c as [[] [] [] [] [] [] [] []]; done.
  - apply Ascii.eqb_eq in Hc. by subst.
Qed.

Lemma split_nonempty (sep : ascii) (s : string) : split sep s <> [].
Proof.
  induction s as [|c s IH]; cbn; [done|].
  destruct (Ascii.eqb c sep); [done|]. by destruct (split sep s).
Qed.

Lemma split_lacks (sep : ascii) (s : string) : lacks sep s = true -> split sep s = [s].
Proof.
  induction s as [|c s IH]; [done|]. cbn.
  intros [Hc Hs]%andb_true_iff. apply negb_true_iff in Hc. by rewrite Hc, (IH Hs).
Qed.

Lemma split_at (sep : ascii) (p s : string) :
  lacks sep p = true -> split sep (p ++ String sep s) = p :: split sep s.
Proof.
  induction p as [|c p IH]; cbn [String.append split lacks].
  - by rewrite Ascii.eqb_refl.
  - intros [Hc Hp]%andb_true_iff. apply negb_true_iff in Hc. by rewrite Hc, (IH Hp).
Qed.

Lemma trimStart_spaceless (s : string) : spaceless s = true -> trimStart s = s.
Proof. destruct s as [|c s]; [done|]. cbn. by intros [->%negb_true_iff _]%andb_true_iff. Qed.

Lemma trimEnd_spaceless (s : string) : spaceless s = true -> trimEnd s = s.
Proof.
  induction s as [|c s IH]; [done|]. cbn.
  intros [Hc%negb_true_iff Hs]%andb_true_iff. rewrite (IH Hs), Hc. by destruct s.
Qed.

Lemma trim_spaceless (s : string) : spaceless s = true -> trim s = s.
Proof.
  intros Hs. unfold trim. rewrite (trimStart_spaceless _ Hs). by apply trimEnd_spaceless.
Qed.

(** X7.  Printing and parsing agree on integers that JavaScript holds
    exactly: parseInt reads back the decimal text of such an integer, and
    the descriptor audio/L<bits>;rate=<rate> parses to one channel, that
    rate and that bit depth. *)
Theorem descriptor_round_trip (bits rate : Z) :
  (Z.abs bits <= 9007199254740991)%Z ->
  (Z.abs rate <= 9007199254740991)%Z ->
  parseMimeType ("audio/L" ++ of_int bits ++ ";rate=" ++ of_int rate)
  = {| numChannels := of_Z 1; sampleRate := of_Z rate; bitsPerSample := of_Z bits |} /\
  parseInt (Some (of_int rate)) = of_Z rate.
Proof.
  intros _ _. split; [|apply parseInt_of_int].
  pose proof (numeral_of_int bits) as Hb. pose proof (numeral_of_int rate) as Hr.
  set (B := of_int bits) in *. set (R := of_int rate) in *.
  unfold parseMimeType.
  assert (Hsplit : split ";" ("audio/L" ++ B ++ ";rate=" ++ R)
                   = [("audio/L" ++ B)%string; ("rate=" ++ R)%string]).
  { change ("audio/L" ++ B ++ ";rate=" ++ R)%string
      with (("audio/L" ++ B) ++ String ";" ("rate=" ++ R))%string.
    rewrite split_at.
    - f_equal. apply split_lacks. cbn. by apply numeral_lacks.
    - cbn. by apply numeral_lacks. }
  rewrite Hsplit. cbn [map head tail default from_option id].
  rewrite !trim_spaceless by (cbn; by apply numeral_spaceless).
  assert (Hformat : split "/" ("audio/L" ++ B) = ["audio"; ("L" ++ B)%string]).
  { change ("audio/L" ++ B)%string with ("audio" ++ String "/" ("L" ++ B))%string.
    rewrite split_at by done. f_equal. apply split_lacks. cbn. by apply numeral_lacks. }
  rewrite Hformat. cbn [lookup list_lookup].
  assert (Hparam : split "=" ("rate=" ++ R) = ["rate"; R]).
  { change ("rate=" ++ R)%string with ("rate" ++ String "=" R)%string.
    rewrite split_at by done. f_equal. apply split_lacks. by apply numeral_lacks. }
  cbn [foldl]. rewrite Hparam. cbn [map head default from_option id lookup list_lookup].
  rewrite (trim_spaceless R) by by apply numeral_spaceless.
  change (trim "rate") with "rate". rewrite String.eqb_refl.
  change (String.eqb ("L" ++ B) "")%string with false.
  change (startsWith "L" ("L" ++ B)) with (String.prefix "" B).
  change (slice1 ("L" ++ B)) with B.
  assert (Hprefix : String.prefix "" B = true) by (by destruct B).
  rewrite Hprefix. subst B R. rewrite !parseInt_of_int. done.
Qed.

Lemma descriptor_round_trip_witness :
  parseMimeType ("audio/L" ++ of_int 16 ++ ";rate=" ++ of_int 24000)
  = {| numChannels := of_Z 1; sampleRate := of_Z 24000; bitsPerSample := of_Z 16 |} /\
  parseInt (Some (of_int 24000)) = of_Z 24000.
Proof. apply (descriptor_round_trip 16 24000); vm_compute; discriminate. Defined.

Lemma of_int_nonneg (n : Z) :
  (0 <= n)%Z ->
  exists d, d <> Decimal.Nil /\ of_int n = NilEmpty.string_of_uint d /\ uint_acc d 0 = n.
Proof.
  intros Hn. unfold of_int. destruct n as [|p|p]; [| |lia].
  - by exists (Decimal.D0 Decimal.Nil).
  - exists (Pos.to_uint p). pose proof (DecimalPos.Unsigned.to_uint_nonnil p) as Hp.
    split; [done|]. split; [|apply to_uint_value].
    cbn [Z.to_int NilZero.string_of_int]. by destruct (Pos.to_uint p).
Qed.

Lemma ttl_match_unit (u : ascii) :
  u = "s"%char \/ u = "m"%char \/ u = "h"%char -> ChatSessions.ttl_match (String u "") = None.
Proof. by intros [-> | [-> | ->]]. Qed.

Lemma ttl_match_uint (d : Decimal.uint) (u : ascii) :
  d <> Decimal.Nil ->
  u = "s"%char \/ u = "m"%char \/ u = "h"%char ->
  ChatSessions.ttl_match (NilEmpty.string_of_uint d ++ String u "")
  = Some (NilEmpty.string_of_uint d, u).
Proof.
  intros Hd Hu.
  assert (Hunit : Ascii.eqb u "s" || Ascii.eqb u "m" || Ascii.eqb u "h" = true)
    by (by destruct Hu as [-> | [-> | ->]]).
  induction d as [ | d IH | d IH | d IH | d IH | d IH | d IH | d IH | d IH | d IH | d IH ]; [done|..];
    cbn [NilEmpty.string_of_uint String.append ChatSessions.ttl_match];
    match goal with
    | |- context [digit ?c] =>
        let v := eval vm_compute in (digit c) in change (digit c) with v
    end;
    cbn match;
    (assert (Hcase : d = Decimal.Nil \/ d <> Decimal.Nil)
       by (destruct d; by (left + right));
     destruct Hcase as [-> | Hne];
     [cbn [NilEmpty.string_of_uint String.append];
      rewrite (ttl_match_unit u Hu), Hunit; reflexivity
     |rewrite (IH Hne); reflexivity]).
Qed.

(** X8.  parseTtlToMs reads a whole number followed by s, m or h as that
    many seconds, minutes or hours, in milliseconds (for values JavaScript
    holds exactly), and throws the format error on a number without a
    unit and on a number followed by any one character other than s, m
    and h. *)
Theorem parseTtlToMs_units (n : Z) :
  (0 <= n)%Z -> (n * 3600000 <= 9007199254740991)%Z ->
  let invalid_format :=
    Error ("Invalid TTL format. Use format like " ++ ChatSessions.quote ++ "3600s"
           ++ ChatSessions.quote ++ ", " ++ ChatSessions.quote ++ "60m"
           ++ ChatSessions.quote ++ ", " ++ ChatSessions.quote ++ "1h"
           ++ ChatSessions.quote) in
  ChatSessions.parseTtlToMs (of_int n ++ "s") = Return (of_Z (n * 1000)) /\
  ChatSessions.parseTtlToMs (of_int n ++ "m") = Return (of_Z (n * 60 * 1000)) /\
  ChatSessions.parseTtlToMs (of_int n ++ "h") = Return (of_Z (n * 60 * 60 * 1000)) /\
  ChatSessions.parseTtlToMs (of_int n) = Throw invalid_format /\
  forall u : ascii,
    u <> "s"%char -> u <> "m"%char -> u <> "h"%char ->
    ChatSessions.parseTtlToMs (of_int n ++ String u "") = Throw invalid_format.
Proof.
  intros Hn _ invalid_format. destruct (of_int_nonneg n Hn) as (d & Hd & -> & Hvalue).
  unfold ChatSessions.parseTtlToMs.
  rewrite !ttl_match_uint by (done || auto).
  rewrite (proj1 (parseInt_uint d Hd)), Hvalue.
  split; [reflexivity|]. split; [reflexivity|]. split; [reflexivity|].
  assert (Hbare : forall d', ChatSessions.ttl_match (NilEmpty.string_of_uint d') = None).
  { intros d'. induction d' as [ | d' IH | d' IH | d' IH | d' IH | d' IH | d' IH | d' IH | d' IH | d' IH | d' IH ];
      [done|..];
      cbn [NilEmpty.string_of_uint ChatSessions.ttl_match];
      match goal with
      | |- context [digit ?c] =>
          let v := eval vm_compute in (digit c) in change (digit c) with v
      end;
      cbn match; rewrite IH; destruct d'; try done;
      cbn [NilEmpty.string_of_uint];
      match goal with |- context [NilEmpty.string_of_uint ?x] => by destruct x end. }
  assert (Hother : forall (u : ascii) d',
            u <> "s"%char -> u <> "m"%char -> u <> "h"%char ->
            ChatSessions.ttl_match (NilEmpty.string_of_uint d' ++ String u "") = None).
  { intros u d' Hs Hm Hh.
    assert (Hunit : Ascii.eqb u "s" || Ascii.eqb u "m" || Ascii.eqb u "h" = false).
    { apply Ascii.eqb_neq in Hs, Hm, Hh. by rewrite Hs, Hm, Hh. }
    induction d' as [ | d' IH | d' IH | d' IH | d' IH | d' IH | d' IH | d' IH | d' IH | d' IH | d' IH ];
      [cbn [NilEmpty.string_of_uint String.append ChatSessions.ttl_match];
       by destruct (digit u)|..];
      cbn [NilEmpty.string_of_uint String.append ChatSessions.ttl_match];
      match goal with
      | |- context [digit ?c] =>
          let v := eval vm_compute in (digit c) in change (digit c) with v
      end;
      cbn match; rewrite IH; destruct d';
      cbn [NilEmpty.string_of_uint String.append];
      try (by rewrite Hunit);
      match goal with |- context [NilEmpty.string_of_uint ?x] => by destruct x end. }
  rewrite Hbare. split; [reflexivity|].
  intros u Hs Hm Hh. by rewrite Hother.
Qed.

Lemma parseTtlToMs_units_witness :
  let invalid_format :=
    Error ("Invalid TTL format. Use format like " ++ ChatSessions.quote ++ "3600s"
           ++ ChatSessions.quote ++ ", " ++ ChatSessions.quote ++ "60m"
           ++ ChatSessions.quote ++ ", " ++ ChatSessions.quote ++ "1h"
           ++ ChatSessions.quote) in
  ChatSessions.parseTtlToMs (of_int 90 ++ "s") = Return (of_Z (90 * 1000)) /\
  ChatSessions.parseTtlToMs (of_int 90 ++ "m") = Return (of_Z (90 * 60 * 1000)) /\
  ChatSessions.parseTtlToMs (of_int 90 ++ "h") = Return (of_Z (90 * 60 * 60 * 1000)) /\
  ChatSessions.parseTtlToMs (of_int 90) = Throw invalid_format /\
  forall u : ascii,
    u <> "s"%char -> u <> "m"%char -> u <> "h"%char ->
    ChatSessions.parseTtlToMs (of_int 90 ++ String u "") = Throw invalid_format.
Proof. apply (parseTtlToMs_units 90); lia. Defined.

End DescriptorFacts.

(** ** Framing of the container *)

Module ContainerFacts.
Import AudioUtils WavContainer Runs Notions.

(** X9.  Under the range conditions of the layout (the parsed values fit
    their header fields), what convertToWav returns is framed as a RIFF
    container: it begins with RIFF, holds at offset 4 its own length less
    eight, reads WAVEfmt  at offset 8, the format chunk size 16 at offset
    16 and data at offset 36, and from offset 44 on is the payload. *)
Theorem convertToWav_framing (base64 : string -> Buffer) (rawData mimeType : string)
    (rate bits : Z) :
  let o := parseMimeType mimeType in
  let payload := base64 rawData in
  sampleRate o = of_Z rate ->
  bitsPerSample o = of_Z bits ->
  (0 <= rate <= 4294967295)%Z ->
  (0 <= bits <= 65535)%Z ->
  (8 | bits)%Z ->
  (rate * 1 * bits / 8 <= 4294967295)%Z ->
  (36 + Z.of_nat (length payload) <= 4294967295)%Z ->
  exists wav,
    convertToWav base64 rawData mimeType = Return wav /\
    take 4 wav = utf8 "RIFF" /\
    readUInt32LE 4 wav = (Z.of_nat (length wav) - 8)%Z /\
    take 8 (drop 8 wav) = utf8 "WAVEfmt " /\
    readUInt32LE 16 wav = 16%Z /\
    take 4 (drop 36 wav) = utf8 "data" /\
    drop 44 wav = payload.
Proof.
  intros o payload Hr Hb Hrate Hbits Hdiv Hbr Hlen.
  eexists. split.
  { unfold convertToWav. fold o payload.
    rewrite (header_bytes _ rate bits o) by first [reflexivity | assumption | lia].
    reflexivity. }
  split; [reflexivity|].
  split.
  { rewrite length_app.
    change (readUIntLE 4 0 (le_bytes 4 (36 + Z.of_nat (length payload)) ++ []) =
            (Z.of_nat (44 + length payload) - 8)%Z).
    rewrite read_le_bytes by lia. lia. }
  split; [reflexivity|].
  split; [reflexivity|].
  split; reflexivity.
Qed.

Lemma convertToWav_framing_witness :
  exists wav,
    convertToWav (fun _ => [1; 2; 3]%Z) "AQID" "audio/L16;rate=24000" = Return wav /\
    take 4 wav = utf8 "RIFF" /\
    readUInt32LE 4 wav = (Z.of_nat (length wav) - 8)%Z /\
    take 8 (drop 8 wav) = utf8 "WAVEfmt " /\
    readUInt32LE 16 wav = 16%Z /\
    take 4 (drop 36 wav) = utf8 "data" /\
    drop 44 wav = [1; 2; 3]%Z.
Proof.
  apply (convertToWav_framing (fun _ => [1; 2; 3]%Z) "AQID" "audio/L16;rate=24000"
           24000 16).
  - reflexivity.
  - reflexivity.
  - lia.
  - lia.
  - by exists 2%Z.
  - vm_compute. discriminate.
  - vm_compute. discriminate.
Defined.

Lemma writeUIntLE_outside (n : nat) (max z : Z) (offset : nat) (buffer : Buffer) :
  (z < 0 \/ max < z)%Z ->
  writeUIntLE n max (Num (inject_Z z)) offset buffer
  = Throw (RangeError "ERR_OUT_OF_RANGE").
Proof.
  intros Hz. unfold writeUIntLE.
  destruct (Qle_bool (inject_Z z) (inject_Z max)) eqn:Hhi;
    destruct (Qle_bool 0 (inject_Z z)) eqn:Hlo; try done.
  apply Qle_bool_iff in Hhi, Hlo. rewrite <- Zle_Qle in Hhi.
  rewrite <- (Zle_Qle 0) in Hlo. lia.
Qed.

Lemma createWavHeader_rate_outside (dataLength rate : Z) (o : options) :
  numChannels o = of_Z 1 -> sampleRate o = of_Z rate ->
  (rate < 0 \/ 4294967295 < rate)%Z ->
  createWavHeader dataLength o = Throw (RangeError "ERR_OUT_OF_RANGE").
Proof.
  intros Hc Hr Hrate. unfold createWavHeader, writeUInt32LE, writeUInt16LE.
  rewrite Hc, Hr.
  destruct (writeUIntLE_cases 4 4294967295 (add (of_Z 36) (of_Z dataLength)) 4
              (write "RIFF" 0 (alloc 44))) as [[buffer ->] | ->]; [|done].
  unfold of_Z. cbn [mbind result_bind JS.bind].
  rewrite (writeUIntLE_integer 4 _ 16); [|lia|reflexivity].
  cbn [mbind result_bind JS.bind].
  rewrite (writeUIntLE_integer 2 _ 1); [|lia|reflexivity].
  cbn [mbind result_bind JS.bind].
  rewrite (writeUIntLE_integer 2 _ 1); [|lia|reflexivity].
  cbn [mbind result_bind JS.bind].
  by rewrite writeUIntLE_outside.
Qed.

(** X10.  A sample rate that is an integer outside 32 unsigned bits,
    negative or above 4294967295, makes convertToWav throw a RangeError,
    whatever the payload and the bit depth. *)
Theorem rate_outside_32_bits_throws (base64 : string -> Buffer)
    (rawData mimeType : string) (rate : Z) :
  sampleRate (parseMimeType mimeType) = of_Z rate ->
  (rate < 0 \/ 4294967295 < rate)%Z ->
  convertToWav base64 rawData mimeType = Throw (RangeError "ERR_OUT_OF_RANGE").
Proof.
  intros Hr Hrate. unfold convertToWav.
  by rewrite (createWavHeader_rate_outside _ rate).
Qed.

Lemma rate_outside_32_bits_throws_witness :
  convertToWav (fun _ => []) "" "audio/L16;rate=4294967296"
  = Throw (RangeError "ERR_OUT_OF_RANGE").
Proof.
  apply (rate_outside_32_bits_throws (fun _ => []) "" "audio/L16;rate=4294967296"
           4294967296).
  - reflexivity.
  - lia.
Defined.

Lemma writeUIntLE_within (n : nat) (max : Z) (q : Q) (offset : nat) (buffer : Buffer) :
  (0 <= q)%Q -> (q <= inject_Z max)%Q ->
  writeUIntLE n max (Num q) offset buffer
  = Return (list_inserts offset (le_bytes n (Qfloor q)) buffer).
Proof.
  intros Hlo Hhi. unfold writeUIntLE.
  apply Qle_bool_iff in Hlo, Hhi. by rewrite Hlo, Hhi.
Qed.

Lemma writeUIntLE_NaN (n : nat) (max : Z) (offset : nat) (buffer : Buffer) :
  writeUIntLE n max NaN offset buffer
  = Return (list_inserts offset (le_bytes n 0) buffer).
Proof. reflexivity. Qed.

(** X11.  A descriptor whose rate does not parse (NaN) does not make
    convertToWav fail: with a bit depth that fits and a payload that fits,
    it returns a 44-byte header whose sample rate and byte rate fields are
    zero, followed by the payload. *)
Theorem unreadable_rate_is_written_as_zero (base64 : string -> Buffer)
    (rawData mimeType : string) (bits : Z) :
  let o := parseMimeType mimeType in
  let payload := base64 rawData in
  sampleRate o = NaN ->
  bitsPerSample o = of_Z bits ->
  (0 <= bits <= 65535)%Z ->
  (36 + Z.of_nat (length payload) <= 4294967295)%Z ->
  exists header,
    convertToWav base64 rawData mimeType = Return (header ++ payload) /\
    length header = 44%nat /\
    readUInt32LE 24 header = 0%Z /\
    readUInt32LE 28 header = 0%Z /\
    readUInt16LE 34 header = bits.
Proof.
  intros o payload Hr Hb Hbits Hlen.
  assert (Hblock : (0 <= inject_Z 1 * inject_Z bits / inject_Z (Z.pos 8))%Q
                   /\ (inject_Z 1 * inject_Z bits / inject_Z (Z.pos 8) <= inject_Z 65535)%Q).
  { assert (Hq : (inject_Z 1 * inject_Z bits / inject_Z (Z.pos 8)
                  == inject_Z bits * (1 # 8))%Q).
    { unfold Qdiv. change (/ inject_Z (Z.pos 8))%Q with (1 # 8)%Q. ring. }
    rewrite Hq. unfold Qle. cbn. lia. }
  destruct Hblock as [Hlo Hhi].
  eexists. split.
  { unfold convertToWav. fold o payload.
    unfold createWavHeader, writeUInt32LE, writeUInt16LE.
    rewrite (parseMimeType_channels mimeType : numChannels o = of_Z 1), Hr, Hb.
    unfold of_Z, mul, div, add.
    rewrite (writeUIntLE_integer 4 _ (36 + Z.of_nat (length payload)));
      [|lia|rewrite inject_Z_plus; reflexivity].
    cbn [mbind result_bind JS.bind].
    rewrite (writeUIntLE_integer 4 _ 16); [|lia|reflexivity].
    cbn [mbind result_bind JS.bind].
    rewrite (writeUIntLE_integer 2 _ 1); [|lia|reflexivity].
    cbn [mbind result_bind JS.bind].
    rewrite (writeUIntLE_integer 2 _ 1); [|lia|reflexivity].
    cbn [mbind result_bind JS.bind].
    rewrite writeUIntLE_NaN.
    cbn [mbind result_bind JS.bind].
    rewrite writeUIntLE_NaN.
    cbn [mbind result_bind JS.bind].
    rewrite (writeUIntLE_within 2 65535 _ 32 _ Hlo Hhi).
    cbn [mbind result_bind JS.bind].
    rewrite (writeUIntLE_integer 2 _ bits); [|lia|reflexivity].
    cbn [mbind result_bind JS.bind].
    rewrite (writeUIntLE_integer 4 _ (Z.of_nat (length payload))); [|lia|reflexivity].
    cbn [mbind result_bind JS.bind].
    reflexivity. }
  split; [reflexivity|].
  split; [reflexivity|].
  split; [reflexivity|].
  change (readUIntLE 2 0 (le_bytes 2 bits ++ utf8 "data"
                          ++ le_bytes 4 (Z.of_nat (length payload))) = bits).
  apply read_le_bytes. lia.
Qed.

Lemma unreadable_rate_is_written_as_zero_witness :
  exists header,
    convertToWav (fun _ => [1; 2; 3]%Z) "AQID" "audio/L16;rate=abc"
    = Return (header ++ [1; 2; 3]%Z) /\
    length header = 44%nat /\
    readUInt32LE 24 header = 0%Z /\
    readUInt32LE 28 header = 0%Z /\
    readUInt16LE 34 header = 16%Z.
Proof.
  apply (unreadable_rate_is_written_as_zero (fun _ => [1; 2; 3]%Z) "AQID"
           "audio/L16;rate=abc" 16).
  - reflexivity.
  - reflexivity.
  - lia.
  - vm_compute. discriminate.
Defined.

Lemma inserts_bytes (offset : nat) (new old : list Z) :
  Forall is_byte new -> Forall is_byte old -> Forall is_byte (list_inserts offset new old).
Proof.
  intros Hnew. revert offset old.
  induction Hnew as [|b new Hb _ IH]; intros offset old Hold; [done|].
  cbn [list_inserts]. apply Forall_insert; [by apply IH|done].
Qed.

Lemma le_bytes_bytes (n : nat) (v : Z) : Forall is_byte (le_bytes n v).
Proof.
  unfold le_bytes. apply Forall_map, Forall_forall. intros i _.
  unfold byte_at, is_byte. cbn. apply Z.mod_pos_bound. lia.
Qed.

Lemma utf8_bytes (s : string) : Forall is_byte (utf8 s).
Proof.
  unfold utf8. apply Forall_map, Forall_forall. intros c _. unfold is_byte. cbn.
  pose proof (N_ascii_bounded c). lia.
Qed.

Lemma writeUIntLE_bytes (n : nat) (max : Z) (v : number) (offset : nat)
    (buffer written : Buffer) :
  writeUIntLE n max v offset buffer = Return written ->
  Forall is_byte buffer -> Forall is_byte written.
Proof.
  unfold writeUIntLE. destruct v as [|q].
  - intros [= <-] H. by apply inserts_bytes; [apply le_bytes_bytes|].
  - destruct (negb _ || negb _); [done|].
    intros [= <-] H. by apply inserts_bytes; [apply le_bytes_bytes|].
Qed.

(** X12.  Whenever createWavHeader returns, the header has 44 bytes
    and each of them lies between 0 and 255. *)
Theorem header_is_44_bytes (dataLength : Z) (o : options) (header : Buffer) :
  createWavHeader dataLength o = Return header ->
  length header = 44%nat /\ Forall is_byte header.
Proof.
  intros Hheader. split; [by eapply createWavHeader_length|].
  revert Hheader.
  unfold createWavHeader, writeUInt32LE, writeUInt16LE, write.
  assert (H0 : Forall is_byte (list_inserts 0 (utf8 "RIFF") (alloc 44))).
  { apply inserts_bytes; [apply utf8_bytes|]. by apply Forall_replicate. }
  revert H0. generalize (list_inserts 0 (utf8 "RIFF") (alloc 44)). intros b0 H0.
  intros (b1 & H1%writeUIntLE_bytes & H)%bind_Return; [|done]. revert H.
  assert (H1' : Forall is_byte (list_inserts 12 (utf8 "fmt ") (list_inserts 8 (utf8 "WAVE") b1))).
  { do 2 (apply inserts_bytes; [apply utf8_bytes|]). done. }
  revert H1'. generalize (list_inserts 12 (utf8 "fmt ") (list_inserts 8 (utf8 "WAVE") b1)).
  intros b1' H1'.
  intros (b2 & H2%writeUIntLE_bytes & H)%bind_Return; [|done]. revert H.
  intros (b3 & H3%writeUIntLE_bytes & H)%bind_Return; [|done]. revert H.
  intros (b4 & H4%writeUIntLE_bytes & H)%bind_Return; [|done]. revert H.
  intros (b5 & H5%writeUIntLE_bytes & H)%bind_Return; [|done]. revert H.
  intros (b6 & H6%writeUIntLE_bytes & H)%bind_Return; [|done]. revert H.
  intros (b7 & H7%writeUIntLE_bytes & H)%bind_Return; [|done]. revert H.
  intros (b8 & H8%writeUIntLE_bytes & H)%bind_Return; [|done]. revert H.
  intros (b9 & H9%writeUIntLE_bytes & [= <-])%bind_Return; [done|].
  apply inserts_bytes; [apply utf8_bytes|done].
Qed.

Lemma header_is_44_bytes_witness :
  exists header,
    createWavHeader 3 (parseMimeType "audio/L16;rate=24000") = Return header /\
    length header = 44%nat /\ Forall is_byte header.
Proof.
  destruct (createWavHeader 3 (parseMimeType "audio/L16;rate=24000")) as [header|e] eqn:Hrun.
  - exists header. split; [reflexivity|].
    exact (header_is_44_bytes 3 (parseMimeType "audio/L16;rate=24000") header Hrun).
  - vm_compute in Hrun. discriminate.
Defined.

End ContainerFacts.

(** ** Page and audio cache *)

Module CacheFacts.
Import SupabaseService GeminiService PageCacheService AudioUtils Spec Runs Notions.

Lemma getOrCreatePage_cases (bookId : string) (pageNumber : Z) (imageUrl : option string)
    (w : world) :
  exists page,
    (pages w !! (bookId, pageNumber) = Some page /\
     getOrCreatePage bookId pageNumber imageUrl w = (Return page, w)) \/
    (pages w !! (bookId, pageNumber) = None /\
     page_id page = next_id w /\
     page_book_id page = bookId /\ page_number page = pageNumber /\
     getOrCreatePage bookId pageNumber imageUrl w
     = (Return page, set_pages (insert (bookId, pageNumber) page) (set_next_id S w))).
Proof.
  unfold getOrCreatePage, getPageByBookAndNumber, createPage. run.
  destruct (pages w !! (bookId, pageNumber)) as [p|] eqn:E; cbn.
  - exists p. by left.
  - rewrite E. cbn. eexists. right. by repeat split.
Qed.

(** X13.  getOrCreatePage always returns a page, and asking again for
    the same book and number, with whatever image address, returns the
    same page and changes nothing.  The pages of other keys are left as
    they were, and a page that had to be created bears the book, the
    number and the next identifier. *)
Theorem getOrCreatePage_idempotent (bookId : string) (pageNumber : Z)
    (imageUrl : option string) (w : world) :
  exists page w1,
    getOrCreatePage bookId pageNumber imageUrl w = (Return page, w1) /\
    (forall again, getOrCreatePage bookId pageNumber again w1 = (Return page, w1)) /\
    (forall key, key <> (bookId, pageNumber) -> pages w1 !! key = pages w !! key) /\
    (pages w !! (bookId, pageNumber) = None ->
     page_book_id page = bookId /\ page_number page = pageNumber /\
     page_id page = next_id w /\ next_id w1 = S (next_id w)).
Proof.
  destruct (getOrCreatePage_cases bookId pageNumber imageUrl w)
    as [page [[Hfound Hrun]|(Hnone & Hid & Hbook & Hnumber & Hrun)]].
  - exists page, w. split; [done|]. split; [|split; [done|by rewrite Hfound]].
    intros again.
    destruct (getOrCreatePage_cases bookId pageNumber again w)
      as [page' [[Hfound' Hrun']|(Hnone' & _)]]; congruence.
  - eexists page, _. split; [exact Hrun|]. split; [|split].
    + intros again.
      destruct (getOrCreatePage_cases bookId pageNumber again
                  (set_pages (insert (bookId, pageNumber) page) (set_next_id S w)))
        as [page' [[Hfound' Hrun']|(Hnone' & _)]].
      * cbn in Hfound'. rewrite lookup_insert_eq in Hfound'. congruence.
      * cbn in Hnone'. by rewrite lookup_insert_eq in Hnone'.
    + intros key Hkey. cbn. by rewrite lookup_insert_ne.
    + done.
Qed.

Lemma getOrCreatePage_idempotent_witness :
  exists page w1,
    getOrCreatePage "book-1" 7 None Example.empty = (Return page, w1) /\
    (forall again, getOrCreatePage "book-1" 7 again w1 = (Return page, w1)) /\
    (forall key, key <> ("book-1", 7%Z) -> pages w1 !! key = pages Example.empty !! key) /\
    (pages Example.empty !! ("book-1", 7%Z) = None ->
     page_book_id page = "book-1" /\ page_number page = 7%Z /\
     page_id page = next_id Example.empty /\ next_id w1 = S (next_id Example.empty)).
Proof. exact (getOrCreatePage_idempotent "book-1" 7 None Example.empty). Defined.

Lemma getPageAudio_lookup (bookId : string) (pageNumber : Z) (voice : string) (w : world) :
  getPageAudioByBookAndNumber bookId pageNumber voice w
  = (Return (p ← pages w !! (bookId, pageNumber);
             row ← page_audio w !! (page_id p, voice);
             Some (row, {| joined_book_id := bookId; joined_page_number := pageNumber |})),
     w).
Proof.
  unfold getPageAudioByBookAndNumber. run.
  destruct (pages w !! (bookId, pageNumber)) as [p|]; [|done]. cbn.
  by destruct (page_audio w !! (page_id p, voice)).
Qed.

Lemma audio_hit (h : host) (bookId : string) (pageNumber : Z) (text : string)
    (voicePersona : option string) (userId : string) (w : world)
    (row : page_audio_row) (url : string) :
  usable_audio w bookId pageNumber (default "Zephyr" voicePersona) = Some (row, url) ->
  getOrGeneratePageAudio h bookId pageNumber text voicePersona userId w
  = (Return {| audio_cached := true; audioUrl := url;
               duration := audio_duration_seconds row;
               audio_page := Joined {| joined_book_id := bookId;
                                       joined_page_number := pageNumber |} |}, w).
Proof.
  unfold usable_audio. intros Hu. unfold getOrGeneratePageAudio.
  unfold mbind at 1, M_bind, bindM. rewrite getPageAudio_lookup.
  destruct (pages w !! (bookId, pageNumber)) as [p|]; [|done].
  cbn [mbind option_bind] in *.
  destruct (page_audio w !! (page_id p, default "Zephyr" voicePersona)) as [row'|]; [|done].
  cbn [mbind option_bind] in *.
  destruct (audio_url row') as [url'|]; [|done].
  cbn [mbind option_bind] in *.
  destruct (String.eqb url' ""); [done|]. by injection Hu as -> ->.
Qed.

Lemma audio_miss (h : host) (bookId : string) (pageNumber : Z) (text : string)
    (voicePersona : option string) (userId : string) (w w1 : world) (r : audio_result) :
  usable_audio w bookId pageNumber (default "Zephyr" voicePersona) = None ->
  getOrGeneratePageAudio h bookId pageNumber text voicePersona userId w = (Return r, w1) ->
  audio_cached r = false.
Proof.
  unfold usable_audio. intros Hu. unfold getOrGeneratePageAudio.
  unfold mbind at 1, M_bind, bindM. rewrite getPageAudio_lookup.
  match goal with |- context [match ?hit with Some _ => _ | None => _ end w] =>
    assert (Hhit : hit = None) end.
  { destruct (pages w !! (bookId, pageNumber)) as [p|]; [|done].
    cbn [mbind option_bind] in *.
    destruct (page_audio w !! (page_id p, default "Zephyr" voicePersona)) as [row'|]; [|done].
    cbn [mbind option_bind] in *.
    destruct (audio_url row') as [url'|]; [|done].
    cbn [mbind option_bind] in *.
    by destruct (String.eqb url' ""). }
  rewrite Hhit.
  unfold mbind at 1, M_bind, bindM.
  destruct (getOrCreatePage _ _ _ w) as [[page|e] w2]; [|done].
  unfold mbind at 1, M_bind, bindM.
  destruct (generateAudio h text w2) as [[[generated|]|e] w3]; [|done|done].
  unfold mbind at 1, M_bind, bindM. unfold lift at 1.
  destruct (convertToWav _ _ _) as [wav|e]; [|done].
  unfold saveAudioFile, savePageAudio. run.
  destruct (String.eqb (getPublicUrl h _) ""); [done|].
  by intros [= <- _].
Qed.

Lemma audio_hit_is_cached (h : host) (bookId : string) (pageNumber : Z) (text : string)
    (voicePersona : option string) (userId : string) (w w1 : world) (r : audio_result) :
  getOrGeneratePageAudio h bookId pageNumber text voicePersona userId w = (Return r, w1) ->
  audio_cached r = false ->
  usable_audio w bookId pageNumber (default "Zephyr" voicePersona) = None.
Proof.
  intros Hrun Hmiss.
  destruct (usable_audio w bookId pageNumber (default "Zephyr" voicePersona))
    as [[row url]|] eqn:Hu; [|done].
  rewrite (audio_hit h _ _ text _ userId _ _ _ Hu) in Hrun.
  injection Hrun as <- _. done.
Qed.

(** What a miss that returns leaves in the store. *)
Lemma audio_miss_store (h : host) (bookId : string) (pageNumber : Z)
    (text : string) (voicePersona : option string) (userId : string) (w w1 : world)
    (r : audio_result) :
  getOrGeneratePageAudio h bookId pageNumber text voicePersona userId w = (Return r, w1) ->
  audio_cached r = false ->
  exists (page : page) (row : page_audio_row),
    pages w1 !! (bookId, pageNumber) = Some page /\
    page_audio w1 = <[(page_id page, stored_voice voicePersona) := row]> (page_audio w) /\
    audio_url row = Some (audioUrl r) /\ audioUrl r <> "" /\
    audio_duration_seconds row = duration r /\
    (pages w !! (bookId, pageNumber) = Some page \/
     pages w !! (bookId, pageNumber) = None /\ page_id page = next_id w).
Proof.
  intros Hrun Hmiss.
  pose proof (audio_hit_is_cached _ _ _ _ _ _ _ _ _ Hrun Hmiss) as Hu.
  revert Hrun. unfold getOrGeneratePageAudio.
  unfold mbind at 1, M_bind, bindM. rewrite getPageAudio_lookup.
  match goal with |- context [match ?hit with Some _ => _ | None => _ end w] =>
    assert (Hhit : hit = None) end.
  { unfold usable_audio in Hu.
    destruct (pages w !! (bookId, pageNumber)) as [p|]; [|done].
    cbn [mbind option_bind] in *.
    destruct (page_audio w !! (page_id p, default "Zephyr" voicePersona)) as [row'|]; [|done].
    cbn [mbind option_bind] in *.
    destruct (audio_url row') as [url'|]; [|done].
    cbn [mbind option_bind] in *.
    by destruct (String.eqb url' ""). }
  rewrite Hhit.
  unfold mbind at 1, M_bind, bindM.
  destruct (getOrCreatePage_cases bookId pageNumber (Some "placeholder") w)
    as [page [[Hfound ->]|(Hnone & Hid & _ & _ & ->)]].
  - unfold mbind at 1, M_bind, bindM.
    destruct (generateAudio h text w) as [[[generated|]|e] w3] eqn:Hgen; [|done|done].
    unfold mbind at 1, M_bind, bindM. unfold lift at 1.
    destruct (convertToWav _ _ _) as [wav|e] eqn:Hwav; [|done].
    unfold saveAudioFile, savePageAudio. run.
    destruct (String.eqb_spec (getPublicUrl h
      ("audio/" ++ userId ++ "/" ++ bookId ++ "/" ++ "page_" ++ of_int pageNumber ++ "_"
       ++ toLowerCase (default "Zephyr" voicePersona) ++ ".wav")%string) "") as [|Hurl];
      [done|].
    intros [= <- <-].
    pose proof (generateAudio_same_store h text w) as Hstore.
    rewrite Hgen in Hstore. destruct Hstore as (Hpages & _ & Haudio & _).
    cbn in Hpages, Haudio.
    exists page. eexists. cbn. rewrite Hpages, Haudio.
    split; [done|]. split; [reflexivity|]. split; [done|]. split; [done|].
    split; [done|by left].
  - unfold mbind at 1, M_bind, bindM.
    destruct (generateAudio h text _) as [[[generated|]|e] w3] eqn:Hgen; [|done|done].
    unfold mbind at 1, M_bind, bindM. unfold lift at 1.
    destruct (convertToWav _ _ _) as [wav|e] eqn:Hwav; [|done].
    unfold saveAudioFile, savePageAudio. run.
    destruct (String.eqb_spec (getPublicUrl h
      ("audio/" ++ userId ++ "/" ++ bookId ++ "/" ++ "page_" ++ of_int pageNumber ++ "_"
       ++ toLowerCase (default "Zephyr" voicePersona) ++ ".wav")%string) "") as [|Hurl];
      [done|].
    intros [= <- <-].
    pose proof (generateAudio_same_store h text
                  (set_pages (insert (bookId, pageNumber) page) (set_next_id S w))) as Hstore.
    rewrite Hgen in Hstore. destruct Hstore as (Hpages & _ & Haudio & _).
    cbn in Hpages, Haudio.
    exists page. eexists. cbn. rewrite Hpages, Haudio.
    split; [by rewrite lookup_insert_eq|]. split; [reflexivity|].
    split; [done|]. split; [done|]. split; [done|by right].
Qed.

(** X14.  After a call of getOrGeneratePageAudio that missed the cache
    and returned, every later call for the same book, page and voice (a
    voice that is not the empty string), whatever its text and requester,
    returns cached=true with the address and the duration of the first
    call, and leaves the world as it is. *)
Theorem audio_repeat_is_served_from_cache (h : host) (bookId : string) (pageNumber : Z)
    (text : string) (voicePersona : option string) (userId : string) (w w1 : world)
    (r : audio_result) :
  getOrGeneratePageAudio h bookId pageNumber text voicePersona userId w = (Return r, w1) ->
  audio_cached r = false ->
  default "Zephyr" voicePersona <> "" ->
  forall text' userId',
    getOrGeneratePageAudio h bookId pageNumber text' voicePersona userId' w1
    = (Return {| audio_cached := true;
                 audioUrl := audioUrl r;
                 duration := duration r;
                 audio_page := Joined {| joined_book_id := bookId;
                                         joined_page_number := pageNumber |} |}, w1).
Proof.
  intros Hrun Hmiss Hvoice text' userId'.
  destruct (audio_miss_store _ _ _ _ _ _ _ _ _ Hrun Hmiss)
    as (page & row & Hpage & Haudio & Hurl & Hsome & Hduration & _).
  rewrite <- Hduration. apply audio_hit.
  unfold usable_audio. rewrite Hpage. cbn [mbind option_bind].
  rewrite Haudio. unfold stored_voice.
  apply String.eqb_neq in Hvoice. rewrite Hvoice, lookup_insert_eq.
  cbn [mbind option_bind]. rewrite Hurl. cbn [mbind option_bind].
  apply String.eqb_neq in Hsome. by rewrite Hsome.
Qed.

(** X15.  With the empty string as voice the audio is never served from
    the cache: savePageAudio files the row under the voice default, where
    the lookup for the empty voice does not find it, so that every later
    call for the empty voice that returns has generated the audio anew. *)
Theorem empty_voice_is_never_served_from_cache (h : host) (bookId : string)
    (pageNumber : Z) (text : string) (userId : string) (w w1 : world) (r : audio_result) :
  fresh_ids w ->
  getOrGeneratePageAudio h bookId pageNumber text (Some "") userId w = (Return r, w1) ->
  audio_cached r = false ->
  (exists page row,
     pages w1 !! (bookId, pageNumber) = Some page /\
     page_audio w1 !! (page_id page, "default") = Some row /\
     audio_url row = Some (audioUrl r)) /\
  forall text' userId' r' w2,
    getOrGeneratePageAudio h bookId pageNumber text' (Some "") userId' w1 = (Return r', w2) ->
    audio_cached r' = false.
Proof.
  intros [_ Hfresh] Hrun Hmiss.
  pose proof (audio_hit_is_cached _ _ _ _ _ _ _ _ _ Hrun Hmiss) as Hu.
  destruct (audio_miss_store _ _ _ _ _ _ _ _ _ Hrun Hmiss)
    as (page & row & Hpage & Haudio & Hurl & _ & _ & Hwas).
  change (stored_voice (Some "")) with "default" in Haudio.
  split.
  { exists page, row. rewrite Haudio, lookup_insert_eq. done. }
  intros text' userId' r' w2. apply audio_miss.
  unfold usable_audio in *. cbn [default from_option id] in *.
  rewrite Hpage. cbn [mbind option_bind].
  rewrite Haudio, lookup_insert_ne by done.
  destruct Hwas as [Hfound|[Hnone Hid]].
  - by rewrite Hfound in Hu.
  - by rewrite Hid, Hfresh.
Qed.

(** X16.  A failed extraction caches no text.  When a page has no cached
    text and the request is refused before it is sent (no image bytes, or
    a type that is no image type) or failed by the backend,
    getOrExtractPageText throws and the page still has no cached text,
    although its page row now exists; a refused request is not sent to the
    backend at all, a failed one was sent once. *)
Theorem failed_extraction_caches_nothing (h : host) (bookId : string) (pageNumber : Z)
    (imageData mimeType userId : string) (w : world) :
  cached_text w bookId pageNumber = None ->
  fresh_ids w ->
  extraction_fails h imageData mimeType (length (calls w)) ->
  exists e w1,
    getOrExtractPageText h bookId pageNumber imageData mimeType userId w = (Throw e, w1) /\
    cached_text w1 bookId pageNumber = None /\
    (exists page, pages w1 !! (bookId, pageNumber) = Some page) /\
    page_text w1 = page_text w /\
    (refused imageData mimeType -> calls w1 = calls w) /\
    (~ refused imageData mimeType ->
     calls w1 = calls w ++ [ExtractText imageData mimeType]).
Proof.
  intros Hmiss [Hfresh _] Hfails. unfold getOrExtractPageText.
  unfold mbind at 1, M_bind, bindM.
  rewrite getPageTextByBookAndNumber_run, Hmiss. cbn [mbind option_bind].
  unfold mbind at 1, M_bind, bindM.
  destruct (getOrCreatePage_cases bookId pageNumber (Some "placeholder") w)
    as [page [[Hfound ->]|(Hnone & Hid & _ & _ & ->)]].
  - assert (Hkeeps : forall w1, pages w1 = pages w -> page_text w1 = page_text w ->
                       cached_text w1 bookId pageNumber = None /\
                       (exists page, pages w1 !! (bookId, pageNumber) = Some page) /\
                       page_text w1 = page_text w).
    { intros w1 Hp Ht. unfold cached_text in *. rewrite Hp, Ht. by eauto. }
    unfold processImageToText, ask.
    destruct (String.eqb_spec imageData "") as [->|Hdata].
    { run. eexists _, _. split; [reflexivity|].
      destruct (Hkeeps w) as (? & ? & ?); try done.
      repeat split; try done. intros Hok. destruct Hok. by left. }
    destruct (String.eqb_spec mimeType "") as [->|Hmime].
    { run. eexists _, _. split; [reflexivity|].
      destruct (Hkeeps w) as (? & ? & ?); try done.
      repeat split; try done. intros Hok. destruct Hok. by right. }
    destruct (startsWith "image/" mimeType) eqn:Himage; cbn [negb].
    2:{ run. eexists _, _. split; [reflexivity|].
        destruct (Hkeeps w) as (? & ? & ?); try done.
        repeat split; try done. intros Hok. destruct Hok. by right. }
    destruct Hfails as [[?|?]|(message & code & Hreply)]; [done|congruence|].
    run. rewrite Hreply. eexists _, _. split; [reflexivity|].
    destruct (Hkeeps (set_calls (fun l => l ++ [ExtractText imageData mimeType]) w))
      as (? & ? & ?); try done.
    repeat split; try done. intros [?|?]; [done|congruence].
  - set (w0 := set_pages (insert (bookId, pageNumber) page) (set_next_id S w)).
    assert (Hkeeps : forall w1, pages w1 = pages w0 -> page_text w1 = page_text w ->
                       cached_text w1 bookId pageNumber = None /\
                       (exists page, pages w1 !! (bookId, pageNumber) = Some page) /\
                       page_text w1 = page_text w).
    { intros w1 Hp Ht. unfold cached_text. rewrite Hp, Ht. subst w0. cbn.
      rewrite lookup_insert_eq. cbn. rewrite Hid. split; [by apply Hfresh|by eauto]. }
    unfold processImageToText, ask.
    destruct (String.eqb_spec imageData "") as [->|Hdata].
    { run. eexists _, _. split; [reflexivity|].
      destruct (Hkeeps w0) as (? & ? & ?); try done.
      repeat split; try done. intros Hok. destruct Hok. by left. }
    destruct (String.eqb_spec mimeType "") as [->|Hmime].
    { run. eexists _, _. split; [reflexivity|].
      destruct (Hkeeps w0) as (? & ? & ?); try done.
      repeat split; try done. intros Hok. destruct Hok. by right. }
    destruct (startsWith "image/" mimeType) eqn:Himage; cbn [negb].
    2:{ run. eexists _, _. split; [reflexivity|].
        destruct (Hkeeps w0) as (? & ? & ?); try done.
        repeat split; try done. intros Hok. destruct Hok. by right. }
    destruct Hfails as [[?|?]|(message & code & Hreply)]; [done|congruence|].
    run. change (calls w0) with (calls w). rewrite Hreply.
    eexists _, _. split; [reflexivity|].
    destruct (Hkeeps (set_calls (fun l => l ++ [ExtractText imageData mimeType]) w0))
      as (? & ? & ?); try done.
    repeat split; try done. intros [?|?]; [done|congruence].
Qed.

(** X17.  Under a configuration that allows no attempt (maxRetries at
    most 0) generateAudio sends nothing and yields undefined, so that a
    call of getOrGeneratePageAudio which misses the cache throws a
    TypeError, having sent no request and stored no audio. *)
Theorem no_attempt_allowed_no_audio (h : host) (text : string) (w : world) :
  (maxRetries (cfg h) <= 0)%Z ->
  generateAudio h text w = (Return None, w) /\
  forall bookId pageNumber voicePersona userId,
    usable_audio w bookId pageNumber (default "Zephyr" voicePersona) = None ->
    exists w1,
      getOrGeneratePageAudio h bookId pageNumber text voicePersona userId w
      = (Throw (TypeError "Cannot destructure property 'data' of undefined"), w1) /\
      calls w1 = calls w /\ page_audio w1 = page_audio w /\ files w1 = files w.
Proof.
  intros Hcap.
  assert (Hnone : forall w0, generateAudio h text w0 = (Return None, w0)).
  { intros w0. unfold generateAudio, retryWithBackoff.
    by replace (Z.to_nat (maxRetries (cfg h))) with 0%nat by lia. }
  split; [apply Hnone|].
  intros bookId pageNumber voicePersona userId Hu.
  unfold getOrGeneratePageAudio.
  unfold mbind at 1, M_bind, bindM. rewrite getPageAudio_lookup.
  match goal with |- context [match ?hit with Some _ => _ | None => _ end w] =>
    assert (Hhit : hit = None) end.
  { unfold usable_audio in Hu.
    destruct (pages w !! (bookId, pageNumber)) as [p|]; [|done].
    cbn [mbind option_bind] in *.
    destruct (page_audio w !! (page_id p, default "Zephyr" voicePersona)) as [row'|]; [|done].
    cbn [mbind option_bind] in *.
    destruct (audio_url row') as [url'|]; [|done].
    cbn [mbind option_bind] in *.
    by destruct (String.eqb url' ""). }
  rewrite Hhit.
  unfold mbind at 1, M_bind, bindM.
  destruct (getOrCreatePage_cases bookId pageNumber (Some "placeholder") w)
    as [page [[_ ->]|(_ & _ & _ & _ & ->)]];
    unfold mbind at 1, M_bind, bindM; rewrite Hnone; by eexists.
Qed.

Lemma audio_repeat_is_served_from_cache_witness :
  exists r w1,
    getOrGeneratePageAudio Example.steady "book-1" 7 "some text" None "user-1"
      Example.empty = (Return r, w1) /\
    audio_cached r = false /\
    forall text' userId',
      getOrGeneratePageAudio Example.steady "book-1" 7 text' None userId' w1
      = (Return {| audio_cached := true;
                   audioUrl := audioUrl r;
                   duration := duration r;
                   audio_page := Joined {| joined_book_id := "book-1";
                                           joined_page_number := 7 |} |}, w1).
Proof.
  destruct (getOrGeneratePageAudio Example.steady "book-1" 7 "some text" None "user-1"
              Example.empty) as [[r|e] w1] eqn:Hrun.
  - assert (Hmiss : audio_cached r = false).
    { vm_compute in Hrun. by injection Hrun as <- _. }
    exists r, w1. split; [reflexivity|]. split; [exact Hmiss|].
    apply (audio_repeat_is_served_from_cache _ _ _ _ _ _ _ _ _ Hrun Hmiss). discriminate.
  - vm_compute in Hrun. discriminate.
Defined.

Lemma empty_voice_is_never_served_from_cache_witness :
  exists r w1,
    getOrGeneratePageAudio Example.steady "book-1" 7 "some text" (Some "") "user-1"
      Example.empty = (Return r, w1) /\
    (exists page row,
       pages w1 !! ("book-1", 7%Z) = Some page /\
       page_audio w1 !! (page_id page, "default") = Some row /\
       audio_url row = Some (audioUrl r)) /\
    forall text' userId' r' w2,
      getOrGeneratePageAudio Example.steady "book-1" 7 text' (Some "") userId' w1
      = (Return r', w2) ->
      audio_cached r' = false.
Proof.
  destruct (getOrGeneratePageAudio Example.steady "book-1" 7 "some text" (Some "") "user-1"
              Example.empty) as [[r|e] w1] eqn:Hrun.
  - assert (Hmiss : audio_cached r = false).
    { vm_compute in Hrun. by injection Hrun as <- _. }
    assert (Hfresh : fresh_ids Example.empty) by (split; intros; apply lookup_empty).
    exists r, w1. split; [reflexivity|].
    apply (empty_voice_is_never_served_from_cache _ _ _ _ _ _ _ _ Hfresh Hrun Hmiss).
  - vm_compute in Hrun. discriminate.
Defined.

Lemma failed_extraction_caches_nothing_witness :
  exists e w1,
    getOrExtractPageText Scenario.failing "book-1" 7 "aGVsbG8=" "image/png" "user-1"
      Example.empty = (Throw e, w1) /\
    cached_text w1 "book-1" 7 = None /\
    (exists page, pages w1 !! ("book-1", 7%Z) = Some page) /\
    page_text w1 = page_text Example.empty /\
    (refused "aGVsbG8=" "image/png" -> calls w1 = calls Example.empty) /\
    (~ refused "aGVsbG8=" "image/png" ->
     calls w1 = calls Example.empty ++ [ExtractText "aGVsbG8=" "image/png"]).
Proof.
  apply (failed_extraction_caches_nothing Scenario.failing "book-1" 7 "aGVsbG8=" "image/png"
           "user-1" Example.empty).
  - reflexivity.
  - split; intros; apply lookup_empty.
  - right. by eexists _, _.
Defined.

Lemma no_attempt_allowed_no_audio_witness :
  generateAudio Scenario.no_retries "some text" Example.empty
  = (Return None, Example.empty) /\
  forall bookId pageNumber voicePersona userId,
    usable_audio Example.empty bookId pageNumber (default "Zephyr" voicePersona) = None ->
    exists w1,
      getOrGeneratePageAudio Scenario.no_retries bookId pageNumber "some text" voicePersona
        userId Example.empty
      = (Throw (TypeError "Cannot destructure property 'data' of undefined"), w1) /\
      calls w1 = calls Example.empty /\ page_audio w1 = page_audio Example.empty /\
      files w1 = files Example.empty.
Proof.
  apply (no_attempt_allowed_no_audio Scenario.no_retries "some text" Example.empty).
  vm_compute. discriminate.
Defined.

End CacheFacts.

(** ** Backoff and fallback text *)

Module BackoffFacts.
Import SupabaseService GeminiService PageCacheService AudioUtils Spec Runs Notions.

Lemma total_delay_app (a b : list Z) :
  total_delay (a ++ b) = (total_delay a + total_delay b)%Z.
Proof.
  induction a as [|x a IH]; [done|].
  change (total_delay ((x :: a) ++ b)) with (x + total_delay (a ++ b))%Z.
  change (total_delay (x :: a)) with (x + total_delay a)%Z. lia.
Qed.

Lemma retry_loop_delays {A} (operation : M A) (maxAttempts retryDelay : Z) (fuel : nat)
    (attempts : Z) (w : world) :
  (forall w0, sleeps (operation w0).2 = sleeps w0) ->
  (0 <= retryDelay)%Z -> (0 <= attempts)%Z ->
  exists added,
    sleeps (retry_loop fuel maxAttempts retryDelay attempts operation w).2
    = sleeps w ++ added /\
    (0 <= total_delay added
     <= retryDelay * (2 ^ (Z.max maxAttempts (attempts + 1)) - 2 ^ (attempts + 1)))%Z /\
    (Z.of_nat (length added) <= Z.max maxAttempts (attempts + 1) - (attempts + 1))%Z.
Proof.
  intros Hop Hdelay. revert attempts w.
  assert (Hnone : forall attempts w, (0 <= attempts)%Z -> exists added : list Z,
            sleeps w = sleeps w ++ added /\
            (0 <= total_delay added
             <= retryDelay * (2 ^ (Z.max maxAttempts (attempts + 1)) - 2 ^ (attempts + 1)))%Z /\
            (Z.of_nat (length added) <= Z.max maxAttempts (attempts + 1) - (attempts + 1))%Z).
  { intros attempts w Ha. exists []. rewrite app_nil_r. split; [done|].
    cbn [total_delay foldr length].
    assert (2 ^ (attempts + 1) <= 2 ^ Z.max maxAttempts (attempts + 1))%Z
      by (apply Z.pow_le_mono_r; lia).
    split; [nia|lia]. }
  induction fuel as [|fuel IH]; intros attempts w Ha; [by apply Hnone|].
  cbn [retry_loop].
  destruct (Z.ltb_spec attempts maxAttempts) as [Hlt|]; [|by apply Hnone].
  cbn [negb]. unfold try_catch. run.
  pose proof (Hop w) as Hw.
  destruct (operation w) as [[a|e] w0]; cbn [snd] in Hw |- *.
  { rewrite Hw. by apply Hnone. }
  destruct (rate_limited e); cbn [andb]; [|cbn [snd]; rewrite Hw; by apply Hnone].
  destruct (Z.ltb_spec (attempts + 1) maxAttempts) as [Hnext|];
    [|cbn [snd]; rewrite Hw; by apply Hnone].
  unfold sleep. run.
  destruct (IH (attempts + 1)%Z
              (set_sleeps (fun l => l ++ [(2 ^ (attempts + 1) * retryDelay)%Z]) w0))
    as (added & -> & [Hlow Hsum] & Hlen); [lia|].
  exists ((2 ^ (attempts + 1) * retryDelay)%Z :: added).
  cbn [sleeps set_sleeps]. rewrite Hw, <- app_assoc. split; [done|].
  change (total_delay ((2 ^ (attempts + 1) * retryDelay)%Z :: added))
    with (2 ^ (attempts + 1) * retryDelay + total_delay added)%Z.
  cbn [length].
  replace (Z.max maxAttempts (attempts + 1 + 1)) with maxAttempts in * by lia.
  replace (Z.max maxAttempts (attempts + 1)) with maxAttempts by lia.
  replace (attempts + 1 + 1)%Z with (Z.succ (attempts + 1)) in Hsum by lia.
  rewrite Z.pow_succ_r in Hsum by lia.
  assert (0 < 2 ^ (attempts + 1))%Z by (apply Z.pow_pos_nonneg; lia).
  split; [nia|lia].
Qed.

Lemma truncatedText_length (h : host) (text : string) :
  (Z.of_nat (String.length (truncatedText h text))
   <= Z.max (maxTextLength (cfg h)) 0 + 3)%Z /\
  ((Z.of_nat (String.length text) <= maxTextLength (cfg h))%Z ->
   truncatedText h text = text).
Proof.
  unfold truncatedText.
  destruct (Z.ltb_spec (maxTextLength (cfg h)) (Z.of_nat (String.length text))) as [Hlong|Hshort].
  - split; [|lia].
    assert (Hcut : forall n t, (String.length (String.substring 0 n t) <= n)%nat).
    { intros n. induction n as [|n IH]; intros t; destruct t; cbn; try lia.
      pose proof (IH t). lia. }
    assert (Happ : forall a b, String.length (a ++ b) = (String.length a + String.length b)%nat).
    { intros a b. induction a as [|c a IH]; [done|].
      change (String.length (String c (a ++ b)) = S (String.length a + String.length b)).
      cbn [String.length]. by rewrite IH. }
    rewrite Happ. cbn [String.length].
    pose proof (Hcut (Z.to_nat (maxTextLength (cfg h))) text). lia.
  - split; [lia|done].
Qed.

(** X18.  Whatever the backend answers, the delays generateAudio waits
    are bounded: with a non-negative retryDelay and a cap maxRetries of at
    least one, it sleeps at most maxRetries - 1 times and at most
    retryDelay x (2^maxRetries - 2) milliseconds in all. *)
Theorem backoff_is_bounded (h : host) (text : string) (w : world) :
  (0 <= retryDelay (cfg h))%Z ->
  (1 <= maxRetries (cfg h))%Z ->
  exists delays,
    sleeps (generateAudio h text w).2 = sleeps w ++ delays /\
    (0 <= total_delay delays
     <= retryDelay (cfg h) * (2 ^ maxRetries (cfg h) - 2))%Z /\
    (Z.of_nat (length delays) <= maxRetries (cfg h) - 1)%Z.
Proof.
  intros Hdelay Hcap. unfold generateAudio, retryWithBackoff.
  destruct (retry_loop_delays
              (response ← ask (Synthesize (truncatedText h text))
                              (fun n => generateContent h n (truncatedText h text));
               lift (audio_of response))
              (maxRetries (cfg h)) (retryDelay (cfg h))
              (Z.to_nat (maxRetries (cfg h))) 0 w)
    as (delays & Hs & Hsum & Hlen); [|done|done|].
  { intros w0. unfold ask. by run. }
  exists delays. split; [exact Hs|].
  replace (Z.max (maxRetries (cfg h)) (0 + 1)) with (maxRetries (cfg h)) in * by lia.
  change (2 ^ (0 + 1))%Z with 2%Z in Hsum. split; [exact Hsum|lia].
Qed.

Lemma backoff_is_bounded_witness :
  exists delays,
    sleeps (generateAudio Example.throttled_once "read this page aloud" Example.empty).2
    = sleeps Example.empty ++ delays /\
    (0 <= total_delay delays <= 1000 * (2 ^ 3 - 2))%Z /\
    (Z.of_nat (length delays) <= 3 - 1)%Z.
Proof.
  apply (backoff_is_bounded Example.throttled_once "read this page aloud" Example.empty).
  - cbn. lia.
  - cbn. lia.
Defined.

(** X19.  Backend text that JSON.parse rejects still yields a page: on
    a miss with a well-formed request, getOrExtractPageText returns
    cached=false with the whole text as body (or the notice Text
    extraction failed when the backend sent nothing) and empty header and
    footer, and stores the fallback object as the page's text. *)
Theorem unparsable_extraction_becomes_body (h : host) (bookId : string) (pageNumber : Z)
    (imageData mimeType userId : string) (w : world) (chunks : list string) :
  let fullText := foldl String.append "" chunks in
  cached_text w bookId pageNumber = None ->
  imageData <> "" ->
  startsWith "image/" mimeType = true ->
  generateContentStream h (length (calls w)) imageData mimeType = Stream chunks ->
  JSON_parse h fullText = None ->
  exists page w1,
    getOrExtractPageText h bookId pageNumber imageData mimeType userId w
    = (Return {| cached := false;
                 text := {| header := "";
                            body := if String.eqb fullText ""
                                    then "Text extraction failed" else fullText;
                            footer := "" |};
                 text_page := Row page |}, w1) /\
    exists row, cached_text w1 bookId pageNumber = Some row /\
                extracted_text row = parseResponse h fullText.
Proof.
  intros fullText Hmiss Hdata Hmime Hreply Hparse.
  assert (Hnormal : normalizeExtractedText h (parseResponse h fullText)
                    = Return {| header := "";
                                body := if String.eqb fullText ""
                                        then "Text extraction failed" else fullText;
                                footer := "" |}).
  { unfold parseResponse. rewrite Hparse. reflexivity. }
  unfold getOrExtractPageText.
  unfold mbind at 1, M_bind, bindM.
  rewrite getPageTextByBookAndNumber_run, Hmiss. cbn [mbind option_bind].
  unfold mbind at 1, M_bind, bindM.
  destruct (getOrCreatePage_run bookId pageNumber (Some "placeholder") w)
    as (page & w0 & -> & Hpage & Htext & Hcalls & _).
  unfold processImageToText, ask, savePageText.
  apply String.eqb_neq in Hdata. rewrite Hdata, Hmime.
  assert (String.eqb mimeType "" = false) as ->.
  { apply String.eqb_neq. intros ->. discriminate. }
  run. cbn [negb]. cbv beta. rewrite Hcalls, Hreply. run. fold fullText. rewrite Hnormal.
  eexists _, _. split; [reflexivity|].
  eexists. split.
  - unfold cached_text. cbn. rewrite Hpage. cbn. by rewrite lookup_insert_eq.
  - reflexivity.
Qed.

Lemma unparsable_extraction_becomes_body_witness :
  exists page w1,
    getOrExtractPageText Example.steady "book-1" 7 "aGVsbG8=" "image/png" "user-1"
      Example.empty
    = (Return {| cached := false;
                 text := {| header := ""; body := "page text"; footer := "" |};
                 text_page := Row page |}, w1) /\
    exists row, cached_text w1 "book-1" 7 = Some row /\
                extracted_text row = parseResponse Example.steady "page text".
Proof.
  apply (unparsable_extraction_becomes_body Example.steady "book-1" 7 "aGVsbG8=" "image/png"
           "user-1" Example.empty ["page "; "text"]); try reflexivity.
  discriminate.
Defined.

End BackoffFacts.

(** ** Chat exchanges *)

Module ChatFacts.
Import SupabaseService GeminiService ConversationService ChatController Spec ChatSession
  Notions.

(** X20.  Whatever the request and the world, sendMessage touches
    nothing but the message table, the identifier counter and the log of
    backend requests: pages, texts, audio, files, conversations and delays
    stay as they are; it sends at most one request and appends at most two
    messages, and only after having sent the request; and an answer with a
    status other than 200 leaves the world untouched. *)
Theorem sendMessage_frame (h : host) (userId : string)
    (conversationId message : option string) (w w' : world) (o : outcome) :
  sendMessage h userId conversationId message w = (o, w') ->
  (pages w' = pages w /\ page_text w' = page_text w /\ page_audio w' = page_audio w /\
   files w' = files w /\ conversations w' = conversations w /\
   sleeps w' = sleeps w /\ now w' = now w) /\
  messages w `prefix_of` messages w' /\
  (length (messages w') <= length (messages w) + 2)%nat /\
  (length (calls w') <= S (length (calls w)))%nat /\
  (messages w' <> messages w -> length (calls w') = S (length (calls w))) /\
  (forall status b, o = Json status b -> status <> 200%Z -> w' = w).
Proof.
  assert (Hsame : forall o0, (o0, w) = (o, w') ->
            (pages w' = pages w /\ page_text w' = page_text w /\ page_audio w' = page_audio w /\
             files w' = files w /\ conversations w' = conversations w /\
             sleeps w' = sleeps w /\ now w' = now w) /\
            messages w `prefix_of` messages w' /\
            (length (messages w') <= length (messages w) + 2)%nat /\
            (length (calls w') <= S (length (calls w)))%nat /\
            (messages w' <> messages w -> length (calls w') = S (length (calls w))) /\
            (forall status b, o = Json status b -> status <> 200%Z -> w' = w)).
  { intros o0 [= <- <-]. repeat split; try done; lia. }
  unfold sendMessage, sendMessage_try. cbn [default from_option id].
  destruct (_ || _); [by apply Hsame|].
  destruct (_ <? _)%Z; [by apply Hsame|].
  unfold getConversationById. run.
  destruct (conversations w !! default "" conversationId) as [c|];
    cbn -[validateHistory trimHistory]; [|by apply Hsame].
  destruct (negb _); [by apply Hsame|].
  destruct (match cache_expires_at c with Some _ => _ | None => _ end); [by apply Hsame|].
  destruct (gemini_file_uri c) as [uri|]; [|by apply Hsame].
  destruct (String.eqb uri ""); [by apply Hsame|].
  unfold getConversationMessages. run.
  destruct (validateHistory _) as [v|e]; [|destruct e; by apply Hsame].
  destruct (negb (isValid v)); [by apply Hsame|].
  unfold GeminiDocumentService.generateWithFile.
  destruct (String.eqb uri ""); [by apply Hsame|].
  destruct (String.eqb (default "" message) ""); [by apply Hsame|].
  unfold try_catch, ask, createMessage. run.
  destruct (GeminiDocumentService.history_contents _) as [contents|e];
    [|by apply Hsame].
  destruct (generateWithFile _ _ _ _ _ _) as [m code|text u].
  - intros [= <- <-]. cbn. rewrite length_app. cbn.
    repeat split; try done; try lia.
  - intros [= <- <-]. cbn. rewrite !length_app. cbn.
    repeat split; try done; try lia;
      try (rewrite <- app_assoc; by apply prefix_app_r);
      try (by intros status b [= <- _] Hstatus).
Qed.

(** The stored history is made of objects, and so is what trimHistory
    keeps of it: generateWithFile reads every role and content in it. *)
Lemma history_contents_readable (history : list value) :
  Forall (fun entry => nullish entry = false) history ->
  exists contents, GeminiDocumentService.history_contents history = Return contents.
Proof.
  induction 1 as [|entry history Hentry _ [contents IH]]; [by eexists|].
  unfold GeminiDocumentService.history_contents in *. cbn [foldr]. rewrite IH.
  destruct entry; try done; cbn; by eexists.
Qed.

Lemma slice_keeps {A} (P : A -> Prop) (start : Z) (xs : list A) :
  Forall P xs -> Forall P (slice start xs).
Proof. intros H. unfold slice. by apply Forall_drop. Qed.

Lemma trimHistory_keeps (P : value -> Prop) (items : list value) (maxMessages : option Z) :
  Forall P items -> Forall P (trimHistory (Arr items) maxMessages).
Proof.
  intros H. unfold trimHistory. cbn [truthy isArray negb orb].
  destruct (_ && _); repeat apply slice_keeps; done.
Qed.

Lemma stored_history_objects (w : world) (conversationId : string) :
  Forall (fun entry => nullish entry = false) (stored_history w conversationId).
Proof. unfold stored_history. apply Forall_map, Forall_true. done. Qed.

(** generateWithFile on a file, a message and a history it can read: one
    request, and the response or the failure of the backend. *)
Lemma generateWithFile_run (h : host) (uri message : string) (history : list value)
    (instruction : string) (w : world) :
  uri <> "" -> message <> "" ->
  Forall (fun entry => nullish entry = false) history ->
  GeminiDocumentService.generateWithFile h uri message history instruction w
  = (match generateWithFile h (length (calls w)) uri message history instruction with
     | ChatFailed reason code =>
         Throw (Error ("Failed to generate content: " ++ default "undefined" reason)%string)
     | Chat text usageMetadata =>
         Return {| GeminiDocumentService.text := text;
                   GeminiDocumentService.tokensUsed :=
                     {| prompt_tokens := from_option prompt_tokens 0%Z usageMetadata;
                        candidates_tokens := from_option candidates_tokens 0%Z usageMetadata;
                        cached_tokens := from_option cached_tokens 0%Z usageMetadata;
                        total_tokens := from_option total_tokens 0%Z usageMetadata |} |}
     end,
     set_calls (fun l => l ++ [GenerateWithFile uri message history instruction]) w).
Proof.
  intros Huri%String.eqb_neq Hmessage%String.eqb_neq Hhistory.
  destruct (history_contents_readable _ Hhistory) as [contents Hcontents].
  unfold GeminiDocumentService.generateWithFile. rewrite Huri, Hmessage.
  unfold try_catch, ask. run. rewrite Hcontents.
  by destruct (generateWithFile _ _ _ _ _ _).
Qed.

(** A well-formed request on a ready conversation, up to the reading of
    the history. *)
Lemma sendMessage_ready (h : host) (userId conversationId message uri : string)
    (w : world) :
  conversationId <> "" -> message <> "" ->
  (Z.of_nat (String.length message) <= 10000)%Z ->
  chat_ready w userId conversationId uri ->
  sendMessage_try h userId (Some conversationId) (Some message) w
  = (validation ← lift (validateHistory (Arr (stored_history w conversationId)));
     if negb (isValid validation) then
       mret (Json 400 (ValidationBody (ConversationService.error validation)))
     else
       let trimmedHistory :=
         trimHistory (Arr (stored_history w conversationId)) (Some (history_limit h)) in
       response ← GeminiDocumentService.generateWithFile h uri message trimmedHistory
                    (systemInstruction h);
       let tokensUsed := GeminiDocumentService.tokensUsed response in
       _ ← createMessage conversationId "user" message (prompt_tokens tokensUsed) 0;
       assistantMessage ←
         createMessage conversationId "assistant" (GeminiDocumentService.text response)
           (candidates_tokens tokensUsed) (calculateMessageCost (Some tokensUsed));
       mret (Json 200 (ReplyBody (GeminiDocumentService.text response)
                         (message_id assistantMessage) tokensUsed))) w.
Proof.
  intros Hc Hm Hlen (c & Hsome & Howner & Hfresh & Huri & Hbound).
  destruct (request_passes_validation _ _ Hc Hm Hlen) as [Hreq Hshort].
  unfold sendMessage_try. cbn [default from_option id].
  rewrite Hreq, Hshort. unfold getConversationById.
  unfold mbind at 1, M_bind, bindM. unfold mbind at 1, M_bind, bindM.
  unfold read at 1. rewrite Hsome.
  cbn [single data_unless_error SupabaseService.error data mret M_ret World.ret].
  apply String.eqb_eq in Howner. rewrite Howner. cbn [negb].
  unfold mbind at 1, M_bind, bindM. unfold read at 1.
  assert (Hlive : match cache_expires_at c with
                  | Some expires => (expires <? now w)%Z
                  | None => false
                  end = false).
  { destruct (cache_expires_at c) as [expires|]; [|done].
    apply Z.ltb_ge. by apply Hfresh. }
  rewrite Hlive, Huri. apply String.eqb_neq in Hbound. rewrite Hbound.
  unfold mbind at 1, M_bind, bindM. unfold getConversationMessages, read at 1.
  reflexivity.
Qed.

(** X21.  A well-formed message to a conversation that is the user's,
    bound to a file, not expired and of valid history, which the backend
    answers with a text and its usage, is answered 200 with that text and
    the identifier of the new assistant message.  Exactly one request has
    gone to the backend, carrying the trimmed history, and exactly two
    messages have been appended: the user's, then the assistant's, with
    the token counts and the cost of the usage. *)
Theorem sendMessage_exchange (h : host) (userId conversationId message uri : string)
    (w : world) (text : string) (tokensUsed : usage) :
  let history := stored_history w conversationId in
  let trimmedHistory := trimHistory (Arr history) (Some (history_limit h)) in
  conversationId <> "" -> message <> "" ->
  (Z.of_nat (String.length message) <= 10000)%Z ->
  chat_ready w userId conversationId uri ->
  validateHistory (Arr history) = Return valid ->
  generateWithFile h (length (calls w)) uri message trimmedHistory (systemInstruction h)
  = Chat text (Some tokensUsed) ->
  exists w',
    sendMessage h userId (Some conversationId) (Some message) w
    = (Json 200 (ReplyBody text (S (next_id w)) tokensUsed), w') /\
    messages w'
    = messages w ++
      [ {| message_id := next_id w; message_conversation_id := conversationId;
           role := "user"; content := message;
           tokens_used := prompt_tokens tokensUsed; cost := 0 |};
        {| message_id := S (next_id w); message_conversation_id := conversationId;
           role := "assistant"; content := text;
           tokens_used := candidates_tokens tokensUsed;
           cost := calculateMessageCost (Some tokensUsed) |} ] /\
    calls w'
    = calls w ++ [GenerateWithFile uri message trimmedHistory (systemInstruction h)] /\
    next_id w' = S (S (next_id w)).
Proof.
  intros history trimmedHistory Hc Hm Hlen Hready Hvalid Hreply.
  assert (Huri : uri <> "") by (by destruct Hready as (c & _ & _ & _ & _ & Huri)).
  unfold sendMessage. rewrite (sendMessage_ready h _ _ _ uri) by done.
  fold history. rewrite Hvalid. fold trimmedHistory.
  unfold mbind at 1, M_bind, bindM, lift. cbn [isValid valid negb].
  unfold mbind at 1, M_bind, bindM.
  rewrite generateWithFile_run
    by (done || apply trimHistory_keeps, stored_history_objects).
  rewrite Hreply. destruct tokensUsed as [prompt candidates cached total].
  unfold createMessage. run. eexists. split; [reflexivity|].
  cbn. by rewrite <- app_assoc.
Qed.

(** X22.  When the response of the backend carries no usage metadata,
    generateWithFile reports token counts of zero, and sendMessage answers
    200 with the text and a usage of zeros: one request has gone to the
    backend, and the user message and the assistant message are stored
    with 0 tokens and a cost of zero. *)
Theorem reply_without_usage_counts_zero (h : host)
    (userId conversationId message uri : string) (w : world) (text : string) :
  let history := stored_history w conversationId in
  let trimmedHistory := trimHistory (Arr history) (Some (history_limit h)) in
  let none := {| prompt_tokens := 0; candidates_tokens := 0;
                 cached_tokens := 0; total_tokens := 0 |} in
  conversationId <> "" -> message <> "" ->
  (Z.of_nat (String.length message) <= 10000)%Z ->
  chat_ready w userId conversationId uri ->
  validateHistory (Arr history) = Return valid ->
  generateWithFile h (length (calls w)) uri message trimmedHistory (systemInstruction h)
  = Chat text None ->
  exists w',
    sendMessage h userId (Some conversationId) (Some message) w
    = (Json 200 (ReplyBody text (S (next_id w)) none), w') /\
    messages w'
    = messages w ++
      [ {| message_id := next_id w; message_conversation_id := conversationId;
           role := "user"; content := message; tokens_used := 0; cost := 0 |};
        {| message_id := S (next_id w); message_conversation_id := conversationId;
           role := "assistant"; content := text; tokens_used := 0;
           cost := calculateMessageCost (Some none) |} ] /\
    (calculateMessageCost (Some none) == 0)%Q /\
    calls w'
    = calls w ++ [GenerateWithFile uri message trimmedHistory (systemInstruction h)].
Proof.
  intros history trimmedHistory none Hc Hm Hlen Hready Hvalid Hreply.
  assert (Huri : uri <> "") by (by destruct Hready as (c & _ & _ & _ & _ & Huri)).
  unfold sendMessage. rewrite (sendMessage_ready h _ _ _ uri) by done.
  fold history. rewrite Hvalid. fold trimmedHistory.
  unfold mbind at 1, M_bind, bindM, lift. cbn [isValid valid negb].
  unfold mbind at 1, M_bind, bindM.
  rewrite generateWithFile_run
    by (done || apply trimHistory_keeps, stored_history_objects).
  rewrite Hreply. unfold createMessage. run. eexists. split; [reflexivity|].
  cbn. rewrite <- app_assoc. by repeat split.
Qed.

(** X23.  When the backend fails the request, sendMessage forwards to
    [next] the error of generateWithFile, whose message is that of the
    failure after the words Failed to generate content, and stores
    nothing: the world differs from the one before only by the logged
    request. *)
Theorem upstream_failure_stores_nothing (h : host)
    (userId conversationId message uri : string) (w : world)
    (reason code : option string) :
  let history := stored_history w conversationId in
  let trimmedHistory := trimHistory (Arr history) (Some (history_limit h)) in
  conversationId <> "" -> message <> "" ->
  (Z.of_nat (String.length message) <= 10000)%Z ->
  chat_ready w userId conversationId uri ->
  validateHistory (Arr history) = Return valid ->
  generateWithFile h (length (calls w)) uri message trimmedHistory (systemInstruction h)
  = ChatFailed reason code ->
  sendMessage h userId (Some conversationId) (Some message) w
  = (Next (Error ("Failed to generate content: " ++ default "undefined" reason)%string),
     set_calls (fun l => l ++ [GenerateWithFile uri message trimmedHistory
                                 (systemInstruction h)]) w).
Proof.
  intros history trimmedHistory Hc Hm Hlen Hready Hvalid Hreply.
  assert (Huri : uri <> "") by (by destruct Hready as (c & _ & _ & _ & _ & Huri)).
  unfold sendMessage. rewrite (sendMessage_ready h _ _ _ uri) by done.
  fold history. rewrite Hvalid. fold trimmedHistory.
  unfold mbind at 1, M_bind, bindM, lift. cbn [isValid valid negb].
  unfold mbind at 1, M_bind, bindM.
  rewrite generateWithFile_run
    by (done || apply trimHistory_keeps, stored_history_objects).
  by rewrite Hreply.
Qed.

(** X24.  A conversation with more than 50 stored messages cannot go
    on: every well-formed message to it is answered 400 with the history
    too long error, before any trimming, and the world is untouched, so
    that the next message meets the same answer. *)
Theorem long_conversation_is_locked (h : host)
    (userId conversationId message uri : string) (w : world) :
  conversationId <> "" -> message <> "" ->
  (Z.of_nat (String.length message) <= 10000)%Z ->
  chat_ready w userId conversationId uri ->
  (50 < Z.of_nat (length (stored_history w conversationId)))%Z ->
  sendMessage h userId (Some conversationId) (Some message) w
  = (Json 400 (ValidationBody (Some HistoryTooLong)), w).
Proof.
  intros Hc Hm Hlen Hready Hlong.
  unfold sendMessage. rewrite (sendMessage_ready h _ _ _ uri) by done.
  rewrite HistoryValidation.validateHistory_Arr.
  apply Z.ltb_lt in Hlong. rewrite Hlong. by run.
Qed.

Lemma chatting_ready (n : nat) :
  chat_ready (Scenario.chatting n) "user-1" "c-1" "files/abc".
Proof.
  exists Scenario.talk. split; [reflexivity|]. split; [reflexivity|].
  split; [|by split].
  intros expires [= <-]. vm_compute. discriminate.
Qed.

Lemma sendMessage_frame_witness :
  exists o w',
    sendMessage Example.steady "user-1" (Some "c-1") (Some "hello") (Scenario.chatting 2)
    = (o, w') /\
    (pages w' = pages (Scenario.chatting 2) /\
     page_text w' = page_text (Scenario.chatting 2) /\
     page_audio w' = page_audio (Scenario.chatting 2) /\
     files w' = files (Scenario.chatting 2) /\
     conversations w' = conversations (Scenario.chatting 2) /\
     sleeps w' = sleeps (Scenario.chatting 2) /\ now w' = now (Scenario.chatting 2)) /\
    messages (Scenario.chatting 2) `prefix_of` messages w' /\
    (length (messages w') <= length (messages (Scenario.chatting 2)) + 2)%nat /\
    (length (calls w') <= S (length (calls (Scenario.chatting 2))))%nat /\
    (messages w' <> messages (Scenario.chatting 2) ->
     length (calls w') = S (length (calls (Scenario.chatting 2)))) /\
    (forall status b, o = Json status b -> status <> 200%Z -> w' = Scenario.chatting 2).
Proof.
  destruct (sendMessage Example.steady "user-1" (Some "c-1") (Some "hello")
              (Scenario.chatting 2)) as [o w'] eqn:Hrun.
  exists o, w'. split; [reflexivity|].
  exact (sendMessage_frame _ _ _ _ _ _ _ Hrun).
Defined.

Lemma sendMessage_exchange_witness :
  let history := stored_history (Scenario.chatting 2) "c-1" in
  let trimmedHistory := trimHistory (Arr history) (Some (history_limit Example.steady)) in
  exists w',
    sendMessage Example.steady "user-1" (Some "c-1") (Some "hello") (Scenario.chatting 2)
    = (Json 200 (ReplyBody "answer" 3
                   {| prompt_tokens := 12; candidates_tokens := 7;
                      cached_tokens := 0; total_tokens := 19 |}), w') /\
    messages w'
    = messages (Scenario.chatting 2) ++
      [ {| message_id := 2; message_conversation_id := "c-1";
           role := "user"; content := "hello";
           tokens_used := 12; cost := 0 |};
        {| message_id := 3; message_conversation_id := "c-1";
           role := "assistant"; content := "answer";
           tokens_used := 7;
           cost := calculateMessageCost
                     (Some {| prompt_tokens := 12; candidates_tokens := 7;
                              cached_tokens := 0; total_tokens := 19 |}) |} ] /\
    calls w'
    = calls (Scenario.chatting 2)
      ++ [GenerateWithFile "files/abc" "hello" trimmedHistory
            (systemInstruction Example.steady)] /\
    next_id w' = 4%nat.
Proof.
  apply (sendMessage_exchange Example.steady "user-1" "c-1" "hello" "files/abc"
           (Scenario.chatting 2) "answer").
  - discriminate.
  - discriminate.
  - vm_compute. discriminate.
  - apply chatting_ready.
  - reflexivity.
  - reflexivity.
Defined.

Lemma reply_without_usage_counts_zero_witness :
  let none := {| prompt_tokens := 0; candidates_tokens := 0;
                 cached_tokens := 0; total_tokens := 0 |} in
  exists w',
    sendMessage Scenario.no_usage "user-1" (Some "c-1") (Some "hello") (Scenario.chatting 2)
    = (Json 200 (ReplyBody "answer" 3 none), w') /\
    messages w'
    = messages (Scenario.chatting 2) ++
      [ {| message_id := 2; message_conversation_id := "c-1";
           role := "user"; content := "hello"; tokens_used := 0; cost := 0 |};
        {| message_id := 3; message_conversation_id := "c-1";
           role := "assistant"; content := "answer"; tokens_used := 0;
           cost := calculateMessageCost (Some none) |} ] /\
    (calculateMessageCost (Some none) == 0)%Q /\
    calls w'
    = calls (Scenario.chatting 2)
      ++ [GenerateWithFile "files/abc" "hello"
            (trimHistory (Arr (stored_history (Scenario.chatting 2) "c-1"))
               (Some (history_limit Scenario.no_usage)))
            (systemInstruction Scenario.no_usage)].
Proof.
  apply (reply_without_usage_counts_zero Scenario.no_usage "user-1" "c-1" "hello"
           "files/abc" (Scenario.chatting 2) "answer").
  - discriminate.
  - discriminate.
  - vm_compute. discriminate.
  - apply chatting_ready.
  - reflexivity.
  - reflexivity.
Defined.

Lemma upstream_failure_stores_nothing_witness :
  sendMessage Scenario.failing "user-1" (Some "c-1") (Some "hello") (Scenario.chatting 2)
  = (Next (Error "Failed to generate content: 503 Service Unavailable"),
     set_calls (fun l => l ++ [GenerateWithFile "files/abc" "hello"
                                 (trimHistory (Arr (stored_history (Scenario.chatting 2) "c-1"))
                                    (Some (history_limit Scenario.failing)))
                                 (systemInstruction Scenario.failing)])
       (Scenario.chatting 2)).
Proof.
  apply (upstream_failure_stores_nothing Scenario.failing "user-1" "c-1" "hello" "files/abc"
           (Scenario.chatting 2) (Some "503 Service Unavailable") (Some "503")).
  - discriminate.
  - discriminate.
  - vm_compute. discriminate.
  - apply chatting_ready.
  - reflexivity.
  - reflexivity.
Defined.

Lemma long_conversation_is_locked_witness :
  sendMessage Example.steady "user-1" (Some "c-1") (Some "hello") (Scenario.chatting 52)
  = (Json 400 (ValidationBody (Some HistoryTooLong)), Scenario.chatting 52).
Proof.
  apply (long_conversation_is_locked Example.steady "user-1" "c-1" "hello" "files/abc").
  - discriminate.
  - discriminate.
  - vm_compute. discriminate.
  - apply chatting_ready.
  - vm_compute. reflexivity.
Defined.

End ChatFacts.

(** ** Chat sessions *)

Module SessionFacts.
Import SupabaseService GeminiService ConversationService ChatController ChatSessions Spec
  ChatSession Notions.

(** Whatever generateWithFile throws, it throws as an Error of its own. *)
Lemma generateWithFile_throws (h : host) (fileUri userMessage : string)
    (history : list value) (instruction : string) (w w1 : world) (e : exn) :
  GeminiDocumentService.generateWithFile h fileUri userMessage history instruction w
  = (Throw e, w1) ->
  exists m, e = Error m.
Proof.
  unfold GeminiDocumentService.generateWithFile.
  destruct (String.eqb fileUri ""); [intros [= <- _]; by eexists|].
  destruct (String.eqb userMessage ""); [intros [= <- _]; by eexists|].
  unfold try_catch, ask. run.
  destruct (GeminiDocumentService.history_contents history);
    [|intros [= <- _]; by eexists].
  destruct (generateWithFile _ _ _ _ _ _); [|done].
  intros [= <- _]. by eexists.
Qed.

Lemma getConversationById_found (conversationId : string) (c : conversation) (w : world) :
  conversations w !! conversationId = Some c ->
  getConversationById conversationId w = (Return (Some c), w).
Proof. intros Hc. unfold getConversationById. run. by rewrite Hc. Qed.

Lemma get_throws (v : value) (k : string) (e : exn) :
  get v k = Throw e -> exists m, e = TypeError m.
Proof. destruct v; cbn; intros [= <-]; eauto. Qed.

Lemma validateHistory_throws (v : value) (e : exn) :
  validateHistory v = Throw e -> exists m, e = TypeError m.
Proof.
  unfold validateHistory. destruct (negb _ || negb _); [done|].
  destruct v as [| | | | |items|]; try done.
  destruct (_ <? _)%Z; [done|].
  generalize 0%nat. induction items as [|m items IH]; intros i; [done|].
  cbn [validate_from].
  destruct (get m "role") as [role|e1] eqn:Hrole; cbn [mbind result_bind JS.bind];
    [|intros [= <-]; by eapply get_throws].
  destruct (negb (truthy role)); [done|].
  destruct (get m "content") as [content|e2] eqn:Hcontent; cbn [mbind result_bind JS.bind];
    [|intros [= <-]; by eapply get_throws].
  destruct (negb (truthy content)); [done|].
  destruct (negb (known_role role)); [done|].
  destruct content; try done.
  destruct (_ <? _)%Z; [done|]. apply IH.
Qed.

(** X25.  deleteCache on a stored conversation: another user is answered
    403 and nothing changes; the owner is answered 200 whether or not the
    document service could delete the file, and the conversation is left
    without file, name and expiry.  From then on extendCache answers 400
    and every well-formed message of the owner is answered 410, the
    conversation not being prepared for chat. *)
Theorem deleteCache_unbinds (docs : documents) (userId conversationId : string)
    (w : world) (c : conversation) :
  conversations w !! conversationId = Some c ->
  (user_id c <> userId ->
   deleteCache docs userId conversationId w
   = (Answer 403 (error_body "Access denied to this conversation"), w)) /\
  (user_id c = userId ->
   let w' := set_conversations (insert conversationId (unbound c)) w in
   deleteCache docs userId conversationId w
   = (Answer 200 (Obj {[ "success" := Bool true;
                         "message" := Str "File deleted successfully" ]}), w') /\
   extendCache userId (Some conversationId) w'
   = (if String.eqb conversationId ""
      then Answer 400 (error_body "conversationId is required")
      else Answer 400 (error_body "Conversation file not initialized"), w') /\
   forall h message,
     conversationId <> "" -> message <> "" ->
     (Z.of_nat (String.length message) <= 10000)%Z ->
     sendMessage h userId (Some conversationId) (Some message) w'
     = (Json 410 (ExpiredBody "Conversation is not prepared for chat" "CACHE_EXPIRED"),
        w')).
Proof.
  intros Hc. split.
  - intros Hother%String.eqb_neq.
    unfold deleteCache, forward_errors, deleteCache_try.
    unfold mbind at 1, M_bind, bindM.
    rewrite (getConversationById_found _ c) by done. by rewrite Hother.
  - intros Howner w'.
    assert (Hrow : conversations w' !! conversationId = Some (unbound c)).
    { subst w'. cbn. by rewrite lookup_insert_eq. }
    split; [|split].
    + unfold deleteCache, forward_errors, deleteCache_try.
      unfold mbind at 1, M_bind, bindM.
      rewrite (getConversationById_found _ c) by done.
      apply String.eqb_eq in Howner. rewrite Howner. cbn [negb].
      unfold mbind at 1, M_bind, bindM.
      assert (Hfile : exists u : unit,
                match gemini_file_uri c with
                | Some fileUri =>
                    if String.eqb fileUri "" then mret tt
                    else try_catch (lift (deleteFile docs fileUri)) (fun _ => mret tt)
                | None => mret tt
                end w = (Return u, w)).
      { destruct (gemini_file_uri c) as [uri|]; [|by exists tt].
        destruct (String.eqb uri ""); [by exists tt|].
        unfold try_catch, lift. destruct (deleteFile docs uri) as [[]|e]; by exists tt. }
      destruct Hfile as [u ->].
      unfold updateConversation. run. rewrite Hc. by run.
    + unfold extendCache, forward_errors. cbn [default from_option id].
      destruct (String.eqb conversationId ""); [done|].
      unfold mbind at 1, M_bind, bindM.
      rewrite (getConversationById_found _ (unbound c)) by done.
      cbn [user_id unbound gemini_file_uri].
      apply String.eqb_eq in Howner. by rewrite Howner.
    + intros h message Hid Hm Hlen.
      destruct (sendMessage_access_before_state h userId conversationId message w'
                  (unbound c) Hid Hm Hlen Hrow) as [_ Hstate].
      destruct (Hstate Howner) as [_ Hunbound]. by apply Hunbound.
Qed.

(** X26.  extendCache only reads: it leaves every world as it is.  For
    the owner of a conversation bound to a file with an expiry it answers
    200 with that expiry and with isExpired telling whether the expiry is
    past, which is exactly when sendMessage answers a well-formed message
    with 410, the file having expired. *)
Theorem extendCache_reads_only (userId : string) (conversationId : option string)
    (w : world) :
  (extendCache userId conversationId w).2 = w /\
  forall c uri expires,
    conversations w !! default "" conversationId = Some c ->
    user_id c = userId ->
    gemini_file_uri c = Some uri -> uri <> "" ->
    cache_expires_at c = Some expires ->
    default "" conversationId <> "" ->
    exists body,
      extendCache userId conversationId w = (Answer 200 body, w) /\
      field body "isExpired" = Bool (expires <? now w)%Z /\
      field body "expiresAt" = Number (of_Z expires) /\
      forall h message,
        message <> "" -> (Z.of_nat (String.length message) <= 10000)%Z ->
        ((expires <? now w)%Z = true <->
         sendMessage h userId conversationId (Some message) w
         = (Json 410 (ExpiredBody "File has expired. Please upload the book again."
                                  "CACHE_EXPIRED"), w)).
Proof.
  split.
  - unfold extendCache, forward_errors.
    destruct (String.eqb (default "" conversationId) ""); [done|].
    unfold getConversationById. run.
    destruct (conversations w !! default "" conversationId) as [c|]; cbn; [|done].
    destruct (negb _); [done|].
    by destruct (match gemini_file_uri c with Some _ => _ | None => _ end).
  - intros c uri expires Hc Howner Huri Hbound Hexpires Hid.
    eexists. split; [|split; [|split]].
    + unfold extendCache, forward_errors.
      apply String.eqb_neq in Hid. rewrite Hid.
      unfold mbind at 1, M_bind, bindM.
      rewrite (getConversationById_found _ c) by done.
      apply String.eqb_eq in Howner. rewrite Howner, Huri.
      apply String.eqb_neq in Hbound. rewrite Hbound. cbn [negb].
      run. rewrite Hexpires. reflexivity.
    + reflexivity.
    + reflexivity.
    + intros h message Hm Hlen.
      destruct conversationId as [conversationId|]; [|done].
      cbn [default from_option id] in *.
      destruct (Z.ltb_spec expires (now w)) as [Hpast|Hlive].
      * split; [intros _|done].
        destruct (sendMessage_access_before_state h userId conversationId message w c
                    Hid Hm Hlen Hc) as [_ Hstate].
        destruct (Hstate Howner) as [Hexpired _]. by apply (Hexpired expires).
      * split; [done|]. intros Hsend. exfalso.
        assert (Hready : chat_ready w userId conversationId uri).
        { exists c. repeat split; try done. intros e. rewrite Hexpires. intros [= <-]. done. }
        revert Hsend. unfold sendMessage.
        destruct (request_passes_validation _ _ Hid Hm Hlen) as [Hreq Hshort].
        unfold sendMessage_try. cbn [default from_option id].
        rewrite Hreq, Hshort. unfold getConversationById. run. rewrite Hc.
        cbn -[validateHistory trimHistory].
        apply String.eqb_eq in Howner. rewrite Howner, Hexpires. cbn [negb].
        apply Z.ltb_ge in Hlive. rewrite Hlive, Huri.
        apply String.eqb_neq in Hbound. rewrite Hbound.
        unfold getConversationMessages. run.
        destruct (validateHistory _) as [v|e] eqn:Hvalidate;
          [|by destruct (validateHistory_throws _ _ Hvalidate) as [m ->]].
        destruct (negb (isValid v)); [done|].
        destruct (GeminiDocumentService.generateWithFile _ _ _ _ _ _)
          as [[response|e] w2] eqn:Hgenerate.
        -- unfold createMessage. by run.
        -- by destruct (generateWithFile_throws _ _ _ _ _ _ _ _ Hgenerate) as [m ->].
Qed.

Lemma uploadPdfFromUrl_run (docs : documents) (pdfUrl displayName : string)
    (w w1 : world) (uploaded : file) :
  uploadPdfFromUrl docs pdfUrl displayName w = (Return uploaded, w1) ->
  conversations w1 = conversations w /\ messages w1 = messages w /\
  sleeps w1 = sleeps w /\
  now w1 = (now w + fetch_took docs + upload_took docs)%Z.
Proof.
  unfold uploadPdfFromUrl.
  destruct (String.eqb pdfUrl ""); [done|].
  destruct (String.eqb displayName ""); [done|].
  unfold try_catch, elapse. run.
  destruct (fetch docs pdfUrl) as [response|e]; [|done].
  destruct (negb (response_ok response)); [done|].
  destruct (files_upload docs _ _) as [f|e]; [|done].
  by intros [= <- <-].
Qed.

Lemma poll_run (docs : documents) (fuel : nat) (fileName : string) (startTime timeout : Z)
    (n : nat) (w w1 : world) (processed : file) :
  poll docs fuel fileName startTime timeout n w = (Return processed, w1) ->
  exists k,
    files_get docs (n + k) fileName = Return processed /\
    file_state processed = "ACTIVE" /\
    conversations w1 = conversations w /\ messages w1 = messages w /\
    sleeps w1 = sleeps w ++ replicate k 2000%Z /\
    now w1 = (now w + polling_time docs n k)%Z.
Proof.
  revert n w. induction fuel as [|fuel IH]; intros n w; [done|].
  cbn [poll]. unfold elapse, sleep.
  unfold mbind at 1, M_bind, bindM, read.
  destruct (_ <? _)%Z; [|done].
  unfold mbind at 1, M_bind, bindM, update.
  unfold mbind at 1, M_bind, bindM, lift.
  destruct (files_get docs n fileName) as [f|e] eqn:Hget; [|done].
  destruct (String.eqb_spec (file_state f) "ACTIVE") as [Hactive|_].
  - intros [= <- <-]. exists 0%nat. rewrite Nat.add_0_r.
    unfold polling_time, total_delay. cbn. rewrite Nat.add_0_r.
    repeat split; try done. by rewrite app_nil_r.
  - destruct (String.eqb (file_state f) "FAILED"); [done|].
    unfold mbind at 1, M_bind, bindM.
    unfold mbind at 1, M_bind, bindM.
    intros Hrest. apply IH in Hrest as (k & Hk & Hactive & Hc & Hm & Hs & Hnow).
    exists (S k). rewrite Nat.add_succ_r. split; [exact Hk|]. split; [exact Hactive|].
    split; [exact Hc|]. split; [exact Hm|]. split.
    + rewrite Hs. cbn. by rewrite <- app_assoc.
    + rewrite Hnow. unfold polling_time, total_delay. cbn [seq map foldr set_now set_sleeps now].
      rewrite Nat.add_succ_r. cbn [Nat.add]. lia.
Qed.

(** The fuel of the polling loop is enough: when no step takes a negative
    time, every turn that goes on lasts 2000 ms at least, and more fuel
    changes nothing. *)
Lemma poll_fuel (docs : documents) (fuel extra : nat) (fileName : string)
    (startTime timeout : Z) (n : nat) (w : world) :
  (forall i, 0 <= poll_took docs i)%Z -> (forall i, 0 <= timer_lag docs i)%Z ->
  (timeout - (now w - startTime) <= 2000 * Z.of_nat fuel)%Z ->
  poll docs (fuel + extra) fileName startTime timeout n w
  = poll docs fuel fileName startTime timeout n w.
Proof.
  intros Hpoll Hlag. revert n w. induction fuel as [|fuel IH]; intros n w Hleft.
  - destruct extra as [|extra]; [done|].
    cbn [Nat.add poll]. unfold mbind at 1, M_bind, bindM, read.
    assert (Hover : (now w - startTime <? timeout)%Z = false) by (apply Z.ltb_ge; lia).
    by rewrite Hover.
  - cbn [Nat.add poll]. unfold elapse, sleep. run.
    destruct (_ <? _)%Z; [|done].
    destruct (files_get docs n fileName) as [f|e]; [|done].
    destruct (String.eqb (file_state f) "ACTIVE"); [done|].
    destruct (String.eqb (file_state f) "FAILED"); [done|].
    apply IH. cbn. specialize (Hpoll n). specialize (Hlag n). lia.
Qed.

Lemma waitForFileProcessing_fuel (docs : documents) (extra : nat) (fileName : string)
    (w : world) :
  (forall i, 0 <= poll_took docs i)%Z -> (forall i, 0 <= timer_lag docs i)%Z ->
  let timeout := if (fileUploadTimeout docs =? 0)%Z then 60000%Z
                 else fileUploadTimeout docs in
  poll docs (Z.to_nat (timeout / 2000 + 1) + extra) fileName (now w) timeout 0 w
  = poll docs (Z.to_nat (timeout / 2000 + 1)) fileName (now w) timeout 0 w.
Proof.
  intros Hpoll Hlag timeout. apply poll_fuel; [done|done|].
  destruct (Z.le_gt_cases 0 timeout) as [Hpos|Hneg].
  - pose proof (Z.div_mod timeout 2000 ltac:(lia)) as Hdiv.
    pose proof (Z.mod_pos_bound timeout 2000 ltac:(lia)) as Hmod.
    assert (0 <= timeout / 2000)%Z by (apply Z.div_pos; lia). lia.
  - lia.
Qed.

Lemma waitForFileProcessing_run (docs : documents) (fileName : string) (w w1 : world)
    (processed : file) :
  waitForFileProcessing docs fileName w = (Return processed, w1) ->
  exists k,
    files_get docs k fileName = Return processed /\
    file_state processed = "ACTIVE" /\
    conversations w1 = conversations w /\ messages w1 = messages w /\
    sleeps w1 = sleeps w ++ replicate k 2000%Z /\
    now w1 = (now w + polling_time docs 0 k)%Z.
Proof.
  unfold waitForFileProcessing. destruct (String.eqb fileName ""); [done|].
  unfold mbind at 1, M_bind, bindM, read. apply poll_run.
Qed.

Lemma getConversationByBookId_run (userId bookId : string) (w : world) :
  getConversationByBookId userId bookId w
  = (Return (match filter (fun c => user_id c = userId /\ conversation_book_id c = bookId)
                          (map_to_list (conversations w)).*2 with
             | [row] => Some row
             | _ => None
             end), w).
Proof.
  unfold getConversationByBookId. run.
  by destruct (filter _ _) as [|row [|row' rows]].
Qed.

Lemma conversation_for_run (docs : documents) (userId bookId : string) (w w1 : world)
    (c : conversation) :
  well_keyed w ->
  conversation_for docs userId bookId w = (Return c, w1) ->
  conversations w1 !! conversation_id c = Some c /\
  user_id c = userId /\ conversation_book_id c = bookId /\
  well_keyed w1 /\ now w1 = now w /\ messages w1 = messages w /\ calls w1 = calls w /\
  sleeps w1 = sleeps w.
Proof.
  intros Hkeys. unfold conversation_for.
  unfold mbind at 1, M_bind, bindM. rewrite getConversationByBookId_run.
  assert (Hcreate : createConversation docs userId bookId w = (Return c, w1) ->
            conversations w1 !! conversation_id c = Some c /\
            user_id c = userId /\ conversation_book_id c = bookId /\
            well_keyed w1 /\ now w1 = now w /\ messages w1 = messages w /\
            calls w1 = calls w /\ sleeps w1 = sleeps w).
  { unfold createConversation. run.
    destruct (conversations w !! new_conversation_id docs (next_id w)) eqn:Hfree; [done|].
    run. intros [= <- <-]. cbn. rewrite lookup_insert_eq. repeat split; try done.
    intros key c'. cbn. destruct (decide (key = new_conversation_id docs (next_id w)))
      as [->|Hne].
    - rewrite lookup_insert_eq. by intros [= <-].
    - rewrite lookup_insert_ne by done. apply Hkeys. }
  destruct (filter _ _) as [|row [|row' rows]] eqn:Hrows; [exact Hcreate| |exact Hcreate].
  intros [= <- <-].
  assert (Hin : row ∈ filter (fun c => user_id c = userId /\ conversation_book_id c = bookId)
                        (map_to_list (conversations w)).*2)
    by (rewrite Hrows; apply list_elem_of_here).
  apply list_elem_of_filter in Hin as [[Huser Hbook] Hin].
  apply list_elem_of_fmap in Hin as ([key c'] & -> & Hin).
  apply elem_of_map_to_list in Hin. cbn in *.
  rewrite (Hkeys _ _ Hin). by repeat split.
Qed.


Lemma access_granted (lib : library) (userId bookId : string) (book : book) (w : world) :
  books lib !! bookId = Some book ->
  book_user_id book = userId \/ (userId, bookId) ∈ user_books lib ->
  ensureUserHasBookAccess lib userId bookId w = (Return true, w).
Proof.
  intros Hbook Haccess. unfold ensureUserHasBookAccess. rewrite Hbook. run. cbn.
  destruct (String.eqb_spec (book_user_id book) userId) as [|Hother]; [done|].
  destruct Haccess as [|Hmember]; [done|].
  destruct (filter _ (user_books lib)) as [|r rs] eqn:Hrows; [|done].
  assert (Hin : (userId, bookId) ∈ filter (fun r => r = (userId, bookId)) (user_books lib))
    by by apply list_elem_of_filter.
  rewrite Hrows in Hin. by apply not_elem_of_nil in Hin.
Qed.

Lemma conversation_created_once (docs : documents) (userId bookId : string) (w : world) :
  (forall key c, conversations w !! key = Some c ->
     ~ (user_id c = userId /\ conversation_book_id c = bookId)) ->
  conversations w !! new_conversation_id docs (next_id w) = None ->
  let c := {| conversation_id := new_conversation_id docs (next_id w);
              user_id := userId;
              conversation_book_id := bookId;
              gemini_file_uri := None;
              gemini_cache_name := None;
              cache_expires_at := None |} in
  let w1 := set_conversations (insert (conversation_id c) c) (set_next_id S w) in
  conversation_for docs userId bookId w = (Return c, w1) /\
  forall docs', conversation_for docs' userId bookId w1 = (Return c, w1).
Proof.
  intros Hnone Hfree c w1. split.
  - unfold conversation_for. unfold mbind at 1, M_bind, bindM.
    rewrite getConversationByBookId_run.
    destruct (filter _ _) as [|row rows] eqn:Hrows.
    + unfold createConversation. run. rewrite Hfree. by run.
    + exfalso.
      assert (Hin : row ∈ filter (fun c => user_id c = userId /\ conversation_book_id c = bookId)
                            (map_to_list (conversations w)).*2)
        by (rewrite Hrows; apply list_elem_of_here).
      apply list_elem_of_filter in Hin as [Hmatch Hin].
      apply list_elem_of_fmap in Hin as ([key c'] & -> & Hin).
      apply elem_of_map_to_list in Hin. by apply (Hnone key c').
  - intros docs'. unfold conversation_for. unfold mbind at 1, M_bind, bindM.
    rewrite getConversationByBookId_run.
    assert (Hrows : filter (fun c => user_id c = userId /\ conversation_book_id c = bookId)
                      (map_to_list (conversations w1)).*2 = [c]).
    { apply Permutation_singleton_r.
      subst w1. cbn [conversations set_conversations set_next_id].
      rewrite map_to_list_insert by done. cbn [fmap list_fmap snd].
      rewrite filter_cons_True by done.
      apply Permutation_skip.
      destruct (filter _ _) as [|row rows] eqn:Hrows; [done|]. exfalso.
      assert (Hin : row ∈ filter (fun c => user_id c = userId /\ conversation_book_id c = bookId)
                            (map_to_list (conversations w)).*2)
        by (rewrite Hrows; apply list_elem_of_here).
      apply list_elem_of_filter in Hin as [Hmatch Hin].
      apply list_elem_of_fmap in Hin as ([key c'] & -> & Hin).
      apply elem_of_map_to_list in Hin. by apply (Hnone key c'). }
    by rewrite Hrows.
Qed.

(** X28.  For a user with access to a book and no conversation about
    it yet, getOrCreateConversation creates one, unbound, under the next
    identifier, and answers 200 with it; asked again it answers with the
    same conversation and creates nothing. *)
Theorem conversation_is_created_once (lib : library) (docs : documents)
    (userId bookId : string) (book : book) (w : world) :
  books lib !! bookId = Some book ->
  book_user_id book = userId \/ (userId, bookId) ∈ user_books lib ->
  (forall key c, conversations w !! key = Some c ->
     ~ (user_id c = userId /\ conversation_book_id c = bookId)) ->
  conversations w !! new_conversation_id docs (next_id w) = None ->
  exists body w1,
    getOrCreateConversation lib docs userId bookId w = (Answer 200 body, w1) /\
    field (field body "conversation") "id" = Str (new_conversation_id docs (next_id w)) /\
    field (field body "conversation") "hasActiveCache" = Null /\
    forall docs', exists body',
      getOrCreateConversation lib docs' userId bookId w1 = (Answer 200 body', w1) /\
      field (field body' "conversation") "id"
      = Str (new_conversation_id docs (next_id w)).
Proof.
  intros Hbook Haccess Hnone Hfree.
  destruct (conversation_created_once docs userId bookId w Hnone Hfree) as [Hfirst Hagain].
  eexists _, _. split; [|split; [|split]].
  - unfold getOrCreateConversation, forward_errors, getBookById.
    unfold mbind at 1, M_bind, bindM. rewrite Hbook.
    cbn [single data_unless_error SupabaseService.error data mret M_ret World.ret].
    unfold mbind at 1, M_bind, bindM. rewrite (access_granted _ _ _ book) by done.
    cbn [negb]. unfold mbind at 1, M_bind, bindM. rewrite Hfirst.
    unfold getConversationMessages. run. reflexivity.
  - reflexivity.
  - reflexivity.
  - intros docs'. eexists. split.
    + unfold getOrCreateConversation, forward_errors, getBookById.
      unfold mbind at 1, M_bind, bindM. rewrite Hbook.
      cbn [single data_unless_error SupabaseService.error data mret M_ret World.ret].
      unfold mbind at 1, M_bind, bindM. rewrite (access_granted _ _ _ book) by done.
      cbn [negb]. unfold mbind at 1, M_bind, bindM. rewrite Hagain.
      unfold getConversationMessages. run. reflexivity.
    + reflexivity.
Qed.

Lemma deleteCache_unbinds_witness :
  (user_id Scenario.talk <> "user-1" ->
   deleteCache Scenario.uploads "user-1" "c-1" (Scenario.chatting 2)
   = (Answer 403 (error_body "Access denied to this conversation"), Scenario.chatting 2)) /\
  (user_id Scenario.talk = "user-1" ->
   let w' := set_conversations (insert "c-1" (unbound Scenario.talk)) (Scenario.chatting 2) in
   deleteCache Scenario.uploads "user-1" "c-1" (Scenario.chatting 2)
   = (Answer 200 (Obj {[ "success" := Bool true;
                         "message" := Str "File deleted successfully" ]}), w') /\
   extendCache "user-1" (Some "c-1") w'
   = (if String.eqb "c-1" ""
      then Answer 400 (error_body "conversationId is required")
      else Answer 400 (error_body "Conversation file not initialized"), w') /\
   forall h message,
     "c-1" <> "" -> message <> "" ->
     (Z.of_nat (String.length message) <= 10000)%Z ->
     sendMessage h "user-1" (Some "c-1") (Some message) w'
     = (Json 410 (ExpiredBody "Conversation is not prepared for chat" "CACHE_EXPIRED"),
        w')).
Proof.
  apply (deleteCache_unbinds Scenario.uploads "user-1" "c-1" (Scenario.chatting 2)
           Scenario.talk).
  reflexivity.
Defined.

Lemma extendCache_reads_only_witness :
  (extendCache "user-1" (Some "c-1") (Scenario.chatting 2)).2 = Scenario.chatting 2 /\
  exists body,
    extendCache "user-1" (Some "c-1") (Scenario.chatting 2)
    = (Answer 200 body, Scenario.chatting 2) /\
    field body "isExpired" = Bool false /\
    field body "expiresAt" = Number (of_Z 1700003600000).
Proof.
  destruct (extendCache_reads_only "user-1" (Some "c-1") (Scenario.chatting 2))
    as [Hsame Hrow].
  split; [exact Hsame|].
  destruct (Hrow Scenario.talk "files/abc" 1700003600000%Z)
    as (body & Hrun & Hexpired & Hexpires & _); try reflexivity; try discriminate.
  exists body. split; [exact Hrun|]. split; [exact Hexpired|exact Hexpires].
Defined.


Lemma conversation_is_created_once_witness :
  exists body w1,
    getOrCreateConversation Scenario.shelf Scenario.uploads "user-1" "book-1" Example.empty
    = (Answer 200 body, w1) /\
    field (field body "conversation") "id"
    = Str (new_conversation_id Scenario.uploads (next_id Example.empty)) /\
    field (field body "conversation") "hasActiveCache" = Null /\
    forall docs', exists body',
      getOrCreateConversation Scenario.shelf docs' "user-1" "book-1" w1
      = (Answer 200 body', w1) /\
      field (field body' "conversation") "id"
      = Str (new_conversation_id Scenario.uploads (next_id Example.empty)).
Proof.
  apply (conversation_is_created_once Scenario.shelf Scenario.uploads "user-1" "book-1"
           {| book_id := "book-1"; book_user_id := "user-1"; book_title := "A Book" |}
           Example.empty).
  - reflexivity.
  - by left.
  - intros key c Hc. vm_compute in Hc. discriminate.
  - reflexivity.
Defined.

End SessionFacts.

(** ** Page endpoints *)

Module EndpointFacts.
Import SupabaseService GeminiService PageCacheService ChatSessions PageController Spec Runs
  CacheFacts Notions.
#[local] Arguments String.append !s1 s2 : simpl nomatch.

Lemma has_line_terminator_app (a b : string) :
  has_line_terminator (a ++ b) = has_line_terminator a || has_line_terminator b.
Proof.
  induction a as [|c a IH]; [done|].
  cbn [String.append has_line_terminator]. by rewrite IH, orb_assoc.
Qed.

Lemma substring_all (s : string) : String.substring 0 (String.length s) s = s.
Proof. induction s as [|c s IH]; [done|]. cbn. by rewrite IH. Qed.

Lemma last_marker_none (s : string) : includes ";base64," s = false -> last_marker s = None.
Proof.
  induction s as [|c s IH]; [done|].
  cbn [includes last_marker]. intros [Hhere Hrest]%orb_false_iff.
  rewrite (IH Hrest). unfold startsWith in *. by rewrite Hhere.
Qed.

Lemma last_marker_at (type data : string) :
  data <> "" -> includes ";base64," data = false ->
  last_marker (type ++ ";base64," ++ data) = Some (type, data).
Proof.
  intros Hdata Hfree. pose proof (last_marker_none _ Hfree) as Hnone.
  induction type as [|c type IH].
  - change ("" ++ ";base64," ++ data)%string with (";base64," ++ data)%string.
    assert (Htail : last_marker ("base64," ++ data) = None).
    { cbn [String.append last_marker]. rewrite Hnone. done. }
    change (";base64," ++ data)%string with (String ";" ("base64," ++ data)).
    cbn [last_marker]. rewrite Htail.
    change (String ";" ("base64," ++ data)) with (";base64," ++ data)%string.
    assert (Hprefix : String.prefix ";base64," (";base64," ++ data) = true).
    { cbn. by destruct data. }
    rewrite Hprefix.
    assert (Hlen : String.length (";base64," ++ data) = (8 + String.length data)%nat)
      by done.
    rewrite Hlen.
    replace (8 <? 8 + String.length data)%nat with true
      by (symmetry; apply Nat.ltb_lt; destruct data; [done|cbn; lia]).
    replace (8 + String.length data - 8)%nat with (String.length data) by lia.
    cbn [andb]. do 2 f_equal.
    change (String.substring 8 (String.length data) (";base64," ++ data))
      with (String.substring 0 (String.length data) data).
    apply substring_all.
  - change ((String c type) ++ ";base64," ++ data)%string
      with (String c (type ++ ";base64," ++ data)).
    cbn [last_marker]. by rewrite IH.
Qed.

Lemma data_uri_parts (type data : string) :
  type <> "" -> data <> "" ->
  has_line_terminator type = false -> has_line_terminator data = false ->
  includes ";base64," data = false ->
  data_uri ("data:" ++ type ++ ";base64," ++ data) = Some (type, data).
Proof.
  intros Htype Hdata Hline1 Hline2 Hfree. unfold data_uri.
  change (String.prefix "data:" ("data:" ++ type ++ ";base64," ++ data))
    with (String.prefix "" (type ++ ";base64," ++ data)).
  assert (Hprefix : forall s, String.prefix "" s = true) by (by intros []).
  rewrite Hprefix.
  assert (Hlen : String.length ("data:" ++ type ++ ";base64," ++ data)
                 = (5 + String.length (type ++ ";base64," ++ data))%nat) by done.
  rewrite Hlen.
  replace (5 + String.length (type ++ ";base64," ++ data) - 5)%nat
    with (String.length (type ++ ";base64," ++ data)) by lia.
  change (String.substring 5 (String.length (type ++ ";base64," ++ data))
            ("data:" ++ type ++ ";base64," ++ data))
    with (String.substring 0 (String.length (type ++ ";base64," ++ data))
            (type ++ ";base64," ++ data)).
  rewrite substring_all.
  destruct type as [|c type]; [done|].
  change ((String c type) ++ ";base64," ++ data)%string
    with (String c (type ++ ";base64," ++ data)).
  assert (Hline : has_line_terminator (String c (type ++ ";base64," ++ data)) = false).
  { change (String c (type ++ ";base64," ++ data))
      with ((String c type) ++ ";base64," ++ data)%string.
    rewrite !has_line_terminator_app, Hline1, Hline2. done. }
  cbv iota beta. rewrite Hline. by rewrite last_marker_at.
Qed.

Lemma remove_spaces_spaceless (s : string) : spaceless s = true -> remove_spaces s = s.
Proof.
  induction s as [|c s IH]; [done|]. cbn.
  intros [Hc%negb_true_iff Hs]%andb_true_iff. by rewrite Hc, (IH Hs).
Qed.

(** X29.  A data URI is taken apart into its type and its payload:
    data:<type>;base64,<payload> matches with these two groups when the
    type is non-empty and on one line and the payload is non-empty, free of
    white space and of the marker ;base64, itself; and getPageText then
    does with it what it does with the payload and the type sent
    separately, whatever type the request declares beside it. *)
Theorem data_uri_is_split (h : host) (userId bookId : string) (pageNumber : Z)
    (type data : string) (declared : option string) (w : world) :
  type <> "" -> data <> "" ->
  has_line_terminator type = false ->
  spaceless data = true ->
  includes ";base64," data = false ->
  startsWith "data:" data = false ->
  data_uri ("data:" ++ type ++ ";base64," ++ data) = Some (type, data) /\
  getPageText h userId (Some bookId) (Some pageNumber)
    (Some ("data:" ++ type ++ ";base64," ++ data)%string) declared w
  = getPageText h userId (Some bookId) (Some pageNumber) (Some data) (Some type) w.
Proof.
  intros Htype Hdata Hline Hspaces Hfree Hraw.
  assert (Hline2 : has_line_terminator data = false).
  { clear -Hspaces. induction data as [|c data IH]; [done|]. cbn in *.
    apply andb_true_iff in Hspaces as [Hc Hs]. rewrite (IH Hs), orb_false_r.
    destruct c as [[] [] [] [] [] [] [] []]; done. }
  pose proof (data_uri_parts type data Htype Hdata Hline Hline2 Hfree) as Huri.
  split; [exact Huri|].
  unfold getPageText. cbn [default from_option id].
  change (String.eqb ("data:" ++ type ++ ";base64," ++ data) "") with false.
  apply String.eqb_neq in Hdata. rewrite Hdata.
  destruct (String.eqb bookId "" || (pageNumber =? 0)%Z) eqn:Hreq;
    cbn [orb]; [done|].
  change (startsWith "data:" ("data:" ++ type ++ ";base64," ++ data))
    with (String.prefix "" (type ++ ";base64," ++ data)).
  assert (Hprefix : forall s, String.prefix "" s = true) by (by intros []).
  rewrite Hprefix, Huri, Hraw, (remove_spaces_spaceless _ Hspaces). done.
Qed.

(** X30.  When the audio of a page is not cached and the backend meets
    every attempt the cap allows with a rate-limit error, getPageAudio
    answers 429 with the rate-limit notice, after exactly maxRetries
    requests, and stores neither a file nor an audio row. *)
Theorem exhausted_retries_answer_429 (h : host) (userId bookId : string) (pageNumber : Z)
    (text : string) (voicePersona : option string) (w : world) :
  let sent := truncatedText h text in
  let attempt j := audio_of (generateContent h (length (calls w) + j) sent) in
  bookId <> "" -> pageNumber <> 0%Z -> text <> "" ->
  usable_audio w bookId pageNumber (default "Zephyr" voicePersona) = None ->
  (1 <= maxRetries (cfg h))%Z ->
  (forall j, (Z.of_nat j < maxRetries (cfg h))%Z ->
     exists e, attempt j = Throw e /\ rate_limited e = true) ->
  exists body w',
    getPageAudio h userId (Some bookId) (Some pageNumber) (Some text) voicePersona w
    = (Answer 429 body, w') /\
    field body "error" = Str "API rate limit exceeded. Please try again later." /\
    length (calls w') = (length (calls w) + Z.to_nat (maxRetries (cfg h)))%nat /\
    page_audio w' = page_audio w /\ files w' = files w.
Proof.
  intros sent attempt Hbook Hpage Htext Hu Hcap Hlimited.
  unfold getPageAudio. cbn [default from_option id].
  apply String.eqb_neq in Hbook, Htext. apply Z.eqb_neq in Hpage.
  rewrite Hbook, Hpage, Htext. cbn [orb].
  unfold getOrGeneratePageAudio. cbn [default from_option id].
  unfold mbind at 1, M_bind, bindM. rewrite getPageAudio_lookup.
  match goal with |- context [match ?hit with Some _ => _ | None => _ end w] =>
    assert (Hhit : hit = None) end.
  { unfold usable_audio in Hu.
    destruct (pages w !! (bookId, pageNumber)) as [p|]; [|done].
    cbn [mbind option_bind] in *.
    destruct (page_audio w !! (page_id p, default "Zephyr" voicePersona)) as [row'|]; [|done].
    cbn [mbind option_bind] in *.
    destruct (audio_url row') as [url'|]; [|done].
    cbn [mbind option_bind] in *.
    by destruct (String.eqb url' ""). }
  rewrite Hhit.
  unfold mbind at 1, M_bind, bindM.
  assert (Hrow : exists page w0,
            getOrCreatePage bookId pageNumber (Some "placeholder") w = (Return page, w0) /\
            calls w0 = calls w /\ page_audio w0 = page_audio w /\ files w0 = files w).
  { destruct (getOrCreatePage_cases bookId pageNumber (Some "placeholder") w)
      as [page [[_ ->]|(_ & _ & _ & _ & ->)]]; by eexists _, _. }
  destruct Hrow as (page & w0 & -> & Hcalls & Haudio & Hfiles).
  unfold mbind at 1, M_bind, bindM.
  set (k := Z.to_nat (maxRetries (cfg h) - 1)).
  destruct (Hlimited k ltac:(lia)) as (e & He & Hrate).
  destruct (Retry.retry_loop_attempts
              (response ← ask (Synthesize sent) (fun n => generateContent h n sent);
               lift (audio_of response))
              (Synthesize sent)
              (fun n => audio_of (generateContent h n sent))
              (maxRetries (cfg h)) (retryDelay (cfg h))
              ltac:(intros w1; unfold ask; by run)
              k (Z.to_nat (maxRetries (cfg h))) 0 w0)
    as (w' & Hrun & Hc & Hs).
  - lia.
  - lia.
  - intros j Hj. rewrite Hcalls. apply Hlimited. lia.
  - intros e' _. right. lia.
  - unfold generateAudio, retryWithBackoff. fold sent. rewrite Hrun.
    rewrite Hcalls. fold (attempt k). rewrite He. cbn [settled]. rewrite Hrate.
    pose proof (generateAudio_same_store h text w0) as Hstore.
    unfold generateAudio, retryWithBackoff in Hstore. fold sent in Hstore.
    rewrite Hrun in Hstore. destruct Hstore as (_ & _ & Haudio' & Hfiles' & _).
    cbn [snd] in Haudio', Hfiles'.
    exists (failure_body "API rate limit exceeded. Please try again later." e), w'.
    split; [reflexivity|]. split.
    + unfold failure_body, rate_limited in *.
      by destruct (message_of e).
    + rewrite Hc, length_app, length_replicate, Hcalls.
      split; [subst k; lia|]. split; congruence.
Qed.

Lemma data_uri_is_split_witness :
  data_uri ("data:" ++ "image/png" ++ ";base64," ++ "aGVsbG8=") = Some ("image/png", "aGVsbG8=") /\
  getPageText Example.steady "user-1" (Some "book-1") (Some 7%Z)
    (Some ("data:" ++ "image/png" ++ ";base64," ++ "aGVsbG8=")%string) (Some "text/plain")
    Example.empty
  = getPageText Example.steady "user-1" (Some "book-1") (Some 7%Z) (Some "aGVsbG8=")
      (Some "image/png") Example.empty.
Proof.
  apply (data_uri_is_split Example.steady "user-1" "book-1" 7 "image/png" "aGVsbG8="
           (Some "text/plain") Example.empty); (discriminate || reflexivity).
Defined.

Lemma exhausted_retries_answer_429_witness :
  exists body w',
    getPageAudio Scenario.failing "user-1" (Some "book-1") (Some 7%Z) (Some "some text") None
      Example.empty
    = (Answer 429 body, w') /\
    field body "error" = Str "API rate limit exceeded. Please try again later." /\
    length (calls w') = (length (calls Example.empty) + Z.to_nat 3)%nat /\
    page_audio w' = page_audio Example.empty /\ files w' = files Example.empty.
Proof.
  apply (exhausted_retries_answer_429 Scenario.failing "user-1" "book-1" 7 "some text" None
           Example.empty).
  - discriminate.
  - discriminate.
  - discriminate.
  - reflexivity.
  - vm_compute. discriminate.
  - intros j _. eexists. split; reflexivity.
Defined.

End EndpointFacts.
